(** * EOD report dashboard: extraction, audit request and findings

    A shallow embedding of [app.py] (and of the earlier single-script
    variant [app0.py] where it differs): the regular-expression field
    extractor [parse_basic_metrics], the request builder and credential
    gate of [analyze_with_ai], the page script that renders the metrics
    and the collaborator's findings, and the cost estimator
    [estimated_cost].

    Modelling conventions.
    - A Python [str] is a [list ascii]; a character is read as the code
      point of the same number (U+0000..U+00FF).
    - A Python [float] is an IEEE 754 binary64 value, [spec_float] with
      [prec = 53] and [emax = 1024], with the arithmetic of the standard
      library's [SpecFloat].
    - A Python [int] is a [Z].
    - A raised exception is a value of [exn] (class name and message);
      code that can raise returns a [result].
    - A Python [dict] is an association list in insertion order.
    - Streamlit calls are recorded, in order, in a log of [widget]s. *)

From Stdlib Require Import Ascii String.
From Stdlib Require Import List Bool Arith ZArith Lia.
From Stdlib Require Import Permutation Sorted.
From Stdlib Require Import Floats.SpecFloat.
Import ListNotations.

Set Implicit Arguments.
Set Warnings "-register-all,-abstract-large-number".
Local Open Scope list_scope.

(** ** Text *)

Definition text := list ascii.

(** String literals of the source, as [text]. *)
Definition str (s : string) : text := list_ascii_of_string s.

Definition text_eqb (a b : text) : bool :=
  if list_eq_dec ascii_dec a b then true else false.

(** ** Character classes of Python's [re] on [str] patterns *)

Module Chars.

Definition code (c : ascii) : nat := nat_of_ascii c.

Definition between (lo hi : nat) (c : ascii) : bool :=
  (lo <=? code c) && (code c <=? hi).

(** [\d]: the decimal digits; below U+0100 these are 0-9. *)
Definition is_digit (c : ascii) : bool := between 48 57 c.

(** [\s]: [str.isspace]; below U+0100 these are TAB..CR, FS..US,
    space, NEL and NBSP. *)
Definition is_space (c : ascii) : bool :=
  between 9 13 c || between 28 32 c
  || (code c =? 133) || (code c =? 160).

(** [\w]: alphanumeric ([str.isalnum]) or underscore; below U+0100
    that adds the Latin-1 letters and the superscript and fraction
    digits to the ASCII ones. *)
Definition is_word (c : ascii) : bool :=
  is_digit c || between 65 90 c || between 97 122 c || (code c =? 95)
  || (code c =? 170) || (code c =? 178) || (code c =? 179)
  || (code c =? 181) || (code c =? 185) || (code c =? 186)
  || between 188 190 c || between 192 214 c || between 216 246 c
  || between 248 255 c.

(** [[\d\.]]: the characters of a numeric token. *)
Definition is_num (c : ascii) : bool := is_digit c || (code c =? 46).

(** [[A-Z0-9 \-&'\.]]: the characters of a department name. *)
Definition is_dept (c : ascii) : bool :=
  between 65 90 c || is_digit c || (code c =? 32) || (code c =? 45)
  || (code c =? 38) || (code c =? 39) || (code c =? 46).

End Chars.

(** ** Exceptions and results *)

(** A raised Python exception: its class and its message. *)
Record exn := Exn { exn_class : text; exn_msg : text }.

Inductive result (A : Type) : Type :=
| Ok (a : A)
| Raise (e : exn).
Arguments Ok {A} a.
Arguments Raise {A} e.

Definition bind {A B} (r : result A) (f : A -> result B) : result B :=
  match r with
  | Ok a => f a
  | Raise e => Raise e
  end.

Notation "x <- r ;; k" := (bind r (fun x => k))
  (at level 61, r at next level, right associativity).

Fixpoint mapM {A B} (f : A -> result B) (l : list A) : result (list B) :=
  match l with
  | [] => Ok []
  | a :: l' => b <- f a ;; bs <- mapM f l' ;; Ok (b :: bs)
  end.

(** ** Floats *)

Module Float.

Definition float := spec_float.

Definition prec : Z := 53.
Definition emax : Z := 1024.

Definition add : float -> float -> float := SFadd prec emax.
Definition mul : float -> float -> float := SFmul prec emax.
Definition div : float -> float -> float := SFdiv prec emax.
Definition eqb : float -> float -> bool := SFeqb.
Definition ltb : float -> float -> bool := SFltb.
Definition leb : float -> float -> bool := SFleb.

Definition is_nan (x : float) : bool :=
  match x with S754_nan => true | _ => false end.

Definition is_inf (x : float) : bool :=
  match x with S754_infinity _ => true | _ => false end.

Definition zero : float := S754_zero false.

(** The correctly rounded quotient of two integers, [b] not zero: the
    quotient of the two integers taken as unbounded mantissas is
    rounded once, to nearest even. *)
Definition of_Z_exact (a : Z) : float :=
  match a with
  | Z0 => S754_zero false
  | Zpos p => S754_finite false p 0
  | Zneg p => S754_finite true p 0
  end.

Definition ratio (a b : Z) : float := div (of_Z_exact a) (of_Z_exact b).

(** [dec m k] is the float nearest to [m / 10^k]: the value of the
    Python literal whose digits are [m] with [k] of them after the
    point, so [dec 12345 2] is [123.45]. *)
Definition dec (m : Z) (k : nat) : float := ratio m (10 ^ Z.of_nat k).

(** [float(n)] for an [int] within the float range. *)
Definition of_int (n : Z) : float := ratio n 1.

End Float.
Import Float.

Definition ValueError (msg : text) : exn := Exn (str "ValueError") msg.
Definition OverflowError (msg : text) : exn := Exn (str "OverflowError") msg.
Definition AttributeError (msg : text) : exn := Exn (str "AttributeError") msg.

(** *** [float(s)] on numeric tokens

    The tokens that reach [float] are captured by [[\d\.]+] (or are the
    default ["0"]): digits and points only.  [float] accepts such a
    string when it has at most one point and at least one digit, and
    raises [ValueError] otherwise.  On strings with other characters
    (signs, exponents, blanks) Python's [float] does more than this
    function, which raises for all of them; the extractor never passes
    one. *)

Definition digit_val (c : ascii) : Z := Z.of_nat (Chars.code c) - 48.

(** The digits of [s] up to the first non-digit, accumulated on [acc],
    with their number and the rest of the string. *)
Fixpoint read_digits (s : text) (acc : Z) (n : nat) : Z * nat * text :=
  match s with
  | c :: s' =>
      if Chars.is_digit c then read_digits s' (10 * acc + digit_val c) (S n)
      else (acc, n, s)
  | [] => (acc, n, s)
  end.

Definition is_point (c : ascii) : bool := Chars.code c =? 46.

(** [Some (m, k)]: the token denotes [m / 10^k]. *)
Definition decimal_of_token (s : text) : option (Z * nat) :=
  let '(ip, ni, rest) := read_digits s 0 0 in
  match rest with
  | [] => if (0 <? ni)%nat then Some (ip, 0%nat) else None
  | c :: rest' =>
      if is_point c then
        let '(m, nf, rest'') := read_digits rest' ip 0 in
        match rest'' with
        | [] => if (0 <? ni + nf)%nat then Some (m, nf) else None
        | _ :: _ => None
        end
      else None
  end.

Definition float_error (s : text) : exn :=
  ValueError (str "could not convert string to float: '" ++ s ++ str "'").

Definition float_of_str (s : text) : result float :=
  match decimal_of_token s with
  | Some (m, k) => Ok (dec m k)
  | None => Raise (float_error s)
  end.

(** ** Regular expressions

    The fragment of Python's [re] syntax that the source's patterns use,
    with the backtracking semantics of [re]: alternatives left to right,
    greedy repetition longest first, lazy repetition shortest first, and
    the first complete match wins.  Repetition applies to character
    classes only, which is all the source needs. *)

Module Re.

Inductive regex : Type :=
| Lit (l : text)                                  (* literal text *)
| Bnd                                             (* [\b] *)
| Rep (greedy : bool) (min : nat) (cls : ascii -> bool)
                              (* [cls+], [cls*], [cls+?], [cls*?] *)
| Seq (r1 r2 : regex)                             (* [r1 r2] *)
| Alt (r1 r2 : regex)                             (* [r1|r2] *)
| Opt (r : regex)                                 (* [(?:r)?] *)
| Grp (n : nat) (r : regex).                      (* [(r)], group [n] *)

(** The groups set so far, most recent first. *)
Definition groups := list (nat * text).

Fixpoint group (n : nat) (g : groups) : option text :=
  match g with
  | [] => None
  | (i, t) :: g' => if (i =? n)%nat then Some t else group n g'
  end.

Fixpoint strip_prefix (l s : text) : option text :=
  match l, s with
  | [], _ => Some s
  | a :: l', c :: s' => if Ascii.eqb a c then strip_prefix l' s' else None
  | _ :: _, [] => None
  end.

Definition is_word_opt (c : option ascii) : bool :=
  match c with Some c => Chars.is_word c | None => false end.

(** The character before the position that follows [l]. *)
Definition last_of (l : text) (prev : option ascii) : option ascii :=
  fold_left (fun _ c => Some c) l prev.

(** [\b] holds between a word character and a non-word character or
    an end of the text. *)
Definition at_boundary (prev : option ascii) (s : text) : bool :=
  xorb (is_word_opt prev) (is_word_opt (hd_error s)).

Section Matcher.
Variable A : Type.

(** A continuation receives the character before the position, the
    rest of the text there, the number of characters matched so far
    and the groups; [None] makes the matcher backtrack. *)
Definition cont := option ascii -> text -> nat -> groups -> option A.

Fixpoint rep_greedy (cls : ascii -> bool) (min : nat)
    (prev : option ascii) (s : text) (n : nat)
    (k : option ascii -> text -> nat -> option A) : option A :=
  let stop := match min with O => k prev s n | S _ => None end in
  match s with
  | c :: s' =>
      if cls c then
        match rep_greedy cls (pred min) (Some c) s' (S n) k with
        | Some a => Some a
        | None => stop
        end
      else stop
  | [] => stop
  end.

Fixpoint rep_lazy (cls : ascii -> bool) (min : nat)
    (prev : option ascii) (s : text) (n : nat)
    (k : option ascii -> text -> nat -> option A) : option A :=
  let more :=
    match s with
    | c :: s' =>
        if cls c then rep_lazy cls (pred min) (Some c) s' (S n) k
        else None
    | [] => None
    end in
  match min with
  | O => match k prev s n with Some a => Some a | None => more end
  | S _ => more
  end.

Fixpoint run (r : regex) (prev : option ascii) (s : text) (n : nat)
    (g : groups) (k : cont) : option A :=
  match r with
  | Lit l =>
      match strip_prefix l s with
      | Some s' => k (last_of l prev) s' (length l + n) g
      | None => None
      end
  | Bnd => if at_boundary prev s then k prev s n g else None
  | Rep greedy min cls =>
      (if greedy then rep_greedy else rep_lazy) cls min prev s n
        (fun p s' n' => k p s' n' g)
  | Seq r1 r2 =>
      run r1 prev s n g (fun p s' n' g' => run r2 p s' n' g' k)
  | Alt r1 r2 =>
      match run r1 prev s n g k with
      | Some a => Some a
      | None => run r2 prev s n g k
      end
  | Opt r1 =>
      match run r1 prev s n g k with
      | Some a => Some a
      | None => k prev s n g
      end
  | Grp i r1 =>
      run r1 prev s n g
        (fun p s' n' g' => k p s' n' ((i, firstn (n' - n) s) :: g'))
  end.

End Matcher.

(** A match anchored at the current position: its length and groups. *)
Definition match_here (r : regex) (prev : option ascii) (s : text)
  : option (nat * groups) :=
  run r prev s 0 [] (fun _ _ n g => Some (n, g)).

(** [re.search]: the match at the leftmost position that has one. *)
Fixpoint search_from (r : regex) (prev : option ascii) (s : text)
  : option groups :=
  match match_here r prev s with
  | Some (_, g) => Some g
  | None =>
      match s with
      | c :: s' => search_from r (Some c) s'
      | [] => None
      end
  end.

Definition search (r : regex) (t : text) : option groups :=
  search_from r None t.

(** [re.findall], for patterns that cannot match the empty string (as
    all patterns of the source): the non-overlapping matches from left
    to right; each scan resumes where the previous match ended.
    [skip] counts the characters still covered by the last match. *)
Fixpoint findall_from (r : regex) (prev : option ascii) (s : text)
    (skip : nat) : list groups :=
  match s with
  | [] => []
  | c :: s' =>
      match skip with
      | S n => findall_from r (Some c) s' n
      | O =>
          match match_here r prev s with
          | Some (len, g) => g :: findall_from r (Some c) s' (pred len)
          | None => findall_from r (Some c) s' 0
          end
      end
  end.

Definition findall (r : regex) (t : text) : list groups :=
  findall_from r None t 0.

(** [m.group(n)] of a group that took part in the match; findall's
    tuples hold [''] for one that did not. *)
Definition group_or_empty (n : nat) (g : groups) : text :=
  match group n g with Some t => t | None => [] end.

End Re.
Import Re.

Declare Scope re_scope.
Delimit Scope re_scope with re.
Bind Scope re_scope with regex.
Infix "+++" := Seq (at level 60, right associativity) : re_scope.

(** ** The patterns of the source *)

Definition ws1 : regex := Rep true 1 Chars.is_space.      (* [\s+] *)
Definition ws0 : regex := Rep true 0 Chars.is_space.      (* [\s*] *)
Definition num : regex := Rep true 1 Chars.is_num.        (* [[\d\.]+] *)

(** [r"<label>\s+([\d\.]+)"] *)
Definition labelled (label : string) : regex :=
  (Lit (str label) +++ ws1 +++ Grp 1 num)%re.

Definition pat_subtotal : regex := labelled "Merchandise Sales".
Definition pat_tax_a : regex := labelled "Tax A".
Definition pat_tax_b : regex := labelled "Tax B".
Definition pat_tax_c : regex := labelled "Tax C".
Definition pat_tax_total : regex := labelled "Tax Total".

(** [r"\bTotal\s+([\d\.]+)"] *)
Definition pat_grand : regex := (Bnd +++ labelled "Total")%re.

(** [app0.py]: [r"Total\s+([\d\.]+)"] *)
Definition pat_grand0 : regex := labelled "Total".

Definition methods : list text :=
  [str "Cash"; str "AmEx"; str "Visa"; str "Master"; str "Other";
   str "Discover"].

Definition method_alt : regex :=
  Alt (Lit (str "Cash")) (Alt (Lit (str "AmEx")) (Alt (Lit (str "Visa"))
    (Alt (Lit (str "Master")) (Alt (Lit (str "Other"))
      (Lit (str "Discover")))))).

(** [r"\b(Cash|AmEx|Visa|Master|Other|Discover):\s*([\d\.]+)"] *)
Definition pat_pay : regex :=
  (Bnd +++ Grp 1 method_alt +++ Lit (str ":") +++ ws0 +++ Grp 2 num)%re.

(** [r"([A-Z0-9 \-&'\.]+?)\s+(\d+)\s+([\d\.]+)\s+(?:[\d\.]+\s+)?[\d\.]+"] *)
Definition pat_dept : regex :=
  (Grp 1 (Rep false 1 Chars.is_dept) +++ ws1
   +++ Grp 2 (Rep true 1 Chars.is_digit) +++ ws1
   +++ Grp 3 num +++ ws1
   +++ Opt (num +++ ws1) +++ num)%re.

(** ** Python dictionaries

    Keys in insertion order; assigning to a key that is present keeps
    its place.  The order is what [.items()] and [.values()] iterate in,
    hence the order of the pie chart and of the payments sum. *)

Module Dict.

Definition dict (V : Type) := list (text * V).

Fixpoint get {V} (d : dict V) (k : text) : option V :=
  match d with
  | [] => None
  | (k', v) :: d' => if text_eqb k' k then Some v else get d' k
  end.

(** [d[k] = v] *)
Fixpoint set {V} (d : dict V) (k : text) (v : V) : dict V :=
  match d with
  | [] => [(k, v)]
  | (k', v') :: d' =>
      if text_eqb k' k then (k', v) :: d' else (k', v') :: set d' k v
  end.

(** [dict(pairs)] *)
Definition of_pairs {V} (l : list (text * V)) : dict V :=
  fold_left (fun d kv => set d (fst kv) (snd kv)) l [].

Definition keys {V} (d : dict V) : list text := map fst d.
Definition values {V} (d : dict V) : list V := map snd d.

End Dict.
Import Dict.

(** ** [parse_basic_metrics] *)

Definition TypeError (msg : text) : exn := Exn (str "TypeError") msg.

(** [grab(pat)]: the first match's group 1 as a float, [float("0")]
    when the pattern matches nowhere. *)
Definition grab (t : text) (pat : regex) : result float :=
  match search pat t with
  | Some g =>
      match group 1 g with
      | Some tok => float_of_str tok
      | None => Raise (TypeError (str "float() argument must be a string or a real number, not 'NoneType'"))
      end
  | None => float_of_str (str "0")
  end.

(** A value of the payments dict: the captured token that [dict(...)]
    stores, or the float the loop replaces it with. *)
Inductive pay_val :=
| Tok (t : text)
| Amt (f : float).

(** [float(v)] for a value of the payments dict or the default [0]. *)
Definition float_of_pay (v : option pay_val) : result float :=
  match v with
  | Some (Tok t) => float_of_str t
  | Some (Amt f) => Ok f
  | None => Ok (of_int 0)
  end.

(** [dict(re.findall(pat_pay, text))] *)
Definition pay_pairs (t : text) : list (text * pay_val) :=
  map (fun g => (group_or_empty 1 g, Tok (group_or_empty 2 g)))
      (findall pat_pay t).

(** [for k in [...]: pays[k] = float(pays.get(k, 0))] *)
Fixpoint pay_loop (ks : list text) (pays : dict pay_val)
  : result (dict pay_val) :=
  match ks with
  | [] => Ok pays
  | k :: ks' =>
      f <- float_of_pay (get pays k) ;;
      pay_loop ks' (set pays k (Amt f))
  end.

Definition parse_payments (t : text) : result (dict pay_val) :=
  pay_loop methods (of_pairs (pay_pairs t)).

Record dept_row := DeptRow { Department : text; Qty : Z; Sales : float }.

(** [int(s)] for a string of digits, stored in an [int64] column:
    [astype(int)] raises when the value does not fit. *)
Definition int64_of_digits (s : text) : result Z :=
  let '(n, _, _) := read_digits s 0 0 in
  if (n <? 2 ^ 63)%Z then Ok n
  else Raise (OverflowError (str "Python int too large to convert to C long")).

(** The department table: the three groups of every match, then the
    [Qty] column converted, then the [Sales] column. *)
Definition parse_dept (t : text) : result (list dept_row) :=
  let rows := findall pat_dept t in
  qtys <- mapM (fun g => int64_of_digits (group_or_empty 2 g)) rows ;;
  sales <- mapM (fun g => float_of_str (group_or_empty 3 g)) rows ;;
  Ok (map (fun '(g, (q, s)) => DeptRow (group_or_empty 1 g) q s)
          (combine rows (combine qtys sales))).

Record metrics := Metrics {
  subtotal : float;
  tax_a : float;
  tax_b : float;
  tax_c : float;
  tax_total : float;
  grand_total : float;
  payments : dict pay_val;
  dept_df : list dept_row
}.

Definition parse_basic_metrics (t : text) : result metrics :=
  subtotal <- grab t pat_subtotal ;;
  tax_a <- grab t pat_tax_a ;;
  tax_b <- grab t pat_tax_b ;;
  tax_c <- grab t pat_tax_c ;;
  tax_total <- grab t pat_tax_total ;;
  grand <- grab t pat_grand ;;
  pays <- parse_payments t ;;
  dept_df <- parse_dept t ;;
  Ok (Metrics subtotal tax_a tax_b tax_c tax_total grand pays dept_df).

(** [app0.py]: the grand total of the single-script variant, whose
    pattern has no [\b]. *)
Definition grand_total0 (t : text) : result float := grab t pat_grand0.

(** ** JSON values

    What [json.loads] returns and [json.dumps] takes.  An object is a
    dict ([Dict.get] reads it). *)

Inductive json : Type :=
| JNull
| JBool (b : bool)
| JInt (n : Z)
| JFloat (f : float)
| JStr (s : text)
| JArr (l : list json)
| JObj (o : list (text * json)).

(** Python truth value: [if v:] *)
Definition truthy (v : json) : bool :=
  match v with
  | JNull => false
  | JBool b => b
  | JInt n => negb (n =? 0)%Z
  | JFloat f => negb (eqb f zero)
  | JStr s => match s with [] => false | _ => true end
  | JArr l => match l with [] => false | _ => true end
  | JObj o => match o with [] => false | _ => true end
  end.

(** ** [analyze_with_ai] *)

(** [sort_values("Sales", ascending=False)]: rows by descending sales,
    rows whose sales are NaN last (in their original order).  pandas
    leaves the order of rows with equal sales to its sort routine; here
    they keep their original order. *)
Fixpoint insert_desc (r : dept_row) (l : list dept_row) : list dept_row :=
  match l with
  | [] => [r]
  | y :: l' =>
      if leb (Sales y) (Sales r) then r :: l else y :: insert_desc r l'
  end.

Definition sort_desc (l : list dept_row) : list dept_row :=
  fold_right insert_desc [] l.

Definition sort_values_desc (df : list dept_row) : list dept_row :=
  sort_desc (filter (fun r => negb (is_nan (Sales r))) df)
  ++ filter (fun r => is_nan (Sales r)) df.

(** [.head(20)] of the sorted table, [[]] for an empty one. *)
Definition dept_preview (df : list dept_row) : list dept_row :=
  match df with
  | [] => []
  | _ :: _ => firstn 20 (sort_values_desc df)
  end.

(** [.to_dict(orient="records")] *)
Definition record_of_row (r : dept_row) : json :=
  JObj [(str "Department", JStr (Department r));
        (str "Qty", JInt (Qty r));
        (str "Sales", JFloat (Sales r))].

Definition system_prompt : text :=
  str "You are a meticulous retail auditor. Given an end-of-day report, you MUST return strict JSON with findings.".

(** The instruction strings; characters outside Latin-1 appear in these
    literals as their UTF-8 bytes. *)
Definition instructions : list text :=
  [str "Summarize key insights (top departments, peak hours if present).";
   str "Validate math: subtotal + taxes ≈ grand_total; payment sums ≈ grand_total.";
   str "Flag anomalies: negative numbers, zero tax when subtotal>0, drawer mismatches, weird spikes, missing hours.";
   str "Severity levels: INFO, WARNING, CRITICAL."].

Definition json_of_pay (v : pay_val) : json :=
  match v with
  | Tok t => JStr t
  | Amt f => JFloat f
  end.

(** The [user] dict of the request. *)
Definition user_payload (t : text) (m : metrics) : json :=
  JObj [(str "instructions", JArr (map JStr instructions));
        (str "parsed_numbers",
         JObj [(str "subtotal", JFloat (subtotal m));
               (str "tax_a", JFloat (tax_a m));
               (str "tax_b", JFloat (tax_b m));
               (str "tax_c", JFloat (tax_c m));
               (str "tax_total", JFloat (tax_total m));
               (str "grand_total", JFloat (grand_total m));
               (str "payments",
                JObj (map (fun kv => (fst kv, json_of_pay (snd kv)))
                          (payments m)));
               (str "departments_top20",
                JArr (map record_of_row (dept_preview (dept_df m))))]);
        (str "raw_text_excerpt", JStr (firstn 6000 t))].

(** The call [client.chat.completions.create(...)]: the model, the
    system message and the user message (before [json.dumps]); the
    temperature [0.1] and the response format [json_object] are
    constants of the call. *)
Record request := Request {
  req_model : text;
  req_system : text;
  req_user : json
}.

(** The usage object of a reply, as the mapping the source reads with
    [usage.get]. *)
Definition usage := dict Z.

(** What came back: [json.loads(content)], which raises on text that is
    not JSON, and the usage if the reply has one. *)
Record reply := Reply {
  reply_content : result json;
  reply_usage : option usage
}.

(** The external collaborator, when a credential is configured: the
    call returns a reply or raises. *)
Definition client := request -> result reply.

Definition no_key_error : json :=
  JObj [(str "error", JStr (str "No OPENAI_API_KEY set."))].

Definition analyze_with_ai (c : option client) (t : text) (m : metrics)
    (model_name : text) : result (json * option usage) :=
  match c with
  | None => Ok (no_key_error, None)
  | Some call =>
      resp <- call (Request model_name system_prompt (user_payload t m)) ;;
      result <- reply_content resp ;;
      Ok (result, reply_usage resp)
  end.

(** ** [estimated_cost] *)

Definition ZeroDivisionError (msg : text) : exn :=
  Exn (str "ZeroDivisionError") msg.

(** [a / b] on two [int]s: the correctly rounded quotient; it raises
    when that is beyond the largest float. *)
Definition truediv (a b : Z) : result float :=
  if (b =? 0)%Z then Raise (ZeroDivisionError (str "division by zero"))
  else
    let q := ratio a b in
    if is_inf q then
      Raise (OverflowError
               (str "integer division result too large for a float"))
    else Ok q.

Definition estimated_cost (model_name : text) (in_t out_t : Z)
  : result float :=
  if text_eqb model_name (str "gpt-5") then
    i <- truediv in_t 1000000 ;;
    o <- truediv out_t 1000000 ;;
    Ok (add (mul i (dec 125 2)) (mul o (dec 100 1)))
  else if text_eqb model_name (str "gpt-5-mini") then
    i <- truediv in_t 1000000 ;;
    o <- truediv out_t 1000000 ;;
    Ok (add (mul i (dec 25 2)) (mul o (dec 20 1)))
  else Ok (dec 0 1).

(** ** The page script

    A run of the script is the list of Streamlit elements it has drawn,
    in order, and how it ended: normally, or with an exception (which
    Streamlit shows below the elements drawn so far). *)

(** A table as [pd.DataFrame] holds it: column names and rows of cells;
    [None] is a missing value (NaN). *)
Record frame := Frame {
  columns : list text;
  rows : list (list (option json))
}.

Inductive widget : Type :=
| Metric (label : text) (dollars : float)      (* [f"${x:,.2f}"] *)
| PieChart (title : text) (slices : list (text * pay_val))
| Subheader (s : text)
| BarChart (bars : list dept_row)
| DeptTable (table : list dept_row)
| Markdown (s : text)
| Write (v : json)
| IssuesTable (df : frame)
| Success (s : text)
| Error (v : json)
| TokensCaption (input output total : Z)
| CostCaption (cost : float)                   (* [f"${c:.4f}"] *)
| RawText (s : text)
| Info (s : text).

Module Script.

Definition script (A : Type) : Type := list widget * result A.

Definition ret {A} (a : A) : script A := ([], Ok a).

Definition andthen {A B} (s : script A) (f : A -> script B) : script B :=
  match s with
  | (w, Ok a) => let '(w', r) := f a in (w ++ w', r)
  | (w, Raise e) => (w, Raise e)
  end.

Definition draw (w : widget) : script unit := ([w], Ok tt).

Definition lift {A} (r : result A) : script A := ([], r).

Definition log {A} (s : script A) : list widget := fst s.
Definition outcome {A} (s : script A) : result A := snd s.

End Script.
Import Script.

Notation "x <~ s ;; k" := (Script.andthen s (fun x => k))
  (at level 61, s at next level, right associativity).
Notation "s ;;; k" := (Script.andthen s (fun _ => k))
  (at level 61, right associativity).

(** [sum(m['payments'].values())]: from the [int] 0, left to right. *)
Definition sum_pays (vs : list pay_val) : result float :=
  fold_left
    (fun acc v =>
       a <- acc ;;
       match v with
       | Amt f => Ok (add a f)
       | Tok _ =>
           Raise (TypeError (str "unsupported operand type(s) for +: 'float' and 'str'"))
       end)
    vs (Ok (of_int 0)).

(** The KPI row, the payments pie and the department chart and table. *)
Definition metrics_section (m : metrics) : script unit :=
  draw (Metric (str "🛒 Merchandise Sales") (subtotal m)) ;;;
  draw (Metric (str "🧾 Tax Total") (tax_total m)) ;;;
  total <~ lift (sum_pays (values (payments m))) ;;
  draw (Metric (str "💵 Payments (sum)") total) ;;;
  draw (Metric (str "🏁 Grand Total") (grand_total m)) ;;;
  draw (PieChart (str "Payment Methods") (payments m)) ;;;
  match dept_df m with
  | [] => ret tt
  | _ :: _ =>
      draw (Subheader (str "📂 Sales by Department")) ;;;
      draw (BarChart (sort_values_desc (dept_df m))) ;;;
      draw (DeptTable (sort_values_desc (dept_df m)))
  end.

(** [isinstance(result, dict) and "error" in result] *)
Definition error_of (result : json) : option json :=
  match result with
  | JObj o => get o (str "error")
  | _ => None
  end.

(** [result.get(key, default)]: only a dict has [get]. *)
Definition json_get (res : json) (key : text) (default : json)
  : result json :=
  match res with
  | JObj o => Ok (match get o key with Some v => v | None => default end)
  | _ => Raise (AttributeError (str "object has no attribute 'get'"))
  end.

(** The column names of a list of records: every key, in the order of
    first appearance. *)
Fixpoint add_keys (cols : list text) (ks : list text) : list text :=
  match ks with
  | [] => cols
  | k :: ks' =>
      add_keys (if existsb (text_eqb k) cols then cols else cols ++ [k]) ks'
  end.

Definition frame_of_records (recs : list (list (text * json))) : frame :=
  let cols := fold_left (fun cols r => add_keys cols (keys r)) recs [] in
  Frame cols (map (fun r => map (fun c => get r c) cols) recs).

(** The records of a JSON list of objects. *)
Fixpoint records_of (l : list json) : option (list (list (text * json))) :=
  match l with
  | [] => Some []
  | JObj o :: l' => option_map (cons o) (records_of l')
  | _ :: _ => None
  end.

Section Page.

(** [pd.DataFrame(v)] for a value that is not a list of objects (the
    shape the source expects): pandas builds some other table or
    raises; which is left open. *)
Variable DataFrame_other : json -> result frame.

Definition DataFrame (v : json) : result frame :=
  match v with
  | JArr l =>
      match records_of l with
      | Some recs => Ok (frame_of_records recs)
      | None => DataFrame_other v
      end
  | _ => DataFrame_other v
  end.

(** Summary and findings of a result without an ["error"] key. *)
Definition findings_section (result : json) : script unit :=
  draw (Markdown (str "**Summary**")) ;;;
  summary <~ lift (json_get result (str "summary") (JStr (str "—"))) ;;
  draw (Write summary) ;;;
  issues <~ lift (json_get result (str "issues") (JArr [])) ;;
  if truthy issues then
    df_issues <~ lift (DataFrame issues) ;;
    draw (Markdown (str "**Findings**")) ;;;
    draw (IssuesTable df_issues)
  else draw (Success (str "No issues found by AI.")).

Definition usage_get (u : usage) (k : text) : Z :=
  match get u k with Some n => n | None => 0%Z end.

(** Tokens and cost, when the reply has a usage that is not empty. *)
Definition usage_section (model : text) (u : option usage) : script unit :=
  match u with
  | None | Some [] => ret tt
  | Some u =>
      let in_tok := usage_get u (str "prompt_tokens") in
      let out_tok := usage_get u (str "completion_tokens") in
      draw (TokensCaption in_tok out_tok (in_tok + out_tok)) ;;;
      cost <~ lift (estimated_cost model in_tok out_tok) ;;
      draw (CostCaption cost)
  end.

(** The section under "AI Audit & Feedback" once the analysis runs. *)
Definition ai_section (c : option client) (t : text) (m : metrics)
    (model : text) : script unit :=
  ru <~ lift (analyze_with_ai c t m model) ;;
  let '(result, u) := ru in
  match error_of result with
  | Some msg => draw (Error msg)
  | None => findings_section result ;;; usage_section model u
  end.

(** The whole script.  [uploaded] is the text that [extract_text]
    reads from the uploaded file, if there is one; [button] whether
    the analysis button was pressed and [run_auto] the sidebar's
    checkbox.  The title, the sidebar and the uploader, which every run
    draws first, are left out of the log. *)
Definition page (c : option client) (uploaded : option text)
    (model : text) (button run_auto : bool) : script unit :=
  match uploaded with
  | Some t =>
      m <~ lift (parse_basic_metrics t) ;;
      metrics_section m ;;;
      draw (Subheader (str "🤖 AI Audit & Feedback")) ;;;
      (if button || run_auto then ai_section c t m model else ret tt) ;;;
      draw (RawText (firstn 20000 t))
  | None =>
      draw (Info (str "Upload a Crystal Reports–style EOD PDF to see the dashboard and run the AI audit."))
  end.

End Page.

(** ** Sample inputs *)

Definition nl : text := [ascii_of_nat 10].

(** The report of the end-to-end scenario. *)
Definition scenario_text : text :=
  str "Merchandise Sales 200.00" ++ nl ++ str "Tax A 10.00" ++ nl
  ++ str "Tax Total 16.00" ++ nl ++ str "Total 216.00" ++ nl
  ++ str "Cash: 216.00" ++ nl ++ str "GROCERY 10 150.00" ++ nl
  ++ str "DELI 5 50.00".

(** Fifty department rows with pairwise different sales,
    [37 * i mod 101] for [i] from 1 to 50. *)
Definition sample_rows : list dept_row :=
  map (fun i => DeptRow (str "DEPT") (Z.of_nat i)
                  (of_int (Z.of_nat (37 * i mod 101))))
      (seq 1 50).

Definition sample_metrics : metrics :=
  Metrics zero zero zero zero zero zero [] sample_rows.

(** ** Occurrences of a label in a text *)

(** [t.find(needle)]: the index of the first occurrence. *)
Fixpoint find_sub (needle hay : text) : option nat :=
  match strip_prefix needle hay with
  | Some _ => Some 0
  | None =>
      match hay with
      | [] => None
      | _ :: hay' => option_map S (find_sub needle hay')
      end
  end.

(** [needle in t] *)
Definition occurs (needle hay : text) : bool :=
  match find_sub needle hay with Some _ => true | None => false end.

Definition starts_with (l s : text) : bool :=
  match strip_prefix l s with Some _ => true | None => false end.

Definition starts_with_any (ls : list text) (s : text) : bool :=
  existsb (fun l => starts_with l s) ls.

(** None of the labels [ls] starts at a position of [pre] in the text
    [pre ++ rest]. *)
Fixpoint starts_nowhere (ls : list text) (pre rest : text) : bool :=
  match pre with
  | [] => true
  | _ :: pre' =>
      negb (starts_with_any ls (pre ++ rest)) && starts_nowhere ls pre' rest
  end.

(** A run of [cls] characters ends here: the text goes on, if at all,
    with a character outside the class. *)
Definition ends_class (cls : ascii -> bool) (rest : text) : bool :=
  match rest with
  | [] => true
  | c :: _ => negb (cls c)
  end.

(** The token ends here: the text goes on, if at all, with a character
    that is neither a digit nor a point. *)
Definition token_ends (post : text) : bool := ends_class Chars.is_num post.

(** The six scalar patterns of [parse_basic_metrics]. *)
Definition scalar_patterns : list regex :=
  [pat_subtotal; pat_tax_a; pat_tax_b; pat_tax_c; pat_tax_total; pat_grand].

(** A pattern is guarded by labels when it can only match where one of
    them starts. *)
Definition guarded (ls : list text) (r : regex) : Prop :=
  forall prev s,
    starts_with_any ls s = false -> match_here r prev s = None.

(** No word character just before: the start of the text or a
    character outside [\w]. *)
Definition word_starts (pre : text) : bool :=
  negb (is_word_opt (last_of pre None)).

(** ** Orders on department rows *)

(** Sales in descending order, and strictly so. *)
Definition desc (a b : dept_row) : Prop := leb (Sales b) (Sales a) = true.
Definition sdesc (a b : dept_row) : Prop := ltb (Sales b) (Sales a) = true.

(** Two rows have different sales. *)
Definition differ (a b : dept_row) : Prop := eqb (Sales a) (Sales b) = false.

(** The sales of a row are a number. *)
Definition numeric (r : dept_row) : Prop := is_nan (Sales r) = false.

Definition all_numeric (df : list dept_row) : bool :=
  forallb (fun r => negb (is_nan (Sales r))) df.

(** The sales of the rows are pairwise different. *)
Fixpoint distinct_sales (df : list dept_row) : bool :=
  match df with
  | [] => true
  | a :: df' =>
      forallb (fun b => negb (eqb (Sales a) (Sales b))) df'
      && distinct_sales df'
  end.

(** The JSON value under a key of an object. *)
Definition json_field (v : json) (k : text) : option json :=
  match v with
  | JObj o => get o k
  | _ => None
  end.

(** The department rows of a request payload. *)
Definition departments_top20 (payload : json) : option json :=
  match json_field payload (str "parsed_numbers") with
  | Some nums => json_field nums (str "departments_top20")
  | None => None
  end.

(** ** What a run of the page shows *)

Definition is_amt (v : pay_val) : bool :=
  match v with Amt _ => true | Tok _ => false end.

(** The KPI row and the pie chart, [total] being the payments sum. *)
Definition kpi_widgets (m : metrics) (total : float) : list widget :=
  [Metric (str "🛒 Merchandise Sales") (subtotal m);
   Metric (str "🧾 Tax Total") (tax_total m);
   Metric (str "💵 Payments (sum)") total;
   Metric (str "🏁 Grand Total") (grand_total m);
   PieChart (str "Payment Methods") (payments m)].

(** The department chart and table, drawn when there are rows. *)
Definition dept_widgets (m : metrics) : list widget :=
  match dept_df m with
  | [] => []
  | _ :: _ =>
      [Subheader (str "📂 Sales by Department");
       BarChart (sort_values_desc (dept_df m));
       DeptTable (sort_values_desc (dept_df m))]
  end.

Definition ai_header : widget := Subheader (str "🤖 AI Audit & Feedback").

(** The tables of findings among the elements drawn. *)
Fixpoint findings_shown (l : list widget) : list frame :=
  match l with
  | [] => []
  | IssuesTable df :: l' => df :: findings_shown l'
  | _ :: l' => findings_shown l'
  end.

(** The cell of a row under a column, if the table has the column. *)
Fixpoint cell_at (cols : list text) (row : list (option json)) (c : text)
  : option (option json) :=
  match cols, row with
  | c' :: cols', x :: row' =>
      if text_eqb c' c then Some x else cell_at cols' row' c
  | _, _ => None
  end.

(** A pandas that raises on every value that is not a list of
    objects. *)
Definition DataFrame_raises (v : json) : result frame :=
  Raise (ValueError (str "DataFrame constructor not properly called!")).

(** A collaborator that answers every request with the same JSON value
    and no usage. *)
Definition answers (v : json) : client :=
  fun _ => Ok (Reply (Ok v) None).

(** ** Reading the uploaded file *)

(** [extract_text]: the texts of the pages joined by newlines; a page
    without text ([extract_text()] gives [None]) counts as empty. *)
Fixpoint join (sep : text) (parts : list text) : text :=
  match parts with
  | [] => []
  | [p] => p
  | p :: parts' => p ++ sep ++ join sep parts'
  end.

Definition page_text (p : option text) : text :=
  match p with Some t => t | None => [] end.

Definition extract_text (pages : list (option text)) : text :=
  join nl (map page_text pages).

(** [app0.py]: [text += page.extract_text() + "\n"] for every page;
    [None + "\n"] raises. *)
Fixpoint extract_text0_from (acc : text) (pages : list (option text))
  : result text :=
  match pages with
  | [] => Ok acc
  | Some t :: pages' => extract_text0_from (acc ++ t ++ nl) pages'
  | None :: _ =>
      Raise (TypeError (str "unsupported operand type(s) for +: 'NoneType' and 'str'"))
  end.

Definition extract_text0 (pages : list (option text)) : result text :=
  extract_text0_from [] pages.

(** ** Amounts *)

(** A float that is a number and not negative: zero, a positive finite
    value or plus infinity. *)
Definition nonneg (x : float) : bool :=
  match x with
  | S754_zero false | S754_infinity false | S754_finite false _ _ => true
  | _ => false
  end.

(** A value of the payments that is a non-negative float. *)
Definition amount (v : pay_val) : bool :=
  match v with
  | Amt f => nonneg f
  | Tok _ => false
  end.

(** ** Exceptions of the extraction *)

(** The exceptions of the extraction: the [ValueError] of [float] on a
    token that is not a number, or the [OverflowError] of a quantity
    beyond 64 bits. *)
Definition extraction_error (e : exn) : Prop :=
  (exists tok, e = float_error tok /\ decimal_of_token tok = None)
  \/ e = OverflowError (str "Python int too large to convert to C long").

(** ** Reports without numbers *)

(** The text has no digit and no point. *)
Definition numberless (t : text) : bool :=
  forallb (fun c => negb (Chars.is_num c)) t.

(** A pattern that matches only where a digit or a point follows
    somewhere in the rest of the text. *)
Definition needs_num (r : regex) : Prop :=
  forall A prev s n g (k : cont A) a,
    run r prev s n g k = Some a ->
    exists c, In c s /\ Chars.is_num c = true.

(** The record of a report in which nothing was found. *)
Definition empty_metrics : metrics :=
  Metrics zero zero zero zero zero zero
    [(str "Cash", Amt zero); (str "AmEx", Amt zero); (str "Visa", Amt zero);
     (str "Master", Amt zero); (str "Other", Amt zero);
     (str "Discover", Amt zero)] [].

(** The text that a request payload carries. *)
Definition raw_text_excerpt (payload : json) : option json :=
  json_field payload (str "raw_text_excerpt").

(** A collaborator whose call raises. *)
Definition fails (e : exn) : client := fun _ => Raise e.

(** * Properties *)

(** ** Text and prefixes *)

Lemma text_eqb_eq (a b : text) : text_eqb a b = true <-> a = b.
Proof.
  unfold text_eqb. destruct (list_eq_dec ascii_dec a b); split; congruence.
Qed.

Lemma text_eqb_refl (a : text) : text_eqb a a = true.
Proof. now apply text_eqb_eq. Qed.

Lemma strip_prefix_app (l s : text) : strip_prefix l (l ++ s) = Some s.
Proof.
  induction l as [|a l IH]; simpl; [reflexivity|].
  now rewrite Ascii.eqb_refl.
Qed.

Lemma strip_prefix_Some (l s s' : text) :
  strip_prefix l s = Some s' -> s = l ++ s'.
Proof.
  revert s; induction l as [|a l IH]; intros [|c s]; simpl; try congruence.
  destruct (Ascii.eqb_spec a c); [|discriminate].
  intros H; subst; f_equal; auto.
Qed.

Lemma starts_with_nil (l : text) : l <> [] -> starts_with l [] = false.
Proof. destruct l; [congruence | reflexivity]. Qed.

Lemma last_of_app (a b : text) (p : option ascii) :
  last_of (a ++ b) p = last_of b (last_of a p).
Proof. unfold last_of; apply fold_left_app. Qed.

Lemma find_sub_starts_nowhere (l pre rest : text) :
  find_sub l (pre ++ rest) = Some (length pre) ->
  starts_nowhere [l] pre rest = true.
Proof.
  induction pre as [|c pre IH]; simpl; [reflexivity|].
  unfold starts_with.
  destruct (strip_prefix l (c :: pre ++ rest)); [discriminate|].
  destruct (find_sub l (pre ++ rest)) as [i|] eqn:E; simpl; [|discriminate].
  intros H; apply IH; congruence.
Qed.

Lemma occurs_starts_nowhere (l t : text) :
  occurs l t = false -> starts_nowhere [l] t [] = true.
Proof.
  unfold occurs.
  induction t as [|c t IH]; simpl; [reflexivity|].
  rewrite app_nil_r. unfold starts_with.
  destruct (strip_prefix l (c :: t)); [discriminate|].
  destruct (find_sub l t); simpl; [discriminate|]. auto.
Qed.

(** ** The matcher *)

Lemma search_from_skip (ls : list text) (r : regex) :
  guarded ls r ->
  forall pre prev rest,
    starts_nowhere ls pre rest = true ->
    search_from r prev (pre ++ rest) = search_from r (last_of pre prev) rest.
Proof.
  intros G; induction pre as [|c pre IH]; intros prev rest H;
    [reflexivity|].
  simpl in H. apply andb_prop in H as [H1 H2].
  apply negb_true_iff in H1.
  change ((c :: pre) ++ rest) with (c :: pre ++ rest) in *.
  cbn [search_from]. rewrite (G _ _ H1). now rewrite IH.
Qed.

Lemma findall_from_skip (ls : list text) (r : regex) :
  guarded ls r ->
  forall pre prev rest,
    starts_nowhere ls pre rest = true ->
    findall_from r prev (pre ++ rest) 0
    = findall_from r (last_of pre prev) rest 0.
Proof.
  intros G; induction pre as [|c pre IH]; intros prev rest H;
    [reflexivity|].
  simpl in H. apply andb_prop in H as [H1 H2].
  apply negb_true_iff in H1.
  change ((c :: pre) ++ rest) with (c :: pre ++ rest) in *.
  cbn [findall_from]. rewrite (G _ _ H1). now rewrite IH.
Qed.

Lemma search_from_nowhere (ls : list text) (r : regex) :
  guarded ls r -> starts_with_any ls [] = false ->
  forall t prev,
    starts_nowhere ls t [] = true -> search_from r prev t = None.
Proof.
  intros G E t prev H.
  rewrite <- (app_nil_r t), (search_from_skip G _ _ _ H).
  simpl. now rewrite (G _ _ E).
Qed.

Lemma findall_from_nowhere (ls : list text) (r : regex) :
  guarded ls r ->
  forall t prev,
    starts_nowhere ls t [] = true -> findall_from r prev t 0 = [].
Proof.
  intros G t prev H.
  now rewrite <- (app_nil_r t), (findall_from_skip G _ _ _ H).
Qed.

Lemma starts_with_any_one (l s : text) :
  starts_with_any [l] s = starts_with l s.
Proof. unfold starts_with_any; cbn [existsb]. apply orb_false_r. Qed.

Lemma labelled_guarded (label : string) : guarded [str label] (labelled label).
Proof.
  intros prev s H. rewrite starts_with_any_one in H. unfold starts_with in H.
  unfold match_here, labelled; cbn [run].
  destruct (strip_prefix (str label) s); [discriminate | reflexivity].
Qed.

Lemma pat_grand_guarded : guarded [str "Total"] pat_grand.
Proof.
  intros prev s H. rewrite starts_with_any_one in H. unfold starts_with in H.
  unfold match_here, pat_grand, labelled; cbn [run].
  destruct (at_boundary prev s); [|reflexivity].
  destruct (strip_prefix (str "Total") s); [discriminate | reflexivity].
Qed.

(** A numeric character is not white space, so [\s+] stops where the
    token starts. *)
Lemma num_not_space (c : ascii) :
  Chars.is_num c = true -> Chars.is_space c = false.
Proof.
  destruct c as [[] [] [] [] [] [] [] []]; vm_compute; congruence.
Qed.

(** Greedy repetition takes the whole run of class characters when the
    rest of the pattern matches after it. *)
Lemma rep_greedy_longest (A : Type) (cls : ascii -> bool)
    (k : option ascii -> text -> nat -> option A) (a : A) (rest : text) :
  ends_class cls rest = true ->
  forall tok min prev n,
    forallb cls tok = true -> min <= length tok ->
    k (last_of tok prev) rest (length tok + n) = Some a ->
    rep_greedy cls min prev (tok ++ rest) n k = Some a.
Proof.
  intros E; induction tok as [|c tok IH]; intros min prev n F L K.
  - simpl in L. assert (min = 0) by lia; subst min.
    destruct rest as [|c rest]; simpl in *; [assumption|].
    apply negb_true_iff in E. now rewrite E.
  - simpl in F. apply andb_prop in F as [F1 F2].
    cbn [app rep_greedy]. rewrite F1.
    rewrite (IH (pred min) (Some c) (S n)); auto.
    + simpl in L; lia.
    + cbn [length] in K. now rewrite Nat.add_succ_r.
Qed.

(** Whatever a repetition returns, the rest of the pattern returned. *)
Lemma rep_greedy_Some (A : Type) (cls : ascii -> bool)
    (k : option ascii -> text -> nat -> option A) (a : A) :
  forall s min prev n,
    rep_greedy cls min prev s n k = Some a ->
    exists p s' n', k p s' n' = Some a.
Proof.
  induction s as [|c s IH]; intros min prev n H; cbn [rep_greedy] in H.
  - destruct min; [eauto | discriminate].
  - destruct (cls c).
    + destruct (rep_greedy cls (pred min) (Some c) s (S n) k) eqn:E.
      * inversion H; subst. eapply IH; eauto.
      * destruct min; [eauto | discriminate].
    + destruct min; [eauto | discriminate].
Qed.

(** Where the label is followed by white space and a token that ends,
    the labelled pattern matches just that. *)
Lemma labelled_match_here (label : string) (ws tok post : text)
    (prev : option ascii) :
  ws <> [] -> forallb Chars.is_space ws = true ->
  tok <> [] -> forallb Chars.is_num tok = true ->
  token_ends post = true ->
  match_here (labelled label) prev (str label ++ ws ++ tok ++ post)
  = Some (length tok + (length ws + (length (str label) + 0)), [(1, tok)]).
Proof.
  intros Hws Fws Htok Ftok E.
  unfold match_here, labelled. cbn [run].
  rewrite strip_prefix_app. unfold ws1.
  apply rep_greedy_longest; auto.
  - destruct tok as [|c tok]; [congruence|]. simpl in *.
    apply andb_prop in Ftok as [F _]. now rewrite (num_not_space _ F).
  - destruct ws; [congruence | simpl; lia].
  - cbn [run]. unfold num. apply rep_greedy_longest; auto.
    + destruct tok; [congruence | simpl; lia].
    + do 3 f_equal.
      replace (length tok + (length ws + (length (str label) + 0))
               - (length ws + (length (str label) + 0)))
        with (length tok) by lia.
      rewrite firstn_app, firstn_all, Nat.sub_diag. simpl.
      now rewrite app_nil_r.
Qed.

(** A match of a labelled pattern sets group 1 and nothing else. *)
Lemma labelled_groups (label : string) (prev : option ascii) (s : text)
    (n : nat) (g : groups) :
  match_here (labelled label) prev s = Some (n, g) ->
  exists tok, g = [(1, tok)].
Proof.
  unfold match_here, labelled. cbn [run].
  destruct (strip_prefix (str label) s) as [s'|]; [|discriminate].
  intros H. apply rep_greedy_Some in H as (p & s1 & n1 & H).
  cbn [run] in H. apply rep_greedy_Some in H as (p2 & s2 & n2 & H).
  inversion H; eauto.
Qed.

Lemma search_from_groups (r : regex) :
  (forall prev s n g,
      match_here r prev s = Some (n, g) -> exists tok, g = [(1, tok)]) ->
  forall s prev g,
    search_from r prev s = Some g -> exists tok, g = [(1, tok)].
Proof.
  intros M; induction s as [|c s IH]; intros prev g; cbn [search_from];
    destruct (match_here r prev _) as [[n g']|] eqn:E; intros H;
    try discriminate; try (inversion H; subst; eauto).
Qed.

Lemma scalar_groups (p : regex) (t : text) (g : groups) :
  In p scalar_patterns -> search p t = Some g -> exists tok, g = [(1, tok)].
Proof.
  intros I; apply search_from_groups; clear t g.
  assert (L : forall l, p = labelled l ->
            forall prev s n g, match_here p prev s = Some (n, g) ->
                               exists tok, g = [(1, tok)]).
  { intros l ->. apply labelled_groups. }
  simpl in I.
  destruct I as [<-|[<-|[<-|[<-|[<-|[<-|[]]]]]]]; try (eapply L; reflexivity).
  intros prev s n g. unfold pat_grand, match_here. cbn [run].
  destruct (at_boundary prev s); [|discriminate].
  apply (labelled_groups "Total").
Qed.

(** ** [grab] *)

Lemma float_of_str_zero : float_of_str (str "0") = Ok zero.
Proof. reflexivity. Qed.

Lemma grab_default (t : text) (p : regex) :
  search p t = None -> grab t p = Ok zero.
Proof. unfold grab; now intros ->. Qed.

Lemma grab_match (t : text) (p : regex) (tok : text) :
  search p t = Some [(1, tok)] -> grab t p = float_of_str tok.
Proof. unfold grab; now intros ->. Qed.

(** The first place where the label stands is followed by white space
    and a token: that token is the one [grab] converts. *)
Lemma grab_first_label (label : string) (pre ws tok post : text) :
  starts_nowhere [str label] pre (str label ++ ws ++ tok ++ post) = true ->
  ws <> [] -> forallb Chars.is_space ws = true ->
  tok <> [] -> forallb Chars.is_num tok = true ->
  token_ends post = true ->
  grab (pre ++ str label ++ ws ++ tok ++ post) (labelled label)
  = float_of_str tok.
Proof.
  intros N Hws Fws Htok Ftok E. apply grab_match. unfold search.
  rewrite (search_from_skip (labelled_guarded label) _ _ _ N).
  set (s := str label ++ ws ++ tok ++ post).
  assert (M := @labelled_match_here label ws tok post (last_of pre None)
                 Hws Fws Htok Ftok E).
  fold s in M. destruct s; cbn [search_from]; now rewrite M.
Qed.

Lemma grab_no_label (label : string) (t : text) :
  occurs (str label) t = false -> grab t (labelled label) = Ok zero.
Proof.
  intros H. apply grab_default.
  apply (search_from_nowhere (labelled_guarded label)).
  - rewrite starts_with_any_one. apply starts_with_nil.
    intros E. rewrite E in H. unfold occurs in H. destruct t; discriminate.
  - now apply occurs_starts_nowhere.
Qed.

(** ** [parse_basic_metrics] field by field *)

Lemma parse_basic_metrics_fields (t : text) (m : metrics) :
  parse_basic_metrics t = Ok m <->
  grab t pat_subtotal = Ok (subtotal m)
  /\ grab t pat_tax_a = Ok (tax_a m)
  /\ grab t pat_tax_b = Ok (tax_b m)
  /\ grab t pat_tax_c = Ok (tax_c m)
  /\ grab t pat_tax_total = Ok (tax_total m)
  /\ grab t pat_grand = Ok (grand_total m)
  /\ parse_payments t = Ok (payments m)
  /\ parse_dept t = Ok (dept_df m).
Proof.
  unfold parse_basic_metrics. split.
  - destruct (grab t pat_subtotal); [|discriminate].
    destruct (grab t pat_tax_a); [|discriminate].
    destruct (grab t pat_tax_b); [|discriminate].
    destruct (grab t pat_tax_c); [|discriminate].
    destruct (grab t pat_tax_total); [|discriminate].
    destruct (grab t pat_grand); [|discriminate].
    destruct (parse_payments t); [|discriminate].
    destruct (parse_dept t); [|discriminate].
    cbn. intros H; inversion H; subst; cbn. repeat split.
  - intros (-> & -> & -> & -> & -> & -> & -> & ->). now destruct m.
Qed.

(** An exception in a scalar field leaves [parse_basic_metrics]. *)
Lemma parse_basic_metrics_raises (t : text) (p : regex) (e : exn) :
  In p scalar_patterns -> grab t p = Raise e ->
  exists e', parse_basic_metrics t = Raise e'.
Proof.
  intros I H. unfold parse_basic_metrics.
  simpl in I.
  destruct I as [<-|[<-|[<-|[<-|[<-|[<-|[]]]]]]];
    repeat match goal with
           | |- context [bind (grab t ?q) _] =>
               destruct (grab t q) eqn:?; cbn [bind]; [|eauto]
           end; try discriminate; congruence.
Qed.

(** ** The payments pattern *)

Lemma pat_pay_guarded : guarded methods pat_pay.
Proof.
  intros prev s H. unfold starts_with_any, methods in H. cbn [existsb] in H.
  repeat (apply orb_false_elim in H as [? H]).
  unfold starts_with in *.
  unfold match_here, pat_pay, method_alt. cbn [run].
  destruct (at_boundary prev s); [|reflexivity].
  repeat match goal with
         | E : (match strip_prefix ?l s with _ => _ end) = false |- _ =>
             destruct (strip_prefix l s); [discriminate E|clear E]
         end.
  reflexivity.
Qed.

(** After a match of length [length m], scanning resumes behind it. *)
Lemma findall_from_covered (r : regex) :
  forall m prev rest,
    findall_from r prev (m ++ rest) (length m)
    = findall_from r (last_of m prev) rest 0.
Proof.
  induction m as [|c m IH]; intros prev rest; [reflexivity|].
  cbn [app length findall_from]. apply IH.
Qed.

Lemma findall_from_match (r : regex) (m rest : text) (prev : option ascii)
    (g : groups) :
  m <> [] ->
  match_here r prev (m ++ rest) = Some (length m, g) ->
  findall_from r prev (m ++ rest) 0
  = g :: findall_from r (last_of m prev) rest 0.
Proof.
  intros N M. destruct m as [|c m]; [congruence|].
  cbn [app findall_from] in *. rewrite M. cbn [length pred].
  now rewrite findall_from_covered.
Qed.

Lemma run_method_alt (A : Type) (k rest : text) (prev : option ascii)
    (n : nat) (g : groups) (kk : cont A) (a : A) :
  In k methods ->
  kk (last_of k prev) rest (length k + n) g = Some a ->
  run method_alt prev (k ++ rest) n g kk = Some a.
Proof.
  intros I H. unfold method_alt, methods in *. simpl in I.
  destruct I as [<-|[<-|[<-|[<-|[<-|[<-|[]]]]]]];
    cbn in H |- *; now rewrite H.
Qed.

Lemma method_starts_word (k rest : text) (prev : option ascii) :
  In k methods -> is_word_opt prev = false ->
  at_boundary prev (k ++ rest) = true.
Proof.
  intros I W. unfold at_boundary. rewrite W. simpl in I.
  destruct I as [<-|[<-|[<-|[<-|[<-|[<-|[]]]]]]]; reflexivity.
Qed.

Lemma pay_match_here (k ws tok post : text) (prev : option ascii) :
  In k methods ->
  is_word_opt prev = false ->
  forallb Chars.is_space ws = true ->
  tok <> [] -> forallb Chars.is_num tok = true ->
  token_ends post = true ->
  match_here pat_pay prev ((k ++ str ":" ++ ws ++ tok) ++ post)
  = Some (length (k ++ str ":" ++ ws ++ tok), [(2, tok); (1, k)]).
Proof.
  intros I W Fws Htok Ftok E.
  replace ((k ++ str ":" ++ ws ++ tok) ++ post)
    with (k ++ str ":" ++ ws ++ tok ++ post)
    by now rewrite <- !app_assoc.
  unfold match_here, pat_pay. cbn [run].
  rewrite (method_starts_word _ _ I W).
  apply run_method_alt; [assumption|].
  replace (firstn (length k + 0 - 0) (k ++ str ":" ++ ws ++ tok ++ post))
    with k.
  2:{ rewrite Nat.add_0_r, Nat.sub_0_r, firstn_app, firstn_all, Nat.sub_diag.
      cbn [firstn]. now rewrite app_nil_r. }
  rewrite strip_prefix_app. unfold ws0.
  apply rep_greedy_longest; auto.
  - destruct tok as [|c tok]; [congruence|]. simpl in *.
    apply andb_prop in Ftok as [F _]. now rewrite (num_not_space _ F).
  - lia.
  - unfold num. apply rep_greedy_longest; auto.
    + destruct tok; [congruence | simpl; lia].
    + do 2 f_equal.
      * rewrite !length_app. lia.
      * do 2 f_equal.
        match goal with
        | |- firstn ?n _ = _ => replace n with (length tok) by lia
        end.
        rewrite firstn_app, firstn_all, Nat.sub_diag. simpl.
        now rewrite app_nil_r.
Qed.

Lemma pay_pairs_two (pre post : text) :
  word_starts pre = true -> token_ends post = true ->
  starts_nowhere methods pre (str "Cash: 50.00 Visa: 75.25" ++ post) = true ->
  starts_nowhere methods post [] = true ->
  pay_pairs (pre ++ str "Cash: 50.00 Visa: 75.25" ++ post)
  = [(str "Cash", Tok (str "50.00")); (str "Visa", Tok (str "75.25"))].
Proof.
  intros W E N1 N2. unfold pay_pairs, findall.
  rewrite (findall_from_skip pat_pay_guarded _ _ _ N1).
  change (str "Cash: 50.00 Visa: 75.25" ++ post)
    with ((str "Cash" ++ str ":" ++ str " " ++ str "50.00")
            ++ str " "
            ++ (str "Visa" ++ str ":" ++ str " " ++ str "75.25") ++ post).
  rewrite (@findall_from_match pat_pay _ _ _ [(2, str "50.00"); (1, str "Cash")]);
    [|discriminate|].
  2:{ apply pay_match_here; try reflexivity; try discriminate.
      - simpl; tauto.
      - unfold word_starts in W. now apply negb_true_iff in W. }
  rewrite (@findall_from_skip methods pat_pay pat_pay_guarded (str " "));
    [|reflexivity].
  rewrite (@findall_from_match pat_pay _ _ _ [(2, str "75.25"); (1, str "Visa")]);
    [|discriminate|].
  2:{ apply pay_match_here; try reflexivity; try discriminate; auto.
      simpl; tauto. }
  rewrite (findall_from_nowhere pat_pay_guarded _ _ N2).
  reflexivity.
Qed.

(** ** Dictionaries *)

Lemma text_eqb_neq (a b : text) : a <> b -> text_eqb a b = false.
Proof.
  intros N. destruct (text_eqb a b) eqn:E; [|reflexivity].
  now apply text_eqb_eq in E.
Qed.

Lemma get_set_same (V : Type) (d : dict V) (k : text) (v : V) :
  get (set d k v) k = Some v.
Proof.
  induction d as [|[k' v'] d IH]; cbn [set get].
  - now rewrite text_eqb_refl.
  - destruct (text_eqb k' k) eqn:E; cbn [get]; rewrite E; auto.
Qed.

Lemma get_set_other (V : Type) (d : dict V) (k k' : text) (v : V) :
  k <> k' -> get (set d k v) k' = get d k'.
Proof.
  intros N. induction d as [|[k0 v0] d IH]; cbn [set get].
  - now rewrite (text_eqb_neq N).
  - destruct (text_eqb k0 k) eqn:E; cbn [get].
    + apply text_eqb_eq in E; subst k0. now rewrite (text_eqb_neq N).
    + now rewrite IH.
Qed.

(** [dict(pairs)] binds a key to the value of its last pair. *)
Lemma get_fold_set_absent (V : Type) (l : list (text * V)) (k : text) :
  ~ In k (keys l) ->
  forall d,
    get (fold_left (fun d kv => set d (fst kv) (snd kv)) l d) k = get d k.
Proof.
  induction l as [|[k' v'] l IH]; intros N d; [reflexivity|].
  cbn [fold_left fst snd]. cbn in N. rewrite IH by tauto.
  apply get_set_other. tauto.
Qed.

Lemma get_of_pairs_last (V : Type) (l1 l2 : list (text * V)) (k : text)
    (v : V) :
  ~ In k (keys l2) -> get (of_pairs (l1 ++ (k, v) :: l2)) k = Some v.
Proof.
  intros N. unfold of_pairs. rewrite fold_left_app. cbn [fold_left fst snd].
  rewrite get_fold_set_absent by assumption. apply get_set_same.
Qed.

Lemma get_of_pairs_absent (V : Type) (l : list (text * V)) (k : text) :
  ~ In k (keys l) -> get (of_pairs l) k = None.
Proof. intros N. unfold of_pairs. now rewrite get_fold_set_absent. Qed.

(** ** The payments loop *)

Lemma pay_loop_get (ks : list text) :
  NoDup ks ->
  forall d d',
    pay_loop ks d = Ok d' ->
    (forall k, In k ks ->
       exists f, float_of_pay (get d k) = Ok f /\ get d' k = Some (Amt f))
    /\ (forall k, ~ In k ks -> get d' k = get d k).
Proof.
  induction 1 as [|k ks NI ND IH]; intros d d' H; cbn [pay_loop] in H.
  - inversion H; subst. split; [intros k []|reflexivity].
  - destruct (float_of_pay (get d k)) as [f|] eqn:F; [|discriminate].
    cbn [bind] in H. destruct (IH _ _ H) as [I1 I2]. split.
    + intros k' [<-|I].
      * exists f. split; [assumption|].
        rewrite (I2 k NI). apply get_set_same.
      * destruct (I1 k' I) as (f' & F' & G). exists f'. split; [|assumption].
        rewrite get_set_other in F'; [assumption|]. intros ->; contradiction.
    + intros k' N. cbn in N. rewrite I2 by tauto.
      apply get_set_other. tauto.
Qed.

Lemma pay_loop_returns (ks : list text) :
  NoDup ks ->
  forall d,
    (forall k, In k ks -> exists f, float_of_pay (get d k) = Ok f) ->
    exists d', pay_loop ks d = Ok d'.
Proof.
  induction 1 as [|k ks NI ND IH]; intros d H; cbn [pay_loop]; [eauto|].
  destruct (H k (or_introl eq_refl)) as [f ->]. cbn [bind].
  apply IH. intros k' I. destruct (H k' (or_intror I)) as [f' F'].
  exists f'. rewrite get_set_other; [assumption|]. intros ->; contradiction.
Qed.

Lemma methods_NoDup : NoDup methods.
Proof.
  unfold methods.
  repeat (constructor; [cbn; intros H;
    repeat (destruct H as [H|H]; [discriminate H|]); exact H|]).
  constructor.
Qed.

(** ** The order of floats *)

Lemma compare_cont_Eq (p q : positive) : Pos.compare_cont Eq p q = Pos.compare p q.
Proof. reflexivity. Qed.

Ltac cmp_cases :=
  repeat match goal with
         | |- context [Z.compare ?a ?b] =>
             destruct (Z.compare_spec a b); subst
         | |- context [Pos.compare_cont Eq ?a ?b] =>
             change (Pos.compare_cont Eq a b) with (Pos.compare a b);
             destruct (Pos.compare_spec a b); subst
         | H : context [Z.compare ?a ?b] |- _ =>
             destruct (Z.compare_spec a b); subst
         | H : context [Pos.compare_cont Eq ?a ?b] |- _ =>
             change (Pos.compare_cont Eq a b) with (Pos.compare a b) in H;
             destruct (Pos.compare_spec a b); subst
         end.

Lemma leb_total (x y : float) :
  is_nan x = false -> is_nan y = false -> leb x y = false -> leb y x = true.
Proof.
  unfold leb, SFleb, SFcompare.
  destruct x as [[]|[]| |[] mx ex], y as [[]|[]| |[] my ey]; cbn;
    try congruence; intros _ _; cmp_cases; cbn; try congruence; try lia.
Qed.

Lemma leb_trans (x y z : float) :
  leb x y = true -> leb y z = true -> leb x z = true.
Proof.
  unfold leb, SFleb, SFcompare.
  destruct x as [[]|[]| |[] mx ex], y as [[]|[]| |[] my ey],
    z as [[]|[]| |[] mz ez]; cbn; try congruence;
    cmp_cases; cbn; try congruence; try lia.
Qed.

Lemma leb_neq_ltb (x y : float) :
  leb x y = true -> eqb x y = false -> ltb x y = true.
Proof.
  unfold leb, eqb, ltb, SFleb, SFeqb, SFltb.
  destruct (SFcompare x y) as [[]|]; congruence.
Qed.

Lemma ltb_leb (x y : float) : ltb x y = true -> leb x y = true.
Proof.
  unfold leb, ltb, SFleb, SFltb.
  destruct (SFcompare x y) as [[]|]; congruence.
Qed.

Lemma eqb_sym (x y : float) : eqb x y = eqb y x.
Proof.
  unfold eqb, SFeqb, SFcompare.
  destruct x as [[]|[]| |[] mx ex], y as [[]|[]| |[] my ey]; cbn;
    try congruence; cmp_cases; cbn; try congruence; try lia.
Qed.

(** ** The department preview *)

Lemma insert_desc_perm (r : dept_row) (l : list dept_row) :
  Permutation (insert_desc r l) (r :: l).
Proof.
  induction l as [|y l IH]; cbn [insert_desc]; [reflexivity|].
  destruct (leb (Sales y) (Sales r)); [reflexivity|].
  rewrite IH. apply perm_swap.
Qed.

Lemma sort_desc_perm (l : list dept_row) : Permutation (sort_desc l) l.
Proof.
  induction l as [|r l IH]; cbn; [reflexivity|].
  unfold sort_desc in *. now rewrite insert_desc_perm, IH.
Qed.

Lemma insert_desc_sorted (r : dept_row) (l : list dept_row) :
  numeric r -> Forall numeric l ->
  StronglySorted desc l -> StronglySorted desc (insert_desc r l).
Proof.
  intros Nr Nl S. induction S as [|y l S IH F]; cbn [insert_desc].
  - repeat constructor.
  - inversion Nl as [|? ? Ny Nl']; subst.
    destruct (leb (Sales y) (Sales r)) eqn:E.
    + constructor; [now constructor|]. constructor; [exact E|].
      eapply Forall_impl; [|exact F]. intros z D. unfold desc in *.
      eapply leb_trans; eauto.
    + constructor; [auto|].
      apply (Permutation_Forall (Permutation_sym (insert_desc_perm r l))).
      constructor; [|assumption]. now apply leb_total.
Qed.

Lemma sort_desc_sorted (l : list dept_row) :
  Forall numeric l -> StronglySorted desc (sort_desc l).
Proof.
  induction 1 as [|r l Nr Nl IH]; cbn; [constructor|].
  apply insert_desc_sorted; auto.
  apply (Permutation_Forall (Permutation_sym (sort_desc_perm l))); auto.
Qed.

Lemma differ_sym (a b : dept_row) : differ a b -> differ b a.
Proof. unfold differ. now rewrite eqb_sym. Qed.

Lemma distinct_perm (l l' : list dept_row) :
  Permutation l l' -> ForallOrdPairs differ l -> ForallOrdPairs differ l'.
Proof.
  induction 1 as [|x l l' P IH|x y l|l l' l'' P1 IH1 P2 IH2]; intros D.
  - constructor.
  - inversion D; subst. constructor; [|auto].
    eapply Permutation_Forall; eauto.
  - inversion D as [|? ? Fy D']; subst. inversion D' as [|? ? Fx D'']; subst.
    inversion Fy; subst. constructor; [|constructor; auto].
    constructor; [now apply differ_sym | assumption].
  - auto.
Qed.

Lemma sorted_distinct_strict (l : list dept_row) :
  StronglySorted desc l -> ForallOrdPairs differ l ->
  StronglySorted sdesc l.
Proof.
  induction 1 as [|a l S IH F]; intros D; [constructor|].
  inversion D as [|? ? Fa D']; subst. constructor; [auto|].
  rewrite Forall_forall in *. intros b I. unfold sdesc.
  apply leb_neq_ltb; [now apply F|]. apply differ_sym. now apply Fa.
Qed.

Lemma sorted_app_inv (R : dept_row -> dept_row -> Prop)
    (l1 l2 : list dept_row) :
  StronglySorted R (l1 ++ l2) ->
  StronglySorted R l1
  /\ forall a b, In a l1 -> In b l2 -> R a b.
Proof.
  induction l1 as [|x l1 IH]; cbn; intros S.
  - split; [constructor | intros ? ? []].
  - inversion S as [|? ? S' F]; subst. destruct (IH S') as [S1 C].
    split.
    + constructor; [assumption|].
      rewrite Forall_forall in *. intros b I. apply F, in_or_app; auto.
    + intros a b [<-|I] J; [|auto].
      rewrite Forall_forall in F. apply F, in_or_app; auto.
Qed.

Lemma filter_numeric (df : list dept_row) :
  Forall numeric df ->
  filter (fun r => negb (is_nan (Sales r))) df = df
  /\ filter (fun r => is_nan (Sales r)) df = [].
Proof.
  induction 1 as [|r l N F [IH1 IH2]]; cbn; [auto|].
  unfold numeric in N. rewrite N; cbn. rewrite IH1, IH2. auto.
Qed.

Lemma sort_values_desc_numeric (df : list dept_row) :
  Forall numeric df -> sort_values_desc df = sort_desc df.
Proof.
  intros N. unfold sort_values_desc.
  destruct (filter_numeric N) as [-> ->]. apply app_nil_r.
Qed.

Lemma payload_departments (t : text) (m : metrics) :
  departments_top20 (user_payload t m)
  = Some (JArr (map record_of_row (dept_preview (dept_df m)))).
Proof. reflexivity. Qed.

(** ** The groups of the payments pattern *)

Lemma run_Lit_Some (A : Type) (l s : text) (prev : option ascii) (n : nat)
    (g : groups) (k : cont A) (a : A) :
  run (Lit l) prev s n g k = Some a ->
  exists s', s = l ++ s' /\ k (last_of l prev) s' (length l + n) g = Some a.
Proof.
  cbn [run]. destruct (strip_prefix l s) as [s'|] eqn:E; [|discriminate].
  apply strip_prefix_Some in E. eauto.
Qed.

Lemma run_Alt_Some (A : Type) (r1 r2 : regex) (s : text)
    (prev : option ascii) (n : nat) (g : groups) (k : cont A) (a : A) :
  run (Alt r1 r2) prev s n g k = Some a ->
  run r1 prev s n g k = Some a \/ run r2 prev s n g k = Some a.
Proof.
  cbn [run]. destruct (run r1 prev s n g k); [left|right]; assumption.
Qed.

Lemma run_method_alt_Some (A : Type) (s : text) (prev : option ascii)
    (n : nat) (g : groups) (k : cont A) (a : A) :
  run method_alt prev s n g k = Some a ->
  exists m s',
    In m methods /\ s = m ++ s'
    /\ k (last_of m prev) s' (length m + n) g = Some a.
Proof.
  unfold method_alt, methods. intros H.
  repeat (apply run_Alt_Some in H as [H|H]);
    apply run_Lit_Some in H as (s' & -> & H);
    eexists; exists s'; (split; [|split; [reflexivity|exact H]]);
    cbn [In]; tauto.
Qed.

(** Every match of the payments pattern captures a method name in
    group 1 and a token in group 2. *)
Lemma pat_pay_groups (prev : option ascii) (s : text) (n : nat) (g : groups) :
  match_here pat_pay prev s = Some (n, g) ->
  exists k tok, In k methods /\ g = [(2, tok); (1, k)].
Proof.
  unfold match_here, pat_pay. cbn [run].
  destruct (at_boundary prev s); [|discriminate].
  intros H. apply run_method_alt_Some in H as (m & s' & I & -> & H).
  destruct (strip_prefix (str ":") s') as [s''|]; [|discriminate H].
  unfold ws0 in H. cbn [run] in H.
  apply rep_greedy_Some in H as (p1 & s1 & n1 & H).
  apply rep_greedy_Some in H as (p2 & s2 & n2 & H).
  inversion H; subst. exists m. eexists. split; [assumption|].
  do 3 f_equal. rewrite Nat.add_0_r, Nat.sub_0_r, firstn_app, firstn_all.
  rewrite Nat.sub_diag. cbn [firstn]. apply app_nil_r.
Qed.

Lemma findall_from_Forall (r : regex) (P : groups -> Prop) :
  (forall prev s n g, match_here r prev s = Some (n, g) -> P g) ->
  forall s prev skip, Forall P (findall_from r prev s skip).
Proof.
  intros M; induction s as [|c s IH]; intros prev skip; cbn [findall_from];
    [constructor|].
  destruct skip; [|apply IH].
  destruct (match_here r prev (c :: s)) as [[n g]|] eqn:E; [|apply IH].
  constructor; [eapply M; eauto | apply IH].
Qed.

Lemma pay_pairs_methods (t : text) :
  Forall (fun kv => In (fst kv) methods) (pay_pairs t).
Proof.
  unfold pay_pairs, findall. apply Forall_map.
  eapply Forall_impl;
    [|apply (findall_from_Forall pat_pay
               (fun g => In (group_or_empty 1 g) methods))].
  - auto.
  - intros prev s n g H.
    apply pat_pay_groups in H as (k & tok & I & ->). exact I.
Qed.

(** ** Keys and values of a dict *)

Lemma keys_set (V : Type) (d : dict V) (k : text) (v : V) (k' : text) :
  In k' (keys (set d k v)) <-> k' = k \/ In k' (keys d).
Proof.
  induction d as [|[k0 v0] d IH]; cbn [set keys map fst In].
  - intuition.
  - destruct (text_eqb k0 k) eqn:E; cbn [keys map fst In].
    + apply text_eqb_eq in E; subst. intuition.
    + unfold keys in IH. rewrite IH. intuition.
Qed.

Lemma keys_set_NoDup (V : Type) (d : dict V) (k : text) (v : V) :
  NoDup (keys d) -> NoDup (keys (set d k v)).
Proof.
  induction d as [|[k0 v0] d IH]; cbn [set keys map fst]; intros N.
  - repeat constructor. intros [].
  - inversion N as [|? ? NI N']; subst.
    destruct (text_eqb k0 k) eqn:E; cbn [keys map fst].
    + constructor; assumption.
    + constructor; [|now apply IH].
      intros I. apply keys_set in I as [->|I]; [|contradiction].
      now rewrite text_eqb_refl in E.
Qed.

Lemma of_pairs_NoDup (V : Type) (l : list (text * V)) :
  NoDup (keys (of_pairs l)).
Proof.
  unfold of_pairs.
  assert (G : forall d, NoDup (keys d) ->
            NoDup (keys (fold_left (fun d kv => set d (fst kv) (snd kv)) l d))).
  { induction l as [|kv l IH]; intros d N; cbn [fold_left]; [assumption|].
    apply IH. now apply keys_set_NoDup. }
  apply G. constructor.
Qed.

Lemma of_pairs_keys (V : Type) (l : list (text * V)) (k : text) :
  In k (keys (of_pairs l)) -> In k (keys l).
Proof.
  unfold of_pairs.
  assert (G : forall d,
            In k (keys (fold_left (fun d kv => set d (fst kv) (snd kv)) l d)) ->
            In k (keys d) \/ In k (keys l)).
  { induction l as [|kv l IH]; intros d I; cbn [fold_left] in I; [auto|].
    apply IH in I as [I|I]; [|right; now right].
    apply keys_set in I as [->|I]; [right; now left | auto]. }
  intros I. apply G in I as [[]|I]. exact I.
Qed.

Lemma set_entries (V : Type) (d : dict V) (k : text) (v : V) :
  NoDup (keys d) ->
  forall k' v',
    In (k', v') (set d k v) ->
    (k' = k /\ v' = v) \/ (k' <> k /\ In (k', v') d).
Proof.
  induction d as [|[k0 v0] d IH]; cbn [set keys map fst]; intros N k' v' I.
  - destruct I as [I|[]]. inversion I; auto.
  - inversion N as [|? ? NI N']; subst.
    destruct (text_eqb k0 k) eqn:E.
    + apply text_eqb_eq in E; subst k0.
      destruct I as [I|I]; [inversion I; auto|].
      right. split; [|now right].
      intros ->. apply NI. change k with (fst (k, v')). now apply in_map.
    + destruct I as [I|I].
      * inversion I; subst. right. split; [|now left].
        intros ->. now rewrite text_eqb_refl in E.
      * destruct (IH N' _ _ I) as [?|[? ?]]; [auto|].
        right. split; [assumption | now right].
Qed.

(** After the loop every value of the payments is a float. *)
Lemma pay_loop_amounts (ks : list text) :
  forall d d',
    NoDup (keys d) ->
    (forall k v, In (k, v) d -> is_amt v = true \/ In k ks) ->
    pay_loop ks d = Ok d' ->
    forall k v, In (k, v) d' -> is_amt v = true.
Proof.
  induction ks as [|k0 ks IH]; intros d d' N A H; cbn [pay_loop] in H.
  - inversion H; subst. intros k v I. destruct (A k v I) as [?|[]]; auto.
  - destruct (float_of_pay (get d k0)) as [f|]; [|discriminate].
    cbn [bind] in H.
    apply (IH (set d k0 (Amt f)) d'); [now apply keys_set_NoDup| |exact H].
    intros k v I.
    apply (@set_entries _ d k0 (Amt f) N) in I as [[-> ->]|[NE I]];
      [now left|].
    destruct (A k v I) as [?|[->|?]]; auto; contradiction.
Qed.

Lemma parse_payments_amounts (t : text) (d : dict pay_val) :
  parse_payments t = Ok d -> forall v, In v (values d) -> is_amt v = true.
Proof.
  unfold parse_payments. intros H v I.
  unfold values in I. apply in_map_iff in I as ([k v'] & <- & I).
  eapply pay_loop_amounts; [apply of_pairs_NoDup| |exact H|exact I].
  intros k0 v0 I0. right.
  assert (K : In k0 (keys (of_pairs (pay_pairs t)))).
  { change k0 with (fst (k0, v0)). now apply in_map. }
  apply of_pairs_keys in K. unfold keys in K.
  apply in_map_iff in K as (kv & <- & K).
  pose proof (pay_pairs_methods t) as F. rewrite Forall_forall in F. auto.
Qed.

Lemma sum_pays_amounts (vs : list pay_val) :
  (forall v, In v vs -> is_amt v = true) ->
  exists total, sum_pays vs = Ok total.
Proof.
  unfold sum_pays. generalize (of_int 0).
  induction vs as [|v vs IH]; intros a H; cbn [fold_left]; [eauto|].
  destruct v as [tok|f]; [specialize (H _ (or_introl eq_refl)); discriminate|].
  cbn [bind]. apply IH. intros v I. apply H. now right.
Qed.

(** ** The page *)

Lemma andthen_Ok (A B : Type) (w : list widget) (a : A)
    (f : A -> script B) :
  andthen (w, Ok a) f = (w ++ log (f a), outcome (f a)).
Proof. unfold andthen, log, outcome. now destruct (f a). Qed.

Lemma andthen_Raise (A B : Type) (w : list widget) (e : exn)
    (f : A -> script B) :
  andthen (w, Raise e) f = (w, Raise e).
Proof. reflexivity. Qed.

Lemma metrics_section_run (m : metrics) (total : float) :
  sum_pays (values (payments m)) = Ok total ->
  metrics_section m = (kpi_widgets m total ++ dept_widgets m, Ok tt).
Proof.
  intros S. unfold metrics_section, dept_widgets, kpi_widgets.
  unfold draw, lift, ret. rewrite S. rewrite !andthen_Ok.
  destruct (dept_df m); rewrite ?andthen_Ok; reflexivity.
Qed.

Lemma ai_section_no_client (other : json -> result frame) (t : text)
    (m : metrics) (model : text) :
  ai_section other None t m model
  = ([Error (JStr (str "No OPENAI_API_KEY set."))], Ok tt).
Proof. reflexivity. Qed.

(** The page of an uploaded text whose extraction succeeds: the
    metrics, the header of the AI section, what the analysis draws if
    it runs, and the raw text unless the analysis raised. *)
Lemma page_run (other : json -> result frame) (c : option client)
    (t : text) (m : metrics) (model : text) (button run_auto : bool)
    (total : float) :
  parse_basic_metrics t = Ok m ->
  sum_pays (values (payments m)) = Ok total ->
  page other c (Some t) model button run_auto
  = let ai := if button || run_auto then ai_section other c t m model
              else ([], Ok tt) in
    (kpi_widgets m total ++ dept_widgets m ++ [ai_header] ++ log ai
       ++ match outcome ai with
          | Ok _ => [RawText (firstn 20000 t)]
          | Raise _ => []
          end,
     outcome ai).
Proof.
  intros P S. unfold page. rewrite P. fold ai_header.
  generalize (RawText (firstn 20000 t)); intros raw.
  unfold lift, ret. rewrite andthen_Ok, (metrics_section_run m S).
  rewrite andthen_Ok. unfold draw at 1. rewrite andthen_Ok.
  set (ai := if button || run_auto then ai_section other c t m model
             else ([], Ok tt)).
  destruct ai as [w [[]|e]]; unfold draw;
    rewrite ?andthen_Ok, ?andthen_Raise; unfold log, outcome; cbn [fst snd];
    rewrite ?app_nil_l, ?app_nil_r, <- ?app_assoc; reflexivity.
Qed.

(** ** Findings *)

Lemma findings_shown_app (a b : list widget) :
  findings_shown (a ++ b) = findings_shown a ++ findings_shown b.
Proof.
  induction a as [|w a IH]; [reflexivity|].
  destruct w; cbn [app findings_shown]; rewrite IH; reflexivity.
Qed.

Lemma andthen_log (A B : Type) (s : script A) (f : A -> script B) :
  log (andthen s f)
  = log s ++ match outcome s with
             | Ok a => log (f a)
             | Raise _ => []
             end.
Proof.
  destruct s as [w [a|e]]; unfold andthen, log, outcome; cbn [fst snd].
  - now destruct (f a).
  - now rewrite app_nil_r.
Qed.

Lemma usage_section_no_findings (model : text) (u : option usage) :
  findings_shown (log (usage_section model u)) = [].
Proof.
  unfold usage_section. destruct u as [[|kv u]|]; try reflexivity.
  unfold draw, lift. rewrite andthen_Ok.
  destruct (estimated_cost model _ _); rewrite ?andthen_Ok, ?andthen_Raise;
    reflexivity.
Qed.

Lemma metrics_no_findings (m : metrics) (total : float) :
  findings_shown (kpi_widgets m total ++ dept_widgets m) = [].
Proof. unfold dept_widgets. now destruct (dept_df m). Qed.

(** The findings of a reply with a list of issue objects: the summary,
    then the table of the issues. *)
Lemma findings_section_records (other : json -> result frame)
    (fields : list (text * json)) (issues : list json)
    (recs : list (list (text * json))) :
  get fields (str "issues") = Some (JArr issues) ->
  issues <> [] ->
  records_of issues = Some recs ->
  findings_section other (JObj fields)
  = ([Markdown (str "**Summary**");
      Write (match get fields (str "summary") with
             | Some v => v
             | None => JStr (str "—")
             end);
      Markdown (str "**Findings**");
      IssuesTable (frame_of_records recs)], Ok tt).
Proof.
  intros G N R. unfold findings_section, json_get. rewrite G.
  unfold draw, lift. rewrite !andthen_Ok.
  destruct issues as [|i issues]; [congruence|].
  cbn [truthy DataFrame]. rewrite R. rewrite !andthen_Ok. reflexivity.
Qed.

(** The findings of a reply without issues. *)
Lemma findings_section_none (other : json -> result frame)
    (fields : list (text * json)) :
  truthy (match get fields (str "issues") with
          | Some v => v
          | None => JArr []
          end) = false ->
  findings_section other (JObj fields)
  = ([Markdown (str "**Summary**");
      Write (match get fields (str "summary") with
             | Some v => v
             | None => JStr (str "—")
             end);
      Success (str "No issues found by AI.")], Ok tt).
Proof.
  intros F. unfold findings_section, json_get.
  unfold draw, lift. rewrite !andthen_Ok. rewrite F. reflexivity.
Qed.

Lemma ai_section_reply (other : json -> result frame) (call : client)
    (t : text) (m : metrics) (model : text) (v : json) (u : option usage) :
  call (Request model system_prompt (user_payload t m))
  = Ok (Reply (Ok v) u) ->
  ai_section other (Some call) t m model
  = match error_of v with
    | Some msg => ([Error msg], Ok tt)
    | None => andthen (findings_section other v)
                (fun _ => usage_section model u)
    end.
Proof.
  intros C. unfold ai_section, analyze_with_ai. rewrite C.
  cbn [bind reply_content reply_usage]. unfold lift.
  rewrite andthen_Ok. cbv beta iota.
  destruct (error_of v); [reflexivity|].
  unfold log, outcome. cbn [app]. now destruct (andthen _ _).
Qed.

(** ** The table of a list of records *)

Lemma add_keys_In (ks cols : list text) (c : text) :
  In c (add_keys cols ks) <-> In c cols \/ In c ks.
Proof.
  revert cols; induction ks as [|k ks IH]; intros cols; cbn [add_keys In].
  - tauto.
  - rewrite IH. destruct (existsb (text_eqb k) cols) eqn:E.
    + apply existsb_exists in E as (k' & I & E).
      apply text_eqb_eq in E; subst k'. intuition (subst; auto).
    + rewrite in_app_iff. cbn [In]. intuition.
Qed.

Lemma frame_columns (recs : list (list (text * json))) (c : text) :
  In c (columns (frame_of_records recs))
  <-> exists r, In r recs /\ In c (keys r).
Proof.
  unfold frame_of_records. cbn [columns].
  assert (G : forall cols,
            In c (fold_left (fun cols r => add_keys cols (keys r)) recs cols)
            <-> In c cols \/ exists r, In r recs /\ In c (keys r)).
  { induction recs as [|r recs IH]; intros cols; cbn [fold_left].
    - split; [auto | intros [?|(r & [] & _)]; auto].
    - rewrite IH, add_keys_In. split.
      + intros [[?|?]|(r' & I & K)]; eauto.
        * right. exists r. split; [now left|assumption].
        * right. exists r'. split; [now right|assumption].
      + intros [?|(r' & [<-|I] & K)]; eauto. }
  rewrite G. split; [intros [[]|?]; assumption | auto].
Qed.

Lemma cell_at_row (r : list (text * json)) (cols : list text) (c : text) :
  cell_at cols (map (fun c' => get r c') cols) c
  = if existsb (fun c' => text_eqb c' c) cols then Some (get r c) else None.
Proof.
  induction cols as [|c' cols IH]; cbn [cell_at map existsb]; [reflexivity|].
  destruct (text_eqb c' c) eqn:E; cbn [orb]; [|exact IH].
  apply text_eqb_eq in E. now subst.
Qed.

(** ** Quotients within the float range *)

Lemma Zdigits2_log2 (m : Z) : (0 < m)%Z -> Zdigits2 m = (Z.log2 m + 1)%Z.
Proof.
  destruct m as [|p|p]; try lia. intros _. cbn [Zdigits2].
  assert (S : forall q, digits2_pos q = Pos.size q)
    by (induction q; cbn; congruence).
  rewrite S. destruct p; cbn [Z.log2 Pos.size]; lia.
Qed.

Lemma Zdigits2_mono (a b : Z) :
  (0 <= a <= b)%Z -> (Zdigits2 a <= Zdigits2 b)%Z.
Proof.
  intros H. destruct (Z.eq_dec a 0) as [->|N].
  - destruct b; cbn; lia.
  - rewrite !Zdigits2_log2 by lia.
    pose proof (Z.log2_le_mono a b). lia.
Qed.

Lemma Zdigits2_succ (m : Z) :
  (0 <= m)%Z -> (Zdigits2 (m + 1) <= Zdigits2 m + 1)%Z.
Proof.
  intros H. destruct (Z.eq_dec m 0) as [->|N]; [cbn; lia|].
  rewrite !Zdigits2_log2 by lia.
  pose proof (Z.log2_succ_le m). unfold Z.succ in *. lia.
Qed.

Lemma Zdigits2_bound (m k : Z) :
  (0 <= k)%Z -> (0 <= m < 2 ^ k)%Z -> (Zdigits2 m <= k)%Z.
Proof.
  intros K H. destruct (Z.eq_dec m 0) as [->|N]; [cbn; lia|].
  rewrite Zdigits2_log2 by lia.
  assert (Z.log2 m < k)%Z by (apply Z.log2_lt_pow2; lia). lia.
Qed.

Lemma shr_1_m (mrs : shr_record) :
  (0 <= shr_m mrs)%Z ->
  (0 <= shr_m (shr_1 mrs) <= shr_m mrs)%Z.
Proof.
  destruct mrs as [m r s]. cbn [shr_m shr_1].
  destruct m as [|[p|p|]|[p|p|]]; cbn [shr_m]; lia.
Qed.

Lemma iter_shr_1_m (p : positive) :
  forall mrs,
    (0 <= shr_m mrs)%Z ->
    (0 <= shr_m (iter_pos shr_1 p mrs) <= shr_m mrs)%Z.
Proof.
  induction p as [p IH|p IH|]; intros mrs H; cbn [iter_pos].
  - pose proof (shr_1_m mrs H).
    pose proof (IH (shr_1 mrs)). pose proof (IH (iter_pos shr_1 p (shr_1 mrs))).
    lia.
  - pose proof (IH mrs H). pose proof (IH (iter_pos shr_1 p mrs)). lia.
  - now apply shr_1_m.
Qed.

Lemma shr_record_of_loc_m (m : Z) (l : location) :
  shr_m (shr_record_of_loc m l) = m.
Proof. destruct l as [|[]]; reflexivity. Qed.

Lemma shr_fexp_bounds (m e : Z) (l : location) :
  (0 <= m)%Z ->
  (0 <= shr_m (fst (shr_fexp prec emax m e l)) <= m)%Z
  /\ (snd (shr_fexp prec emax m e l)
      <= Z.max e (Z.max (Zdigits2 m + e - 53) (-1074)))%Z.
Proof.
  intros H. unfold shr_fexp, shr, fexp, SpecFloat.emin, prec, emax.
  pose proof (shr_record_of_loc_m m l) as M.
  destruct (Z.max (Zdigits2 m + e - 53) (3 - 1024 - 53) - e)%Z as [|p|p] eqn:E;
    cbn [fst snd]; rewrite ?M; try lia.
  pose proof (@iter_shr_1_m p (shr_record_of_loc m l)). rewrite M in *. lia.
Qed.

Lemma round_nearest_even_bounds (m : Z) (l : location) :
  (m <= round_nearest_even m l <= m + 1)%Z.
Proof.
  unfold round_nearest_even. destruct l as [|[]]; try lia.
  destruct (Z.even m); lia.
Qed.

(** Rounding a mantissa of at most 150 bits at an exponent that is not
    positive stays finite. *)
Lemma binary_round_aux_finite (sx : bool) (mx ex : Z) (lx : location) :
  (0 <= mx)%Z -> (Zdigits2 mx <= 150)%Z -> (ex <= 0)%Z ->
  is_inf (binary_round_aux prec emax sx mx ex lx) = false.
Proof.
  intros M D E. unfold binary_round_aux.
  pose proof (@shr_fexp_bounds mx ex lx M) as [B1 B2].
  destruct (shr_fexp prec emax mx ex lx) as [mrs' e'] eqn:S1.
  cbn [fst snd] in B1, B2.
  pose proof (round_nearest_even_bounds (shr_m mrs') (loc_of_shr_record mrs'))
    as R.
  set (m1 := round_nearest_even (shr_m mrs') (loc_of_shr_record mrs')) in *.
  assert (M1 : (0 <= m1)%Z) by lia.
  pose proof (@shr_fexp_bounds m1 e' loc_Exact M1) as [C1 C2].
  destruct (shr_fexp prec emax m1 e' loc_Exact) as [mrs'' e''] eqn:S2.
  cbn [fst snd] in C1, C2.
  assert (D1 : (Zdigits2 m1 <= 151)%Z).
  { pose proof (@Zdigits2_mono m1 (shr_m mrs' + 1)).
    pose proof (@Zdigits2_succ (shr_m mrs')).
    pose proof (@Zdigits2_mono (shr_m mrs') mx). lia. }
  destruct (shr_m mrs''); try reflexivity.
  unfold prec, emax.
  destruct (Z.leb_spec e'' (1024 - 53)); [reflexivity | lia].
Qed.

Lemma Zdigits2_lt_pow2 (m k : Z) :
  (0 < m)%Z -> (Zdigits2 m <= k)%Z -> (m < 2 ^ k)%Z.
Proof.
  intros H D. rewrite Zdigits2_log2 in D by assumption.
  pose proof (Z.log2_spec m H) as [_ L].
  assert (2 ^ Z.succ (Z.log2 m) <= 2 ^ k)%Z
    by (apply Z.pow_le_mono_r; lia).
  lia.
Qed.

(** The quotient of a 64-bit numerator by a divisor of at most 20 bits,
    before rounding. *)
Lemma SFdiv_core_bounds (p q : positive) :
  (Zdigits2 (Zpos p) <= 64)%Z -> (Zdigits2 (Zpos q) <= 20)%Z ->
  let '(mz, ez, _) := SFdiv_core_binary prec emax (Zpos p) 0 (Zpos q) 0 in
  (0 <= mz)%Z /\ (Zdigits2 mz <= 150)%Z /\ (ez <= 0)%Z.
Proof.
  intros D Dq. unfold SFdiv_core_binary, fexp, SpecFloat.emin, prec, emax.
  pose proof (@Zdigits2_lt_pow2 (Zpos p) 64 ltac:(lia) D) as P.
  set (d1 := Zdigits2 (Zpos p)) in *. set (d2 := Zdigits2 (Zpos q)) in *.
  assert (D0 : (0 < d1)%Z) by (unfold d1; cbn; lia).
  assert (D2 : (0 < d2)%Z) by (unfold d2; cbn; lia).
  set (e' := Z.min (Z.max (d1 + 0 - (d2 + 0) - 53) (3 - 1024 - 53)) (0 - 0)).
  assert (E : (-72 <= e' <= 0)%Z) by (unfold e'; lia).
  set (m' := match (0 - 0 - e')%Z with
             | 0%Z => Zpos p
             | Zpos _ => Z.shiftl (Zpos p) (0 - 0 - e')
             | Zneg _ => 0%Z
             end).
  assert (M : (0 <= m' <= Zpos p * 2 ^ (- e'))%Z).
  { unfold m'. replace (0 - 0 - e')%Z with (- e')%Z by lia.
    destruct (- e')%Z as [|s|s] eqn:Es.
    - rewrite Z.pow_0_r. lia.
    - rewrite Z.shiftl_mul_pow2 by lia. lia.
    - lia. }
  assert (M2 : (m' < 2 ^ 136)%Z).
  { assert (2 ^ (- e') <= 2 ^ 72)%Z by (apply Z.pow_le_mono_r; lia).
    assert (0 < 2 ^ (- e'))%Z by (apply Z.pow_pos_nonneg; lia).
    change (2 ^ 136)%Z with (2 ^ 64 * 2 ^ 72)%Z. nia. }
  pose proof (Z.div_eucl_eq m' (Zpos q) ltac:(lia)) as Q.
  pose proof (Z.mod_pos_bound m' (Zpos q) ltac:(lia)) as R.
  unfold Z.modulo in R.
  destruct (Z.div_eucl m' (Zpos q)) as [qq r].
  assert (Q0 : (0 <= qq)%Z) by nia.
  assert (Q1 : (qq <= m')%Z) by nia.
  split; [exact Q0|]. split; [|lia].
  pose proof (@Zdigits2_bound qq 136 ltac:(lia) ltac:(lia)). lia.
Qed.

(** [n / d] raises no [OverflowError] when [n] fits in 64 bits and the
    divisor in 20. *)
Lemma truediv_returns (n : Z) (d : positive) :
  (Z.abs n < 2 ^ 64)%Z -> (Zpos d < 2 ^ 20)%Z ->
  truediv n (Zpos d) = Ok (ratio n (Zpos d)).
Proof.
  intros N D. unfold truediv. cbn [Z.eqb].
  assert (F : is_inf (ratio n (Zpos d)) = false); [|now rewrite F].
  unfold ratio, div, of_Z_exact.
  assert (Dd : (Zdigits2 (Zpos d) <= 20)%Z)
    by (apply Zdigits2_bound; lia).
  destruct n as [|p|p]; [reflexivity| |]; cbn [SFdiv];
    (assert (Dp : (Zdigits2 (Zpos p) <= 64)%Z)
      by (apply Zdigits2_bound; lia));
    pose proof (@SFdiv_core_bounds p d Dp Dd) as B;
    destruct (SFdiv_core_binary prec emax (Zpos p) 0 (Zpos d) 0)
      as [[mz ez] lz];
    destruct B as (B1 & B2 & B3); now apply binary_round_aux_finite.
Qed.

(** * The claims *)

(** ** C1: the grand total of the end-to-end scenario *)

(** C1.  On the scenario text the extraction succeeds with subtotal
    200.00 and tax total 16.00 as the claim says, but the grand total is
    16.00, not 216.00: [\b] holds between the blank and the [T] of
    "Tax Total 16.00", so the first match of [\bTotal\s+([\d\.]+)] is
    inside that line.  The single-script variant reads the same 16.00. *)
Theorem C1_grand_total_is_tax_total :
  (exists m,
      parse_basic_metrics scenario_text = Ok m
      /\ subtotal m = dec 20000 2
      /\ tax_total m = dec 1600 2
      /\ grand_total m = dec 1600 2
      /\ eqb (grand_total m) (dec 21600 2) = false)
  /\ search pat_grand (str "Tax Total 16.00" ++ nl ++ str "Total 216.00")
     = Some [(1, str "16.00")]
  /\ grand_total0 scenario_text = Ok (dec 1600 2).
Proof.
  split; [|split]; [|reflexivity|vm_compute; reflexivity].
  eexists; split; [vm_compute; reflexivity|].
  repeat split; vm_compute; reflexivity.
Qed.

(** ** C6: the subtotal *)

(** C6, as stated, fails: the text below contains "Merchandise Sales
    123.45", yet the subtotal is 99.00, the token of the first match. *)
Lemma C6_counterexample :
  occurs (str "Merchandise Sales 123.45")
         (str "Merchandise Sales 99.00 Merchandise Sales 123.45") = true
  /\ grab (str "Merchandise Sales 99.00 Merchandise Sales 123.45")
          pat_subtotal = Ok (dec 9900 2)
  /\ (exists m,
         parse_basic_metrics
           (str "Merchandise Sales 99.00 Merchandise Sales 123.45") = Ok m
         /\ subtotal m = dec 9900 2)
  /\ eqb (dec 9900 2) (dec 12345 2) = false.
Proof.
  split; [reflexivity|]. split; [vm_compute; reflexivity|].
  split; [|reflexivity].
  eexists; split; vm_compute; reflexivity.
Qed.

(** C6, amended.  When the first occurrence of the label "Merchandise
    Sales" in the text is the one followed by " 123.45" and the token
    ends there (the next character, if any, is neither a digit nor a
    point), [grab] returns 123.45 for the subtotal; when the label
    occurs nowhere it returns the default 0.0 without raising; and the
    subtotal of the extracted record is what [grab] returned. *)
Theorem C6_subtotal_first_match :
  (forall pre post,
      find_sub (str "Merchandise Sales")
               (pre ++ str "Merchandise Sales 123.45" ++ post)
      = Some (length pre) ->
      token_ends post = true ->
      grab (pre ++ str "Merchandise Sales 123.45" ++ post) pat_subtotal
      = Ok (dec 12345 2))
  /\ (forall t,
         occurs (str "Merchandise Sales") t = false ->
         grab t pat_subtotal = Ok zero)
  /\ (forall t m,
         parse_basic_metrics t = Ok m ->
         grab t pat_subtotal = Ok (subtotal m)).
Proof.
  split; [|split].
  - intros pre post F E.
    change (str "Merchandise Sales 123.45" ++ post)
      with (str "Merchandise Sales" ++ str " " ++ str "123.45" ++ post) in *.
    unfold pat_subtotal.
    rewrite (@grab_first_label "Merchandise Sales" pre (str " ")
               (str "123.45") post); auto; try discriminate.
    now apply find_sub_starts_nowhere.
  - intros t. apply grab_no_label.
  - intros t m H. now apply parse_basic_metrics_fields in H.
Qed.

Lemma C6_subtotal_first_match_witness :
  grab (str "Store 7" ++ nl ++ str "Merchandise Sales 123.45" ++ nl
          ++ str "Tax A 1.00") pat_subtotal = Ok (dec 12345 2)
  /\ grab (str "Tax A 1.00") pat_subtotal = Ok zero
  /\ grab scenario_text pat_subtotal = Ok (dec 20000 2).
Proof.
  split; [|split].
  - apply (proj1 C6_subtotal_first_match (str "Store 7" ++ nl)
             (nl ++ str "Tax A 1.00")); reflexivity.
  - apply (proj1 (proj2 C6_subtotal_first_match)); reflexivity.
  - apply (proj2 (proj2 C6_subtotal_first_match) scenario_text
             (Metrics (dec 20000 2) (dec 1000 2) zero zero (dec 1600 2)
                (dec 1600 2)
                [(str "Cash", Amt (dec 21600 2)); (str "AmEx", Amt zero);
                 (str "Visa", Amt zero); (str "Master", Amt zero);
                 (str "Other", Amt zero); (str "Discover", Amt zero)] [])).
    vm_compute; reflexivity.
Defined.

(** ** C3: malformed numeric tokens *)

(** C3, as stated, fails: the token "1.2.3" after "Total" makes [grab]
    raise a [ValueError] whose message quotes the token; the exception
    is no [MalformedFieldError] and its message names no field. *)
Lemma C3_counterexample :
  grab (str "Total 1.2.3") pat_grand
  = Raise (ValueError (str "could not convert string to float: '1.2.3'"))
  /\ exn_class (ValueError (str "could not convert string to float: '1.2.3'"))
     <> str "MalformedFieldError"
  /\ occurs (str "grand")
       (str "could not convert string to float: '1.2.3'") = false
  /\ occurs (str "Total")
       (str "could not convert string to float: '1.2.3'") = false.
Proof.
  split; [vm_compute; reflexivity|].
  split; [discriminate|]. split; reflexivity.
Qed.

(** C3, amended.  For each of the six scalar patterns: when the pattern
    matches, [grab] is [float] of the token captured by the first match,
    and when that token is not a number [grab] raises the [ValueError]
    of [float], whose message quotes the token (not the field); [grab]
    raises nothing else, a pattern without a match gives the default
    0.0, and an exception of a scalar field leaves
    [parse_basic_metrics]. *)
Theorem C3_malformed_token_raises_ValueError :
  forall t p, In p scalar_patterns ->
    (forall g, search p t = Some g ->
       exists tok, group 1 g = Some tok
         /\ grab t p = float_of_str tok
         /\ (decimal_of_token tok = None ->
             grab t p = Raise (float_error tok)
             /\ exn_class (float_error tok) = str "ValueError"
             /\ exn_msg (float_error tok)
                = str "could not convert string to float: '" ++ tok
                  ++ str "'"))
    /\ (search p t = None -> grab t p = Ok zero)
    /\ (forall e, grab t p = Raise e ->
          (exists g tok, search p t = Some g /\ group 1 g = Some tok
             /\ decimal_of_token tok = None /\ e = float_error tok)
          /\ exists e', parse_basic_metrics t = Raise e').
Proof.
  intros t p I. split; [|split].
  - intros g S. destruct (@scalar_groups p t g I S) as [tok ->].
    exists tok. split; [reflexivity|].
    split; [now apply grab_match|].
    intros D. rewrite (@grab_match t p tok S). unfold float_of_str. rewrite D.
    repeat split.
  - apply grab_default.
  - intros e H. split; [|eapply parse_basic_metrics_raises; eauto].
    destruct (search p t) as [g|] eqn:S.
    + destruct (@scalar_groups p t g I S) as [tok ->].
      rewrite (@grab_match t p tok S) in H. unfold float_of_str in H.
      destruct (decimal_of_token tok) as [[m k]|] eqn:D; [discriminate|].
      inversion H. exists [(1, tok)], tok. repeat split; auto.
    + rewrite (@grab_default t p S) in H. discriminate.
Qed.

Lemma C3_malformed_token_raises_ValueError_witness :
  grab (str "Total 1.2.3") pat_grand = Raise (float_error (str "1.2.3"))
  /\ grab (str "Totals") pat_grand = Ok zero.
Proof.
  destruct (@C3_malformed_token_raises_ValueError (str "Total 1.2.3")
              pat_grand) as (M & _ & _).
  { simpl; tauto. }
  destruct (@C3_malformed_token_raises_ValueError (str "Totals")
              pat_grand) as (_ & N & _).
  { simpl; tauto. }
  split.
  - destruct (M [(1, str "1.2.3")] eq_refl) as (tok & G & _ & R).
    inversion G; subst tok. apply R. reflexivity.
  - apply N. reflexivity.
Defined.

(** ** C5: the payments of "Cash: 50.00 Visa: 75.25" *)

(** C5, as stated, fails.  Both texts contain "Cash: 50.00 Visa: 75.25"
    and no other method name.  In the first a point follows the last
    amount: the token is "75.25." and [float] raises, so there is no
    mapping at all.  In the second a letter stands before "Cash": [\b]
    fails there and Cash stays at its default 0.0. *)
Lemma C5_counterexample :
  (occurs (str "Cash: 50.00 Visa: 75.25")
          (str "Cash: 50.00 Visa: 75.25.") = true
   /\ starts_nowhere methods (str ".") [] = true
   /\ parse_payments (str "Cash: 50.00 Visa: 75.25.")
      = Raise (float_error (str "75.25.")))
  /\ (occurs (str "Cash: 50.00 Visa: 75.25")
             (str "xCash: 50.00 Visa: 75.25") = true
      /\ starts_nowhere methods (str "x") (str "Cash: 50.00 Visa: 75.25")
         = true
      /\ exists d,
          parse_payments (str "xCash: 50.00 Visa: 75.25") = Ok d
          /\ get d (str "Cash") = Some (Amt zero)
          /\ eqb zero (dec 5000 2) = false).
Proof.
  split; [repeat split; vm_compute; reflexivity|].
  split; [reflexivity|]. split; [reflexivity|].
  eexists; split; [vm_compute; reflexivity|]. split; reflexivity.
Qed.

(** C5, amended.  For every text [pre ++ "Cash: 50.00 Visa: 75.25" ++
    post] in which no method name starts inside [pre] or [post], no word
    character stands just before "Cash" and the token "75.25" ends where
    [post] begins, the payments are Cash 50.00, Visa 75.25 and 0.0 for
    AmEx, Master, Other and Discover: the six names and no other key. *)
Theorem C5_payments_cash_visa :
  forall pre post,
    word_starts pre = true ->
    token_ends post = true ->
    starts_nowhere methods pre (str "Cash: 50.00 Visa: 75.25" ++ post)
    = true ->
    starts_nowhere methods post [] = true ->
    parse_payments (pre ++ str "Cash: 50.00 Visa: 75.25" ++ post)
    = Ok [(str "Cash", Amt (dec 5000 2)); (str "Visa", Amt (dec 7525 2));
          (str "AmEx", Amt zero); (str "Master", Amt zero);
          (str "Other", Amt zero); (str "Discover", Amt zero)].
Proof.
  intros pre post W E N1 N2. unfold parse_payments.
  rewrite (pay_pairs_two pre post W E N1 N2).
  vm_compute. reflexivity.
Qed.

Lemma C5_payments_cash_visa_witness :
  parse_payments (str "Drawer 1" ++ nl ++ str "Cash: 50.00 Visa: 75.25"
                    ++ nl ++ str "Total 125.25")
  = Ok [(str "Cash", Amt (dec 5000 2)); (str "Visa", Amt (dec 7525 2));
        (str "AmEx", Amt zero); (str "Master", Amt zero);
        (str "Other", Amt zero); (str "Discover", Amt zero)].
Proof.
  apply (C5_payments_cash_visa (str "Drawer 1" ++ nl)
           (nl ++ str "Total 125.25")); reflexivity.
Defined.

(** ** C10: a method that occurs more than once *)

(** C10.  When the list of matches holds a pair for a method and no
    later pair for it, a mapping that [parse_payments] returns binds the
    method to the float of that pair's amount; [parse_payments] returns
    a mapping exactly when the last amount of every method is a number;
    and "Cash: 10.00" followed by "Cash: 20.00" gives Cash 20.00. *)
Theorem C10_payments_last_occurrence :
  (forall t k l1 tok l2,
      In k methods ->
      pay_pairs t = l1 ++ (k, Tok tok) :: l2 ->
      ~ In k (keys l2) ->
      (forall d, parse_payments t = Ok d ->
         exists f, float_of_str tok = Ok f /\ get d k = Some (Amt f))
      /\ ((forall k', In k' methods ->
             exists f,
               float_of_pay (get (of_pairs (pay_pairs t)) k') = Ok f) ->
          exists d f, parse_payments t = Ok d
            /\ float_of_str tok = Ok f /\ get d k = Some (Amt f)))
  /\ pay_pairs (str "Cash: 10.00" ++ nl ++ str "Cash: 20.00")
     = [(str "Cash", Tok (str "10.00")); (str "Cash", Tok (str "20.00"))]
  /\ exists d,
      parse_payments (str "Cash: 10.00" ++ nl ++ str "Cash: 20.00") = Ok d
      /\ get d (str "Cash") = Some (Amt (dec 2000 2)).
Proof.
  split; [|split; [reflexivity|]].
  - intros t k l1 tok l2 I P N.
    assert (G : get (of_pairs (pay_pairs t)) k = Some (Tok tok))
      by (rewrite P; now apply get_of_pairs_last).
    assert (L : forall d, parse_payments t = Ok d ->
              exists f, float_of_str tok = Ok f /\ get d k = Some (Amt f)).
    { intros d H. unfold parse_payments in H.
      destruct (pay_loop_get methods_NoDup _ H) as [H1 _].
      destruct (H1 k I) as (f & F & D). rewrite G in F. eauto. }
    split; [exact L|].
    intros A. destruct (pay_loop_returns methods_NoDup _ A) as [d D].
    destruct (L d D) as (f & F & Gd). eauto.
  - eexists; split; vm_compute; reflexivity.
Qed.

Lemma C10_payments_last_occurrence_witness :
  exists d f,
    parse_payments (str "Cash: 1.2.3 Visa: 7 Cash: 20.00") = Ok d
    /\ float_of_str (str "20.00") = Ok f
    /\ get d (str "Cash") = Some (Amt f).
Proof.
  apply (proj1 C10_payments_last_occurrence
           (str "Cash: 1.2.3 Visa: 7 Cash: 20.00") (str "Cash")
           [(str "Cash", Tok (str "1.2.3")); (str "Visa", Tok (str "7"))]
           (str "20.00") []).
  - simpl; tauto.
  - reflexivity.
  - simpl; tauto.
  - intros k' I. simpl in I.
    destruct I as [<-|[<-|[<-|[<-|[<-|[<-|[]]]]]]];
      eexists; vm_compute; reflexivity.
Defined.

(** ** C7: the department rows of the request *)

Lemma all_numeric_Forall (df : list dept_row) :
  all_numeric df = true -> Forall numeric df.
Proof.
  unfold all_numeric. rewrite forallb_forall, Forall_forall.
  intros H r I. apply negb_true_iff. now apply H.
Qed.

Lemma distinct_sales_pairs (df : list dept_row) :
  distinct_sales df = true -> ForallOrdPairs differ df.
Proof.
  induction df as [|a df IH]; cbn; [constructor|].
  intros H. apply andb_prop in H as [H1 H2]. constructor; [|auto].
  rewrite forallb_forall in H1. rewrite Forall_forall.
  intros b I. apply negb_true_iff. now apply H1.
Qed.

(** C7.  For 50 department rows whose sales are numbers and pairwise
    different, the request payload holds exactly 20 department rows,
    [dept_preview]: they are in strictly descending order of sales, and
    together with the 30 rows left out they are the 50 rows, every row
    left out having smaller sales than every row kept. *)
Theorem C7_top20_by_descending_sales :
  forall t m,
    length (dept_df m) = 50 ->
    all_numeric (dept_df m) = true ->
    distinct_sales (dept_df m) = true ->
    exists top rest,
      departments_top20 (user_payload t m)
      = Some (JArr (map record_of_row top))
      /\ top = dept_preview (dept_df m)
      /\ length top = 20 /\ length rest = 30
      /\ Permutation (dept_df m) (top ++ rest)
      /\ StronglySorted sdesc top
      /\ forall a b, In a top -> In b rest -> sdesc a b.
Proof.
  intros t m L N D.
  apply all_numeric_Forall in N. apply distinct_sales_pairs in D.
  set (df := dept_df m) in *.
  assert (P : Permutation df (sort_desc df))
    by apply Permutation_sym, sort_desc_perm.
  assert (S : StronglySorted sdesc (sort_desc df)).
  { apply sorted_distinct_strict; [now apply sort_desc_sorted|].
    eapply distinct_perm; eauto. }
  assert (E : dept_preview df = firstn 20 (sort_desc df)).
  { unfold dept_preview. destruct df; [discriminate L|].
    now rewrite sort_values_desc_numeric. }
  exists (firstn 20 (sort_desc df)), (skipn 20 (sort_desc df)).
  rewrite firstn_skipn in *. rewrite <- (firstn_skipn 20 (sort_desc df)) in S.
  apply sorted_app_inv in S as [S1 S2].
  assert (Ls : length (sort_desc df) = 50)
    by now rewrite <- (Permutation_length P).
  repeat split; auto.
  - rewrite payload_departments. fold df. now rewrite E.
  - rewrite length_firstn. lia.
  - rewrite length_skipn. lia.
Qed.

Lemma C7_top20_by_descending_sales_witness :
  exists top rest,
    departments_top20 (user_payload [] sample_metrics)
    = Some (JArr (map record_of_row top))
    /\ top = dept_preview (dept_df sample_metrics)
    /\ length top = 20 /\ length rest = 30
    /\ Permutation (dept_df sample_metrics) (top ++ rest)
    /\ StronglySorted sdesc top
    /\ forall a b, In a top -> In b rest -> sdesc a b.
Proof.
  apply (C7_top20_by_descending_sales [] sample_metrics);
    vm_compute; reflexivity.
Defined.

(** ** C9: no credential *)

(** C9.  Without a credential [analyze_with_ai] returns the error record
    and raises nothing; and for every text whose extraction succeeds
    the page draws the metrics, the payments and the department rows,
    then under the AI header the one error message if the analysis was
    started, then the raw text, and ends normally.  The elements drawn
    before the AI section are the same with a credential. *)
Theorem C9_no_credential_is_not_fatal :
  forall other t m model button run_auto,
    parse_basic_metrics t = Ok m ->
    analyze_with_ai None t m model = Ok (no_key_error, None)
    /\ exists total,
        sum_pays (values (payments m)) = Ok total
        /\ metrics_section m
           = (kpi_widgets m total ++ dept_widgets m, Ok tt)
        /\ page other None (Some t) model button run_auto
           = (kpi_widgets m total ++ dept_widgets m ++ [ai_header]
                ++ (if button || run_auto
                    then [Error (JStr (str "No OPENAI_API_KEY set."))]
                    else [])
                ++ [RawText (firstn 20000 t)],
              Ok tt)
        /\ forall call, exists rest r,
            page other (Some call) (Some t) model button run_auto
            = (kpi_widgets m total ++ dept_widgets m ++ [ai_header] ++ rest,
               r).
Proof.
  intros other t m model button run_auto P. split; [reflexivity|].
  assert (A : forall v, In v (values (payments m)) -> is_amt v = true).
  { apply parse_basic_metrics_fields in P.
    eapply parse_payments_amounts, P. }
  destruct (sum_pays_amounts _ A) as [total S].
  exists total. split; [exact S|].
  split; [now apply metrics_section_run|]. split.
  - rewrite (@page_run other None t m model button run_auto total P S).
    destruct (button || run_auto); reflexivity.
  - intros call.
    rewrite (@page_run other (Some call) t m model button run_auto total P S).
    cbv zeta. eauto.
Qed.

Lemma C9_no_credential_is_not_fatal_witness :
  exists m total,
    parse_basic_metrics scenario_text = Ok m
    /\ analyze_with_ai None scenario_text m (str "gpt-5-mini")
       = Ok (no_key_error, None)
    /\ page DataFrame_raises None (Some scenario_text) (str "gpt-5-mini")
           true false
       = (kpi_widgets m total ++ dept_widgets m ++ [ai_header]
            ++ [Error (JStr (str "No OPENAI_API_KEY set."))]
            ++ [RawText (firstn 20000 scenario_text)],
          Ok tt).
Proof.
  assert (P : parse_basic_metrics scenario_text
              = Ok (Metrics (dec 20000 2) (dec 1000 2) zero zero
                      (dec 1600 2) (dec 1600 2)
                      [(str "Cash", Amt (dec 21600 2));
                       (str "AmEx", Amt zero); (str "Visa", Amt zero);
                       (str "Master", Amt zero); (str "Other", Amt zero);
                       (str "Discover", Amt zero)] []))
    by (vm_compute; reflexivity).
  destruct (@C9_no_credential_is_not_fatal DataFrame_raises scenario_text
              _ (str "gpt-5-mini") true false P)
    as (A & total & _ & _ & W & _).
  eexists; exists total. split; [exact P|]. split; [exact A | exact W].
Defined.

(** ** C4: an issue without severity *)

(** C4, as stated, fails in its second half.  The response with
    [issues: [{message: "x"}]] is accepted, but its table has the one
    column "message": the issue has no severity cell, let alone INFO. *)
Lemma C4_counterexample :
  findings_section DataFrame_raises
    (JObj [(str "summary", JStr (str "ok"));
           (str "issues", JArr [JObj [(str "message", JStr (str "x"))]])])
  = ([Markdown (str "**Summary**"); Write (JStr (str "ok"));
      Markdown (str "**Findings**");
      IssuesTable (Frame [str "message"] [[Some (JStr (str "x"))]])],
     Ok tt)
  /\ cell_at [str "message"] [Some (JStr (str "x"))] (str "severity") = None
  /\ cell_at [str "message"] [Some (JStr (str "x"))] (str "severity")
     <> Some (Some (JStr (str "INFO"))).
Proof. split; [reflexivity|]. split; [reflexivity | discriminate]. Qed.

(** C4, amended.  A response object without an "error" key whose issues
    are a non-empty list of objects is accepted: the findings step ends
    normally after drawing the table of the issues as they were given,
    whether or not they have a severity.  The table has a column for
    every key that some issue has and no other; the cell of an issue
    under a column is the value the issue gives the key, and is missing
    when the issue lacks the key.  So a missing severity is not set to
    INFO: its cell is missing, or the table has no severity column. *)
Theorem C4_missing_severity_stays_missing :
  forall other fields issues recs,
    get fields (str "issues") = Some (JArr issues) ->
    issues <> [] ->
    records_of issues = Some recs ->
    findings_section other (JObj fields)
    = ([Markdown (str "**Summary**");
        Write (match get fields (str "summary") with
               | Some v => v
               | None => JStr (str "—")
               end);
        Markdown (str "**Findings**");
        IssuesTable (frame_of_records recs)], Ok tt)
    /\ (get fields (str "error") = None ->
        forall t m model,
          findings_shown
            (log (ai_section other (Some (answers (JObj fields))) t m model))
          = [frame_of_records recs])
    /\ rows (frame_of_records recs)
       = map (fun r => map (fun c => get r c)
                         (columns (frame_of_records recs))) recs
    /\ (forall c, In c (columns (frame_of_records recs))
                  <-> exists r, In r recs /\ In c (keys r))
    /\ (forall r, In r recs -> get r (str "severity") = None ->
          let cell := cell_at (columns (frame_of_records recs))
                        (map (fun c => get r c)
                             (columns (frame_of_records recs)))
                        (str "severity") in
          (cell = None \/ cell = Some None)
          /\ cell <> Some (Some (JStr (str "INFO")))).
Proof.
  intros other fields issues recs G N R.
  pose proof (@findings_section_records other fields issues recs G N R) as F.
  split; [exact F|]. split; [|split; [reflexivity|split]].
  - intros E t m model.
    rewrite (@ai_section_reply other (answers (JObj fields)) t m model
               (JObj fields) None eq_refl).
    cbn [error_of]. rewrite E, F. reflexivity.
  - apply frame_columns.
  - intros r I S cell. subst cell. rewrite cell_at_row, S.
    destruct (existsb _ _); split; auto; discriminate.
Qed.

Lemma C4_missing_severity_stays_missing_witness :
  findings_section DataFrame_raises
    (JObj [(str "issues",
            JArr [JObj [(str "message", JStr (str "x"))];
                  JObj [(str "severity", JStr (str "WARNING"));
                        (str "message", JStr (str "y"))]])])
  = ([Markdown (str "**Summary**"); Write (JStr (str "—"));
      Markdown (str "**Findings**");
      IssuesTable
        (Frame [str "message"; str "severity"]
           [[Some (JStr (str "x")); None];
            [Some (JStr (str "y")); Some (JStr (str "WARNING"))]])],
     Ok tt).
Proof.
  apply (proj1 (@C4_missing_severity_stays_missing DataFrame_raises
           [(str "issues",
             JArr [JObj [(str "message", JStr (str "x"))];
                   JObj [(str "severity", JStr (str "WARNING"));
                         (str "message", JStr (str "y"))]])]
           [JObj [(str "message", JStr (str "x"))];
            JObj [(str "severity", JStr (str "WARNING"));
                  (str "message", JStr (str "y"))]]
           [[(str "message", JStr (str "x"))];
            [(str "severity", JStr (str "WARNING"));
             (str "message", JStr (str "y"))]]
           eq_refl ltac:(discriminate) eq_refl)).
Defined.

(** ** C2: checks on the metrics *)

Lemma page_findings (other : json -> result frame) (c : option client)
    (t : text) (m : metrics) (model : text) (button run_auto : bool) :
  parse_basic_metrics t = Ok m ->
  findings_shown (log (page other c (Some t) model button run_auto))
  = if button || run_auto
    then findings_shown (log (ai_section other c t m model))
    else [].
Proof.
  intros P.
  assert (A : forall v, In v (values (payments m)) -> is_amt v = true).
  { apply parse_basic_metrics_fields in P.
    eapply parse_payments_amounts, P. }
  destruct (sum_pays_amounts _ A) as [total S].
  rewrite (@page_run other c t m model button run_auto total P S).
  cbv zeta. unfold log at 1. cbn [fst].
  rewrite app_assoc, findings_shown_app, metrics_no_findings.
  cbn [app findings_shown ai_header]. unfold ai_header.
  cbn [findings_shown]. rewrite findings_shown_app.
  destruct (button || run_auto).
  - destruct (outcome (ai_section other c t m model));
      cbn [findings_shown]; apply app_nil_r.
  - reflexivity.
Qed.

(** C2, as stated, fails: the code has no local validator.  The text
    gives subtotal 100.00 and tax total 0.00, yet no finding is shown,
    neither without a credential nor when the collaborator's response
    has no issues. *)
Lemma C2_counterexample :
  exists m,
    parse_basic_metrics (str "Merchandise Sales 100.00") = Ok m
    /\ ltb zero (subtotal m) = true
    /\ eqb (tax_total m) zero = true
    /\ findings_shown
         (log (page DataFrame_raises None
                 (Some (str "Merchandise Sales 100.00"))
                 (str "gpt-5-mini") true false)) = []
    /\ findings_shown
         (log (page DataFrame_raises
                 (Some (answers (JObj [(str "summary", JStr (str "ok"));
                                       (str "issues", JArr [])])))
                 (Some (str "Merchandise Sales 100.00"))
                 (str "gpt-5-mini") true false)) = [].
Proof.
  eexists. split; [vm_compute; reflexivity|].
  split; [reflexivity|]. split; [reflexivity|].
  assert (P : parse_basic_metrics (str "Merchandise Sales 100.00")
              = Ok (Metrics (dec 10000 2) zero zero zero zero zero
                      [(str "Cash", Amt zero); (str "AmEx", Amt zero);
                       (str "Visa", Amt zero); (str "Master", Amt zero);
                       (str "Other", Amt zero); (str "Discover", Amt zero)]
                      []))
    by (vm_compute; reflexivity).
  split; rewrite (@page_findings _ _ _ _ _ _ _ P); reflexivity.
Qed.

(** C2, amended.  There is no local validator: the checks are asked of
    the collaborator in the instructions of the request (validate
    subtotal + taxes against the grand total; flag zero tax when the
    subtotal is positive), and the findings the page shows are those of
    the collaborator's response, whatever the metrics are.  Without a
    credential, with a response that carries an "error" key, or with a
    response without issues, no finding is shown; with a response whose
    issues are a non-empty list of objects the one table shown is the
    table of that list. *)
Theorem C2_findings_come_from_the_response :
  forall other t m model,
    (json_field (user_payload t m) (str "instructions")
     = Some (JArr (map JStr instructions))
     /\ In (str "Validate math: subtotal + taxes ≈ grand_total; payment sums ≈ grand_total.")
           instructions
     /\ In (str "Flag anomalies: negative numbers, zero tax when subtotal>0, drawer mismatches, weird spikes, missing hours.")
           instructions)
    /\ findings_shown (log (ai_section other None t m model)) = []
    /\ (forall (call : client) v u,
          call (Request model system_prompt (user_payload t m))
          = Ok (Reply (Ok v) u) ->
          findings_shown (log (ai_section other (Some call) t m model))
          = match error_of v with
            | Some _ => []
            | None => findings_shown (log (findings_section other v))
            end)
    /\ (forall fields,
          truthy (match get fields (str "issues") with
                  | Some v => v
                  | None => JArr []
                  end) = false ->
          findings_shown (log (findings_section other (JObj fields))) = [])
    /\ (forall fields issues recs,
          get fields (str "issues") = Some (JArr issues) ->
          issues <> [] ->
          records_of issues = Some recs ->
          findings_shown (log (findings_section other (JObj fields)))
          = [frame_of_records recs])
    /\ (forall c button run_auto,
          parse_basic_metrics t = Ok m ->
          findings_shown (log (page other c (Some t) model button run_auto))
          = if button || run_auto
            then findings_shown (log (ai_section other c t m model))
            else []).
Proof.
  intros other t m model.
  split; [split; [reflexivity|split; cbn [instructions In]; tauto]|].
  split; [reflexivity|]. split; [|split; [|split]].
  - intros call v u C.
    rewrite (@ai_section_reply other call t m model v u C).
    destruct (error_of v); [reflexivity|].
    rewrite andthen_log, findings_shown_app.
    destruct (outcome (findings_section other v));
      [rewrite usage_section_no_findings|]; apply app_nil_r.
  - intros fields F. now rewrite (@findings_section_none other fields F).
  - intros fields issues recs G N R.
    now rewrite (@findings_section_records other fields issues recs G N R).
  - intros c button run_auto P. now apply page_findings.
Qed.

Lemma C2_findings_come_from_the_response_witness :
  findings_shown
    (log (ai_section DataFrame_raises
            (Some (answers (JObj [(str "issues", JArr [])])))
            scenario_text sample_metrics (str "gpt-5-mini"))) = []
  /\ findings_shown
       (log (findings_section DataFrame_raises
               (JObj [(str "issues",
                       JArr [JObj [(str "severity", JStr (str "WARNING"));
                                   (str "message",
                                    JStr (str "zero tax"))]])])))
     = [Frame [str "severity"; str "message"]
          [[Some (JStr (str "WARNING")); Some (JStr (str "zero tax"))]]].
Proof.
  destruct (C2_findings_come_from_the_response DataFrame_raises
              scenario_text sample_metrics (str "gpt-5-mini"))
    as (_ & _ & A & _ & B & _).
  split.
  - rewrite (A (answers (JObj [(str "issues", JArr [])]))
               (JObj [(str "issues", JArr [])]) None eq_refl).
    reflexivity.
  - apply (B [(str "issues",
               JArr [JObj [(str "severity", JStr (str "WARNING"));
                           (str "message", JStr (str "zero tax"))]])]
             [JObj [(str "severity", JStr (str "WARNING"));
                    (str "message", JStr (str "zero tax"))]]
             [[(str "severity", JStr (str "WARNING"));
               (str "message", JStr (str "zero tax"))]]
             eq_refl ltac:(discriminate) eq_refl).
Defined.

(** ** C8: the cost estimate *)

(** C8.  For the fast model "gpt-5-mini" the estimate is
    [in/1e6 * 0.25 + out/1e6 * 2.0] and for the deep model "gpt-5" it is
    [in/1e6 * 1.25 + out/1e6 * 10.0], in float arithmetic; the function
    returns that value for all token counts below 2^64; every other
    model identifier gives 0.0 and no exception; and one million tokens
    each way on the fast model cost exactly 2.25 = 0.25 + 2.0. *)
Theorem C8_estimated_cost :
  (forall i o,
      estimated_cost (str "gpt-5-mini") i o
      = (x <- truediv i 1000000 ;; y <- truediv o 1000000 ;;
         Ok (add (mul x (dec 25 2)) (mul y (dec 20 1)))))
  /\ (forall i o,
         estimated_cost (str "gpt-5") i o
         = (x <- truediv i 1000000 ;; y <- truediv o 1000000 ;;
            Ok (add (mul x (dec 125 2)) (mul y (dec 100 1)))))
  /\ (forall i o,
         (Z.abs i < 2 ^ 64)%Z -> (Z.abs o < 2 ^ 64)%Z ->
         estimated_cost (str "gpt-5-mini") i o
         = Ok (add (mul (ratio i 1000000) (dec 25 2))
                   (mul (ratio o 1000000) (dec 20 1)))
         /\ estimated_cost (str "gpt-5") i o
            = Ok (add (mul (ratio i 1000000) (dec 125 2))
                      (mul (ratio o 1000000) (dec 100 1))))
  /\ (forall model i o,
         model <> str "gpt-5" -> model <> str "gpt-5-mini" ->
         estimated_cost model i o = Ok zero)
  /\ estimated_cost (str "gpt-5-mini") 1000000 1000000 = Ok (dec 225 2)
  /\ add (dec 25 2) (dec 20 1) = dec 225 2.
Proof.
  split; [reflexivity|]. split; [reflexivity|].
  split; [|split; [|split; reflexivity]].
  - intros i o I O.
    assert (Ti := @truediv_returns i 1000000 I eq_refl).
    assert (To := @truediv_returns o 1000000 O eq_refl).
    split.
    + change (estimated_cost (str "gpt-5-mini") i o)
        with (x <- truediv i 1000000 ;; y <- truediv o 1000000 ;;
              Ok (add (mul x (dec 25 2)) (mul y (dec 20 1)))).
      now rewrite Ti, To.
    + change (estimated_cost (str "gpt-5") i o)
        with (x <- truediv i 1000000 ;; y <- truediv o 1000000 ;;
              Ok (add (mul x (dec 125 2)) (mul y (dec 100 1)))).
      now rewrite Ti, To.
  - intros model i o N1 N2. unfold estimated_cost.
    now rewrite (text_eqb_neq N1), (text_eqb_neq N2).
Qed.

Lemma C8_estimated_cost_witness :
  estimated_cost (str "gpt-5-mini") 1200 300
  = Ok (add (mul (ratio 1200 1000000) (dec 25 2))
            (mul (ratio 300 1000000) (dec 20 1)))
  /\ estimated_cost (str "fast") 1000000 1000000 = Ok zero.
Proof.
  destruct C8_estimated_cost as (_ & _ & R & U & _).
  split.
  - apply (R 1200 300)%Z; reflexivity.
  - apply U; discriminate.
Defined.

(** * Further properties *)

(** ** The matcher moves forward *)

(** A greedy repetition that succeeds has taken a run of class
    characters, at least [min] of them, and the rest of the pattern
    matched behind it. *)
Lemma rep_greedy_inv (A : Type) (cls : ascii -> bool)
    (k : option ascii -> text -> nat -> option A) (a : A) :
  forall s min prev n,
    rep_greedy cls min prev s n k = Some a ->
    exists tok rest,
      s = tok ++ rest /\ forallb cls tok = true /\ min <= length tok
      /\ k (last_of tok prev) rest (length tok + n) = Some a.
Proof.
  induction s as [|c s IH]; intros min prev n H; cbn [rep_greedy] in H.
  - destruct min; [|discriminate]. exists [], []. repeat split; auto.
  - assert (Stop : match min with O => k prev (c :: s) n | S _ => None end
                   = Some a ->
                   exists tok rest,
                     c :: s = tok ++ rest /\ forallb cls tok = true
                     /\ min <= length tok
                     /\ k (last_of tok prev) rest (length tok + n) = Some a).
    { destruct min; [|discriminate]. intros K.
      exists [], (c :: s). repeat split; auto. }
    destruct (cls c) eqn:C; [|auto].
    destruct (rep_greedy cls (pred min) (Some c) s (S n) k) eqn:E; [|auto].
    inversion H; subst.
    destruct (IH _ _ _ E) as (tok & rest & -> & F & L & K).
    exists (c :: tok), rest. cbn [forallb length app]. rewrite C, F.
    repeat split; [lia|]. cbn [last_of fold_left].
    now rewrite Nat.add_succ_r in K.
Qed.

Lemma rep_lazy_inv (A : Type) (cls : ascii -> bool)
    (k : option ascii -> text -> nat -> option A) (a : A) :
  forall s min prev n,
    rep_lazy cls min prev s n k = Some a ->
    exists tok rest,
      s = tok ++ rest /\ forallb cls tok = true /\ min <= length tok
      /\ k (last_of tok prev) rest (length tok + n) = Some a.
Proof.
  induction s as [|c s IH]; intros min prev n H; cbn [rep_lazy] in H.
  - destruct min; [|discriminate].
    destruct (k prev [] n) eqn:K; [|discriminate]. inversion H; subst.
    exists [], []. repeat split; auto.
  - assert (More : (if cls c then rep_lazy cls (pred min) (Some c) s (S n) k
                    else None) = Some a ->
                   exists tok rest,
                     c :: s = tok ++ rest /\ forallb cls tok = true
                     /\ min <= length tok
                     /\ k (last_of tok prev) rest (length tok + n) = Some a).
    { destruct (cls c) eqn:C; [|discriminate]. intros E.
      destruct (IH _ _ _ E) as (tok & rest & -> & F & L & K).
      exists (c :: tok), rest. cbn [forallb length app]. rewrite C, F.
      repeat split; [lia|]. cbn [last_of fold_left].
      now rewrite Nat.add_succ_r in K. }
    destruct min; [|auto].
    destruct (k prev (c :: s) n) eqn:K; [|auto]. inversion H; subst.
    exists [], (c :: s). repeat split; auto.
Qed.

(** Whenever a pattern hands over to what follows it, it has consumed a
    prefix of the text: the rest is a suffix, the count has grown by the
    length of the prefix and the previous character is its last. *)
Lemma run_inv (A : Type) (r : regex) :
  forall prev s n g (k : cont A) a,
    run r prev s n g k = Some a ->
    exists m rest g',
      s = m ++ rest /\ k (last_of m prev) rest (length m + n) g' = Some a.
Proof.
  induction r as [l| |greedy min cls|r1 IH1 r2 IH2|r1 IH1 r2 IH2|r1 IH1|i r1 IH1];
    intros prev s n g k a H; cbn [run] in H.
  - destruct (strip_prefix l s) as [s'|] eqn:E; [|discriminate].
    apply strip_prefix_Some in E. eauto.
  - destruct (at_boundary prev s); [|discriminate]. exists [], s, g. auto.
  - destruct greedy;
      [apply rep_greedy_inv in H | apply rep_lazy_inv in H];
      destruct H as (tok & rest & -> & _ & _ & K); eauto.
  - apply IH1 in H as (m1 & rest1 & g1 & -> & H).
    apply IH2 in H as (m2 & rest2 & g2 & -> & H).
    exists (m1 ++ m2), rest2, g2. split; [now rewrite app_assoc|].
    rewrite last_of_app, length_app.
    now replace (length m1 + length m2 + n) with (length m2 + (length m1 + n))
      by lia.
  - destruct (run r1 prev s n g k) eqn:E.
    + inversion H; subst. eauto.
    + eauto.
  - destruct (run r1 prev s n g k) eqn:E.
    + inversion H; subst. eauto.
    + exists [], s, g. auto.
  - apply IH1 in H as (m & rest & g' & -> & H). eauto.
Qed.

(** ** Amounts are never negative *)

Lemma binary_round_aux_nonneg (mx ex : Z) (lx : location) :
  (0 <= mx)%Z -> nonneg (binary_round_aux prec emax false mx ex lx) = true.
Proof.
  intros M. unfold binary_round_aux.
  pose proof (@shr_fexp_bounds mx ex lx M) as [B1 _].
  destruct (shr_fexp prec emax mx ex lx) as [mrs' e'].
  cbn [fst snd] in B1.
  pose proof (round_nearest_even_bounds (shr_m mrs') (loc_of_shr_record mrs'))
    as R.
  set (m1 := round_nearest_even (shr_m mrs') (loc_of_shr_record mrs')) in *.
  assert (M1 : (0 <= m1)%Z) by lia.
  pose proof (@shr_fexp_bounds m1 e' loc_Exact M1) as [C1 _].
  destruct (shr_fexp prec emax m1 e' loc_Exact) as [mrs'' e''].
  cbn [fst snd] in C1.
  destruct (shr_m mrs'') as [|p|p]; [reflexivity| |lia].
  now destruct (Z.leb e'' (emax - prec)).
Qed.

Lemma SFdiv_core_nonneg (p q : positive) (e1 e2 : Z) :
  (0 <= fst (fst (SFdiv_core_binary prec emax (Zpos p) e1 (Zpos q) e2)))%Z.
Proof.
  unfold SFdiv_core_binary.
  set (e' := Z.min _ _). set (m' := match (e1 - e2 - e')%Z with
                                     | 0%Z => Zpos p
                                     | Zpos _ => Z.shiftl (Zpos p) (e1 - e2 - e')
                                     | Zneg _ => 0%Z
                                     end).
  assert (M : (0 <= m')%Z).
  { unfold m'. destruct (e1 - e2 - e')%Z; try lia.
    apply Z.shiftl_nonneg. lia. }
  pose proof (Z.div_eucl_eq m' (Zpos q) ltac:(lia)) as Q.
  pose proof (Z.mod_pos_bound m' (Zpos q) ltac:(lia)) as R.
  unfold Z.modulo in R.
  destruct (Z.div_eucl m' (Zpos q)) as [qq r]. cbn [fst]. nia.
Qed.

(** The quotient of a natural number by a positive one is a
    non-negative float. *)
Lemma ratio_nonneg (a b : Z) :
  (0 <= a)%Z -> (0 < b)%Z -> nonneg (ratio a b) = true.
Proof.
  intros A B. unfold ratio, div, of_Z_exact.
  destruct b as [|q|q]; try lia. destruct a as [|p|p]; try lia;
    [reflexivity|]. cbn [SFdiv xorb].
  pose proof (SFdiv_core_nonneg p q 0 0) as N.
  destruct (SFdiv_core_binary prec emax (Zpos p) 0 (Zpos q) 0) as [[mz ez] lz].
  now apply binary_round_aux_nonneg.
Qed.

Lemma digit_val_range (c : ascii) :
  Chars.is_digit c = true -> (0 <= digit_val c <= 9)%Z.
Proof.
  unfold Chars.is_digit, Chars.between, digit_val. intros H.
  apply andb_prop in H as [H1 H2].
  apply Nat.leb_le in H1, H2. lia.
Qed.

Lemma read_digits_nonneg (s : text) :
  forall acc n,
    (0 <= acc)%Z -> (0 <= fst (fst (read_digits s acc n)))%Z.
Proof.
  induction s as [|c s IH]; intros acc n A; cbn [read_digits]; [exact A|].
  destruct (Chars.is_digit c) eqn:D; [|exact A].
  apply IH. pose proof (@digit_val_range c D). lia.
Qed.

Lemma decimal_of_token_nonneg (tok : text) (m : Z) (k : nat) :
  decimal_of_token tok = Some (m, k) -> (0 <= m)%Z.
Proof.
  unfold decimal_of_token.
  pose proof (@read_digits_nonneg tok 0%Z 0 ltac:(lia)) as N.
  destruct (read_digits tok 0 0) as [[ip ni] rest]. cbn [fst] in N.
  destruct rest as [|c rest'].
  - destruct (0 <? ni); [|discriminate]. now intros [= <- <-].
  - destruct (is_point c); [|discriminate].
    pose proof (@read_digits_nonneg rest' ip 0 N) as N'.
    destruct (read_digits rest' ip 0) as [[m' nf] rest'']. cbn [fst] in N'.
    destruct rest''; [|discriminate].
    destruct (0 <? ni + nf); [|discriminate]. now intros [= <- <-].
Qed.

Lemma float_of_str_nonneg (tok : text) (f : float) :
  float_of_str tok = Ok f -> nonneg f = true.
Proof.
  unfold float_of_str.
  destruct (decimal_of_token tok) as [[m k]|] eqn:D; [|discriminate].
  intros [= <-]. unfold dec. apply ratio_nonneg.
  - eapply decimal_of_token_nonneg; eauto.
  - apply Z.pow_pos_nonneg; lia.
Qed.

Lemma grab_nonneg (t : text) (p : regex) (f : float) :
  grab t p = Ok f -> nonneg f = true.
Proof.
  unfold grab. destruct (search p t) as [g|].
  - destruct (group 1 g); [apply float_of_str_nonneg | discriminate].
  - apply float_of_str_nonneg.
Qed.

Lemma float_of_pay_nonneg (v : option pay_val) (f : float) :
  (forall f', v = Some (Amt f') -> nonneg f' = true) ->
  float_of_pay v = Ok f -> nonneg f = true.
Proof.
  destruct v as [[tok|f']|]; cbn [float_of_pay]; intros A.
  - apply float_of_str_nonneg.
  - intros [= <-]. now apply A.
  - now intros [= <-].
Qed.

Lemma get_In (V : Type) (d : dict V) (k : text) (v : V) :
  get d k = Some v -> In (k, v) d.
Proof.
  induction d as [|[k' v'] d IH]; cbn [get]; [discriminate|].
  destruct (text_eqb k' k) eqn:E.
  - apply text_eqb_eq in E. intros [= <-]. subst. now left.
  - intros H. right. auto.
Qed.

(** After the loop every value of the payments is a non-negative
    float. *)
Lemma pay_loop_amounts_nonneg (ks : list text) :
  forall d d',
    NoDup (keys d) ->
    (forall k v, In (k, v) d -> amount v = true \/ (In k ks /\ is_amt v = false)) ->
    pay_loop ks d = Ok d' ->
    forall k v, In (k, v) d' -> amount v = true.
Proof.
  induction ks as [|k0 ks IH]; intros d d' N A H; cbn [pay_loop] in H.
  - inversion H; subst. intros k v I. destruct (A k v I) as [?|[[] _]]; auto.
  - destruct (float_of_pay (get d k0)) as [f|] eqn:F; [|discriminate].
    cbn [bind] in H.
    assert (NF : nonneg f = true).
    { eapply float_of_pay_nonneg; [|exact F].
      intros f' G. apply get_In in G.
      destruct (A _ _ G) as [?|[_ ?]]; [assumption | discriminate]. }
    apply (IH (set d k0 (Amt f)) d'); [now apply keys_set_NoDup| |exact H].
    intros k v I.
    apply (@set_entries _ d k0 (Amt f) N) in I as [[-> ->]|[NE I]];
      [now left|].
    destruct (A k v I) as [?|[[->|?] ?]]; auto; contradiction.
Qed.

Lemma set_entries_weak (V : Type) (d : dict V) (k : text) (v : V) :
  forall k' v',
    In (k', v') (set d k v) -> (k', v') = (k, v) \/ In (k', v') d.
Proof.
  induction d as [|[k0 v0] d IH]; cbn [set]; intros k' v' I.
  - destruct I as [I|[]]. now left.
  - destruct (text_eqb k0 k) eqn:E.
    + apply text_eqb_eq in E; subst k0.
      destruct I as [I|I]; [now left | right; now right].
    + destruct I as [I|I]; [right; now left|].
      destruct (IH _ _ I); [now left | right; now right].
Qed.

Lemma of_pairs_entries (V : Type) (l : list (text * V)) (k : text) (v : V) :
  In (k, v) (of_pairs l) -> In (k, v) l.
Proof.
  unfold of_pairs.
  assert (G : forall d,
            In (k, v) (fold_left (fun d kv => set d (fst kv) (snd kv)) l d) ->
            In (k, v) d \/ In (k, v) l).
  { induction l as [|[k0 v0] l IH]; intros d I; cbn [fold_left] in I; [auto|].
    apply IH in I as [I|I]; [|right; now right].
    cbn [fst snd] in I. apply set_entries_weak in I as [I|I]; [|auto].
    right. left. now symmetry. }
  intros I. apply G in I as [[]|I]. exact I.
Qed.

Lemma parse_payments_nonneg (t : text) (d : dict pay_val) :
  parse_payments t = Ok d -> forall k v, In (k, v) d -> amount v = true.
Proof.
  unfold parse_payments. intros H.
  eapply pay_loop_amounts_nonneg; [apply of_pairs_NoDup| |exact H].
  intros k0 v0 I0. right. apply of_pairs_entries in I0.
  unfold pay_pairs in I0. apply in_map_iff in I0 as (g & E & I0).
  inversion E; subst. split; [|reflexivity].
  pose proof (pay_pairs_methods t) as F. rewrite Forall_forall in F.
  apply (F (group_or_empty 1 g, Tok (group_or_empty 2 g))).
  unfold pay_pairs. apply in_map_iff. eauto.
Qed.

Lemma mapM_Forall (A B : Type) (f : A -> result B) (P : B -> Prop) :
  (forall a b, f a = Ok b -> P b) ->
  forall l bs, mapM f l = Ok bs -> Forall P bs.
Proof.
  intros H; induction l as [|a l IH]; intros bs M; cbn [mapM] in M.
  - inversion M; constructor.
  - destruct (f a) as [b|] eqn:F; [|discriminate]. cbn [bind] in M.
    destruct (mapM f l) as [bs'|]; [|discriminate]. cbn [bind] in M.
    inversion M; subst. constructor; eauto.
Qed.

Lemma mapM_length (A B : Type) (f : A -> result B) :
  forall l bs, mapM f l = Ok bs -> length bs = length l.
Proof.
  induction l as [|a l IH]; intros bs M; cbn [mapM] in M.
  - now inversion M.
  - destruct (f a) as [b|]; [|discriminate]. cbn [bind] in M.
    destruct (mapM f l) as [bs'|] eqn:E; [|discriminate]. cbn [bind] in M.
    inversion M; subst. cbn [length]. f_equal. auto.
Qed.

Lemma int64_of_digits_range (s : text) (n : Z) :
  int64_of_digits s = Ok n -> (0 <= n < 2 ^ 63)%Z.
Proof.
  unfold int64_of_digits.
  pose proof (@read_digits_nonneg s 0%Z 0 ltac:(lia)) as N.
  destruct (read_digits s 0 0) as [[m k] rest]. cbn [fst] in N.
  destruct (Z.ltb_spec m (2 ^ 63)); [|discriminate].
  intros [= <-]. lia.
Qed.

Lemma parse_dept_rows (t : text) (rows : list dept_row) :
  parse_dept t = Ok rows ->
  forall r, In r rows ->
    nonneg (Sales r) = true /\ (0 <= Qty r < 2 ^ 63)%Z.
Proof.
  unfold parse_dept. intros H r I.
  destruct (mapM _ (findall pat_dept t)) as [qtys|] eqn:Q; [|discriminate].
  cbn [bind] in H.
  destruct (mapM (fun g => float_of_str (group_or_empty 3 g))
              (findall pat_dept t)) as [sales|] eqn:S; [|discriminate].
  cbn [bind] in H. inversion H; subst. clear H.
  apply in_map_iff in I as ([g [q s]] & <- & I). cbn [Sales Qty].
  apply in_combine_r in I.
  pose proof (in_combine_l _ _ _ _ I) as Iq.
  pose proof (in_combine_r _ _ _ _ I) as Is.
  pose proof (@mapM_Forall _ _ _ (fun f => nonneg f = true)
                (fun a b => @float_of_str_nonneg _ b) _ _ S) as FS.
  pose proof (@mapM_Forall _ _ _ (fun n => (0 <= n < 2 ^ 63)%Z)
                (fun a b => @int64_of_digits_range _ b) _ _ Q) as FQ.
  rewrite Forall_forall in FS, FQ. split; auto.
Qed.

(** X1.  Whatever the text, the record that [parse_basic_metrics]
    returns holds no negative number and no NaN: the six scalar fields,
    every payment and the sales of every department row are
    non-negative floats, and every quantity is a natural number below
    2^63. *)
Theorem X1_amounts_are_never_negative :
  forall t m,
    parse_basic_metrics t = Ok m ->
    nonneg (subtotal m) = true /\ nonneg (tax_a m) = true
    /\ nonneg (tax_b m) = true /\ nonneg (tax_c m) = true
    /\ nonneg (tax_total m) = true /\ nonneg (grand_total m) = true
    /\ (forall k v, In (k, v) (payments m) ->
          exists f, v = Amt f /\ nonneg f = true)
    /\ (forall r, In r (dept_df m) ->
          nonneg (Sales r) = true /\ (0 <= Qty r < 2 ^ 63)%Z).
Proof.
  intros t m H. apply parse_basic_metrics_fields in H.
  destruct H as (H1 & H2 & H3 & H4 & H5 & H6 & H7 & H8).
  repeat (split; [eapply grab_nonneg; eassumption|]). split.
  - intros k v I. pose proof (parse_payments_nonneg _ H7 _ _ I) as A.
    destruct v as [tok|f]; [discriminate|]. eauto.
  - now apply parse_dept_rows with (t := t).
Qed.

Lemma X1_amounts_are_never_negative_witness :
  exists m,
    parse_basic_metrics scenario_text = Ok m
    /\ nonneg (grand_total m) = true
    /\ forall k v, In (k, v) (payments m) ->
         exists f, v = Amt f /\ nonneg f = true.
Proof.
  assert (P : parse_basic_metrics scenario_text
              = Ok (Metrics (dec 20000 2) (dec 1000 2) zero zero
                      (dec 1600 2) (dec 1600 2)
                      [(str "Cash", Amt (dec 21600 2));
                       (str "AmEx", Amt zero); (str "Visa", Amt zero);
                       (str "Master", Amt zero); (str "Other", Amt zero);
                       (str "Discover", Amt zero)] []))
    by (vm_compute; reflexivity).
  destruct (@X1_amounts_are_never_negative scenario_text _ P)
    as (_ & _ & _ & _ & _ & G & A & _).
  eexists. split; [exact P|]. split; [exact G | exact A].
Defined.

(** ** The keys of the payments *)

Lemma pay_loop_keys (ks : list text) :
  forall d d',
    pay_loop ks d = Ok d' ->
    (NoDup (keys d) -> NoDup (keys d'))
    /\ forall k, In k (keys d') <-> In k (keys d) \/ In k ks.
Proof.
  induction ks as [|k0 ks IH]; intros d d' H; cbn [pay_loop] in H.
  - inversion H; subst. split; [auto|]. intros k. cbn [In]. tauto.
  - destruct (float_of_pay (get d k0)) as [f|]; [|discriminate].
    cbn [bind] in H. apply IH in H as [N K]. split.
    + intros ND. apply N. now apply keys_set_NoDup.
    + intros k. rewrite K, keys_set. cbn [In]. intuition.
Qed.

(** X2.  A payments mapping that [parse_basic_metrics] returns has the
    six method names as its keys, each once and no other key; and a
    method that no match of the text names is bound to 0.0. *)
Theorem X2_payments_have_the_six_methods :
  forall t d,
    parse_payments t = Ok d ->
    NoDup (keys d)
    /\ Permutation (keys d) methods
    /\ length d = 6
    /\ forall k, In k methods -> ~ In k (keys (pay_pairs t)) ->
         get d k = Some (Amt zero).
Proof.
  intros t d H. unfold parse_payments in H.
  destruct (pay_loop_keys _ _ H) as [N K].
  specialize (N (of_pairs_NoDup _)).
  assert (P : Permutation (keys d) methods).
  { apply NoDup_Permutation; [exact N | apply methods_NoDup|].
    intros k. rewrite K. split; [|auto].
    intros [I|I]; [|exact I]. apply of_pairs_keys in I.
    unfold keys in I. apply in_map_iff in I as (kv & <- & I).
    pose proof (pay_pairs_methods t) as F. rewrite Forall_forall in F. auto. }
  split; [exact N|]. split; [exact P|]. split.
  - apply Permutation_length in P. unfold keys in P.
    now rewrite length_map in P.
  - intros k I A.
    destruct (pay_loop_get methods_NoDup _ H) as [G _].
    destruct (G k I) as (f & F & D).
    rewrite (get_of_pairs_absent _ _ A) in F. cbn [float_of_pay] in F.
    inversion F; subst. exact D.
Qed.

Lemma X2_payments_have_the_six_methods_witness :
  exists d,
    parse_payments (str "Visa: 7.50 Cash: 1") = Ok d
    /\ keys d = [str "Visa"; str "Cash"; str "AmEx"; str "Master";
                 str "Other"; str "Discover"]
    /\ Permutation (keys d) methods
    /\ get d (str "Other") = Some (Amt zero).
Proof.
  assert (P : parse_payments (str "Visa: 7.50 Cash: 1")
              = Ok [(str "Visa", Amt (dec 750 2)); (str "Cash", Amt (dec 1 0));
                    (str "AmEx", Amt zero); (str "Master", Amt zero);
                    (str "Other", Amt zero); (str "Discover", Amt zero)])
    by (vm_compute; reflexivity).
  destruct (@X2_payments_have_the_six_methods _ _ P) as (_ & Q & _ & Z).
  eexists. split; [exact P|]. split; [reflexivity|]. split; [exact Q|].
  apply Z; [simpl; tauto|].
  vm_compute. intros [E|[E|[]]]; discriminate E.
Defined.

(** ** What [parse_basic_metrics] raises *)

Lemma mapM_Raise (A B : Type) (f : A -> result B) (e : exn) :
  forall l, mapM f l = Raise e -> exists a, In a l /\ f a = Raise e.
Proof.
  induction l as [|a l IH]; cbn [mapM]; [discriminate|].
  destruct (f a) as [b|e'] eqn:F; cbn [bind].
  - destruct (mapM f l) as [bs|e'] eqn:M; cbn [bind]; [discriminate|].
    intros [= ->]. destruct (IH eq_refl) as (a' & I & R).
    exists a'. split; [now right | exact R].
  - intros [= ->]. exists a. split; [now left | exact F].
Qed.

Lemma float_of_str_Raise (tok : text) (e : exn) :
  float_of_str tok = Raise e ->
  e = float_error tok /\ decimal_of_token tok = None.
Proof.
  unfold float_of_str. destruct (decimal_of_token tok) as [[m k]|];
    [discriminate|]. intros [= <-]. auto.
Qed.

Lemma pay_loop_Raise (ks : list text) (e : exn) :
  forall d,
    (forall k v, get d k = Some v -> is_amt v = true \/ exists tok, v = Tok tok) ->
    pay_loop ks d = Raise e ->
    exists tok, e = float_error tok /\ decimal_of_token tok = None.
Proof.
  induction ks as [|k0 ks IH]; intros d A H; cbn [pay_loop] in H;
    [discriminate|].
  destruct (float_of_pay (get d k0)) as [f|e'] eqn:F; cbn [bind] in H.
  - apply IH in H; [exact H|]. intros k v G. destruct v; eauto.
  - inversion H; subst. destruct (get d k0) as [[tok|f]|]; cbn in F;
      try discriminate. exists tok. now apply float_of_str_Raise.
Qed.


Lemma grab_Raise (t : text) (p : regex) (e : exn) :
  In p scalar_patterns -> grab t p = Raise e ->
  exists tok, e = float_error tok /\ decimal_of_token tok = None.
Proof.
  intros I H. destruct (search p t) as [g|] eqn:S.
  - destruct (@scalar_groups p t g I S) as [tok ->].
    rewrite (@grab_match t p tok S) in H.
    exists tok. now apply float_of_str_Raise.
  - rewrite (@grab_default t p S) in H. discriminate.
Qed.

Lemma parse_payments_Raise (t : text) (e : exn) :
  parse_payments t = Raise e ->
  exists tok, e = float_error tok /\ decimal_of_token tok = None.
Proof.
  unfold parse_payments. apply pay_loop_Raise.
  intros k v G. right. apply get_In, of_pairs_entries in G.
  unfold pay_pairs in G. apply in_map_iff in G as (g & E & _).
  inversion E. eauto.
Qed.

Lemma parse_dept_Raise (t : text) (e : exn) :
  parse_dept t = Raise e -> extraction_error e.
Proof.
  unfold parse_dept, extraction_error.
  destruct (mapM _ (findall pat_dept t)) as [qtys|e1] eqn:Q; cbn [bind].
  - destruct (mapM (fun g => float_of_str (group_or_empty 3 g))
                (findall pat_dept t)) as [sales|e2] eqn:S; cbn [bind];
      [discriminate|].
    intros [= ->]. apply mapM_Raise in S as (g & _ & F).
    left. exists (group_or_empty 3 g). now apply float_of_str_Raise.
  - intros [= ->]. apply mapM_Raise in Q as (g & _ & F).
    right. unfold int64_of_digits in F.
    destruct (read_digits _ 0 0) as [[n k] rest].
    destruct (n <? 2 ^ 63)%Z; [discriminate|]. now inversion F.
Qed.

(** X3.  When [parse_basic_metrics] raises, the exception is the
    [ValueError] of [float] for a captured token that is not a number,
    or the [OverflowError] of a department quantity that does not fit
    in 64 bits; and the page then ends with that exception before it
    has drawn any metric. *)
Theorem X3_extraction_errors :
  forall t e,
    parse_basic_metrics t = Raise e ->
    extraction_error e
    /\ forall other c model button run_auto,
        page other c (Some t) model button run_auto = ([], Raise e).
Proof.
  intros t e H. split.
  - unfold parse_basic_metrics in H.
    repeat match type of H with
           | bind (grab t ?p) _ = _ =>
               let E := fresh "E" in
               destruct (grab t p) eqn:E; cbn [bind] in H;
               [|inversion H; subst; left;
                 apply (@grab_Raise t p e); [simpl; tauto | exact E]]
           end.
    destruct (parse_payments t) eqn:P; cbn [bind] in H;
      [|inversion H; subst; left; now apply parse_payments_Raise with (t := t)].
    destruct (parse_dept t) eqn:D; cbn [bind] in H; [discriminate|].
    inversion H; subst. now apply parse_dept_Raise with (t := t).
  - intros other c model button run_auto. unfold page. now rewrite H.
Qed.

Lemma X3_extraction_errors_witness :
  extraction_error (float_error (str "7.5."))
  /\ page DataFrame_raises None (Some (str "Tax A 1.00 Visa: 7.5."))
       (str "gpt-5") false false
     = ([], Raise (float_error (str "7.5."))).
Proof.
  assert (P : parse_basic_metrics (str "Tax A 1.00 Visa: 7.5.")
              = Raise (float_error (str "7.5.")))
    by (vm_compute; reflexivity).
  destruct (@X3_extraction_errors _ _ P) as [E Pg].
  split; [exact E | apply Pg].
Defined.

(** ** Reports without numbers *)

Lemma needs_num_num : needs_num num.
Proof.
  intros A prev s n g k a H. unfold num in H. cbn [run] in H.
  apply rep_greedy_inv in H as (tok & rest & -> & F & L & _).
  destruct tok as [|c tok]; [cbn in L; lia|].
  cbn in F. apply andb_prop in F as [F _].
  exists c. split; [now left | exact F].
Qed.

Lemma needs_num_Grp (i : nat) (r : regex) :
  needs_num r -> needs_num (Grp i r).
Proof. intros N A prev s n g k a H. cbn [run] in H. eapply N; eauto. Qed.

Lemma needs_num_Seq (r1 r2 : regex) :
  needs_num r2 -> needs_num (Seq r1 r2).
Proof.
  intros N A prev s n g k a H. cbn [run] in H.
  apply run_inv in H as (m & rest & g' & -> & H).
  apply N in H as (c & I & D). exists c. split; [|exact D].
  apply in_or_app. now right.
Qed.

Lemma needs_num_labelled (label : string) : needs_num (labelled label).
Proof.
  unfold labelled. repeat apply needs_num_Seq.
  apply needs_num_Grp, needs_num_num.
Qed.

Lemma needs_num_pat_pay : needs_num pat_pay.
Proof.
  unfold pat_pay. repeat apply needs_num_Seq.
  apply needs_num_Grp, needs_num_num.
Qed.

Lemma needs_num_pat_dept : needs_num pat_dept.
Proof. unfold pat_dept. repeat apply needs_num_Seq. apply needs_num_num. Qed.

Lemma numberless_no_match (r : regex) (prev : option ascii) (s : text) :
  needs_num r -> numberless s = true -> match_here r prev s = None.
Proof.
  intros N H. unfold match_here.
  destruct (run r prev s 0 [] _) as [a|] eqn:E; [|reflexivity].
  apply N in E as (c & I & D). unfold numberless in H.
  rewrite forallb_forall in H. apply H in I. rewrite D in I. discriminate.
Qed.

Lemma numberless_search (r : regex) :
  needs_num r ->
  forall s prev, numberless s = true -> search_from r prev s = None.
Proof.
  intros N; induction s as [|c s IH]; intros prev H; cbn [search_from];
    rewrite (@numberless_no_match r prev _ N H); [reflexivity|].
  apply IH. cbn in H. now apply andb_prop in H as [_ H].
Qed.

Lemma numberless_findall (r : regex) :
  needs_num r ->
  forall s prev, numberless s = true -> findall_from r prev s 0 = [].
Proof.
  intros N; induction s as [|c s IH]; intros prev H; cbn [findall_from];
    [reflexivity|].
  rewrite (@numberless_no_match r prev _ N H).
  apply IH. cbn in H. now apply andb_prop in H as [_ H].
Qed.

(** X4.  A text without a digit and without a point (the empty text of
    a scanned report, say) raises nothing: every scalar field is 0.0,
    each of the six payments is 0.0 and there is no department row. *)
Theorem X4_report_without_numbers :
  forall t, numberless t = true -> parse_basic_metrics t = Ok empty_metrics.
Proof.
  intros t H.
  assert (G : forall l, grab t (labelled l) = Ok zero).
  { intros l. apply grab_default.
    now apply numberless_search; [apply needs_num_labelled|]. }
  assert (G' : grab t pat_grand = Ok zero).
  { apply grab_default. apply numberless_search; [|exact H].
    unfold pat_grand. apply needs_num_Seq, needs_num_labelled. }
  unfold parse_basic_metrics, pat_subtotal, pat_tax_a, pat_tax_b, pat_tax_c,
    pat_tax_total. rewrite !G, G'. cbn [bind].
  unfold parse_payments, pay_pairs, parse_dept, findall.
  rewrite (@numberless_findall _ needs_num_pat_pay t None H).
  rewrite (@numberless_findall _ needs_num_pat_dept t None H).
  reflexivity.
Qed.

Lemma X4_report_without_numbers_witness :
  parse_basic_metrics (str "EOD REPORT - no sales today") = Ok empty_metrics
  /\ parse_basic_metrics [] = Ok empty_metrics.
Proof.
  split; apply X4_report_without_numbers; reflexivity.
Defined.

(** ** The department preview, for any table *)

Lemma sort_values_desc_perm (df : list dept_row) :
  Permutation (sort_values_desc df) df.
Proof.
  unfold sort_values_desc. rewrite sort_desc_perm.
  induction df as [|r df IH]; cbn [filter]; [reflexivity|].
  destruct (is_nan (Sales r)); cbn [negb app].
  - rewrite <- Permutation_middle. now constructor.
  - now constructor.
Qed.

Lemma dept_preview_firstn (df : list dept_row) :
  dept_preview df = firstn 20 (sort_values_desc df).
Proof. destruct df; reflexivity. Qed.

Lemma nonneg_numeric (f : float) : nonneg f = true -> is_nan f = false.
Proof. destruct f as [[]|[]| |[] ? ?]; cbn; congruence. Qed.

Lemma dept_preview_spec (df : list dept_row) :
  length (dept_preview df) = Nat.min 20 (length df)
  /\ exists rest,
      Permutation df (dept_preview df ++ rest)
      /\ (all_numeric df = true ->
          StronglySorted desc (dept_preview df)
          /\ forall a b, In a (dept_preview df) -> In b rest -> desc a b).
Proof.
  rewrite dept_preview_firstn.
  pose proof (sort_values_desc_perm df) as P. split.
  - rewrite length_firstn, (Permutation_length P). reflexivity.
  - exists (skipn 20 (sort_values_desc df)). rewrite firstn_skipn.
    split; [now apply Permutation_sym|].
    intros N. apply all_numeric_Forall in N.
    pose proof (sort_desc_sorted N) as S.
    rewrite <- (sort_values_desc_numeric N) in S.
    rewrite <- (firstn_skipn 20 (sort_values_desc df)) in S.
    now apply sorted_app_inv in S.
Qed.

(** X5.  For a department table of any size, [dept_preview] keeps 20
    rows, or all of them when there are fewer; the rows kept and the
    rows left out are together the rows of the table; and when every
    sales value is a number the rows kept are in descending order of
    sales (rows with equal sales may follow each other) and no row left
    out has larger sales than a row kept. *)
Theorem X5_preview_of_any_table :
  forall df,
    length (dept_preview df) = Nat.min 20 (length df)
    /\ exists rest,
        Permutation df (dept_preview df ++ rest)
        /\ (all_numeric df = true ->
            StronglySorted desc (dept_preview df)
            /\ forall a b, In a (dept_preview df) -> In b rest -> desc a b).
Proof. exact dept_preview_spec. Qed.

Lemma X5_preview_of_any_table_witness :
  StronglySorted desc
    (dept_preview [DeptRow (str "A") 1 (dec 500 2);
                   DeptRow (str "B") 2 (dec 900 2);
                   DeptRow (str "C") 3 (dec 500 2)])
  /\ dept_preview [DeptRow (str "A") 1 (dec 500 2);
                   DeptRow (str "B") 2 (dec 900 2);
                   DeptRow (str "C") 3 (dec 500 2)]
     = [DeptRow (str "B") 2 (dec 900 2); DeptRow (str "A") 1 (dec 500 2);
        DeptRow (str "C") 3 (dec 500 2)].
Proof.
  destruct (X5_preview_of_any_table
              [DeptRow (str "A") 1 (dec 500 2);
               DeptRow (str "B") 2 (dec 900 2);
               DeptRow (str "C") 3 (dec 500 2)]) as (_ & rest & _ & S).
  destruct (S eq_refl) as [S1 _]. split; [exact S1 | reflexivity].
Defined.

(** X6.  From extraction to request: for every text whose extraction
    succeeds, the department rows of the request payload are at most 20
    rows of the extracted table, in descending order of sales, and no
    extracted row that is left out has larger sales than one that is
    sent. *)
Theorem X6_request_rows_of_an_extraction :
  forall t m,
    parse_basic_metrics t = Ok m ->
    exists top rest,
      departments_top20 (user_payload t m)
      = Some (JArr (map record_of_row top))
      /\ length top = Nat.min 20 (length (dept_df m))
      /\ Permutation (dept_df m) (top ++ rest)
      /\ StronglySorted desc top
      /\ forall a b, In a top -> In b rest -> desc a b.
Proof.
  intros t m H.
  assert (N : all_numeric (dept_df m) = true).
  { apply parse_basic_metrics_fields in H.
    destruct H as (_ & _ & _ & _ & _ & _ & _ & D).
    unfold all_numeric. apply forallb_forall. intros r I.
    apply negb_true_iff, nonneg_numeric.
    now apply (parse_dept_rows _ D). }
  destruct (dept_preview_spec (dept_df m)) as (L & rest & P & S).
  destruct (S N) as [S1 S2].
  exists (dept_preview (dept_df m)), rest.
  repeat split; auto.
Qed.

Lemma X6_request_rows_of_an_extraction_witness :
  exists m top rest,
    parse_basic_metrics (str "DELI 5 50.00 7 GROCERY 10 150.00 9") = Ok m
    /\ departments_top20
         (user_payload (str "DELI 5 50.00 7 GROCERY 10 150.00 9") m)
       = Some (JArr (map record_of_row top))
    /\ length top = 2
    /\ Permutation (dept_df m) (top ++ rest)
    /\ StronglySorted desc top.
Proof.
  assert (P : { m | parse_basic_metrics
                      (str "DELI 5 50.00 7 GROCERY 10 150.00 9") = Ok m
                    /\ length (dept_df m) = 2 })
    by (eexists; split; vm_compute; reflexivity).
  destruct P as (m & P & L2).
  destruct (@X6_request_rows_of_an_extraction _ m P)
    as (top & rest & D & L & Pm & S & _).
  exists m, top, rest. rewrite L2 in L. repeat split; assumption.
Defined.

(** ** The text of the request *)

(** X7.  The request never carries more than 6000 characters of the
    report: the excerpt is the start of the text, as long as the text or
    6000 characters long, whichever is less; a text of at most 6000
    characters is sent whole. *)
Theorem X7_request_text_is_bounded :
  forall t m,
    exists e,
      raw_text_excerpt (user_payload t m) = Some (JStr e)
      /\ length e = Nat.min 6000 (length t)
      /\ (exists cut, t = e ++ cut)
      /\ (length t <= 6000 -> e = t).
Proof.
  intros t m. exists (firstn 6000 t). split; [reflexivity|].
  split; [apply length_firstn|]. split.
  - exists (skipn 6000 t). symmetry. apply firstn_skipn.
  - apply firstn_all2.
Qed.

Lemma X7_request_text_is_bounded_witness :
  raw_text_excerpt (user_payload scenario_text sample_metrics)
  = Some (JStr scenario_text).
Proof.
  destruct (X7_request_text_is_bounded scenario_text sample_metrics)
    as (e & R & _ & _ & W).
  rewrite R. do 2 f_equal. apply W. apply Nat.leb_le. vm_compute.
  reflexivity.
Defined.

(** ** When the collaborator fails *)

Lemma ai_section_raises (other : json -> result frame) (call : client)
    (t : text) (m : metrics) (model : text) (e : exn) :
  call (Request model system_prompt (user_payload t m)) = Raise e
  \/ (exists u, call (Request model system_prompt (user_payload t m))
                = Ok (Reply (Raise e) u)) ->
  ai_section other (Some call) t m model = ([], Raise e).
Proof.
  intros [C|[u C]]; unfold ai_section, analyze_with_ai; rewrite C;
    reflexivity.
Qed.

(** X8.  When the call to the collaborator raises, or its content is
    not JSON so that [json.loads] raises, the exception leaves
    [analyze_with_ai] and ends the page: the metrics and the header of
    the AI section have been drawn, but no error message, no finding
    and not the raw text. *)
Theorem X8_collaborator_failure_ends_the_page :
  forall other (call : client) t m model button run_auto e,
    parse_basic_metrics t = Ok m ->
    button || run_auto = true ->
    call (Request model system_prompt (user_payload t m)) = Raise e
    \/ (exists u, call (Request model system_prompt (user_payload t m))
                  = Ok (Reply (Raise e) u)) ->
    analyze_with_ai (Some call) t m model = Raise e
    /\ exists total,
        page other (Some call) (Some t) model button run_auto
        = (kpi_widgets m total ++ dept_widgets m ++ [ai_header], Raise e).
Proof.
  intros other call t m model button run_auto e P B C. split.
  - unfold analyze_with_ai. destruct C as [C|[u C]]; now rewrite C.
  - assert (A : forall v, In v (values (payments m)) -> is_amt v = true).
    { apply parse_basic_metrics_fields in P.
      eapply parse_payments_amounts, P. }
    destruct (sum_pays_amounts _ A) as [total S]. exists total.
    rewrite (@page_run other (Some call) t m model button run_auto total P S).
    rewrite B. cbv zeta.
    rewrite (@ai_section_raises other call t m model e C).
    unfold log, outcome. cbn [fst snd]. now rewrite !app_nil_r.
Qed.

Lemma X8_collaborator_failure_ends_the_page_witness :
  exists m total,
    parse_basic_metrics scenario_text = Ok m
    /\ page DataFrame_raises
         (Some (fails (Exn (str "APIConnectionError")
                          (str "Connection error."))))
         (Some scenario_text) (str "gpt-5-mini") true false
       = (kpi_widgets m total ++ dept_widgets m ++ [ai_header],
          Raise (Exn (str "APIConnectionError") (str "Connection error."))).
Proof.
  assert (P : { m | parse_basic_metrics scenario_text = Ok m })
    by (eexists; vm_compute; reflexivity).
  destruct P as [m P].
  destruct (@X8_collaborator_failure_ends_the_page DataFrame_raises
              (fails (Exn (str "APIConnectionError")
                          (str "Connection error.")))
              scenario_text m (str "gpt-5-mini") true false
              (Exn (str "APIConnectionError") (str "Connection error."))
              P eq_refl (or_introl eq_refl)) as (_ & total & W).
  exists m, total. split; [exact P | exact W].
Defined.

(** ** The shapes of a reply *)

(** X9.  A response object that has an "error" key is shown as that
    error alone, whatever else it holds: no summary, no finding, no
    token count and no cost are drawn, and the analysis ends
    normally. *)
Theorem X9_reply_with_an_error_key :
  forall other (call : client) t m model fields u msg,
    call (Request model system_prompt (user_payload t m))
    = Ok (Reply (Ok (JObj fields)) u) ->
    get fields (str "error") = Some msg ->
    ai_section other (Some call) t m model = ([Error msg], Ok tt).
Proof.
  intros other call t m model fields u msg C E.
  rewrite (@ai_section_reply other call t m model (JObj fields) u C).
  cbn [error_of]. now rewrite E.
Qed.

Lemma X9_reply_with_an_error_key_witness :
  ai_section DataFrame_raises
    (Some (answers (JObj [(str "summary", JStr (str "fine"));
                          (str "error", JStr (str "quota exceeded"));
                          (str "issues", JArr [JObj []])])))
    scenario_text sample_metrics (str "gpt-5")
  = ([Error (JStr (str "quota exceeded"))], Ok tt).
Proof.
  apply (@X9_reply_with_an_error_key DataFrame_raises
           (answers (JObj [(str "summary", JStr (str "fine"));
                           (str "error", JStr (str "quota exceeded"));
                           (str "issues", JArr [JObj []])]))
           scenario_text sample_metrics (str "gpt-5")
           [(str "summary", JStr (str "fine"));
            (str "error", JStr (str "quota exceeded"));
            (str "issues", JArr [JObj []])] None
           (JStr (str "quota exceeded")));
    reflexivity.
Defined.

(** X10.  A response that is JSON but not an object (a list, a string,
    a number, [null]) has no [get]: the analysis draws the summary
    heading and ends with an [AttributeError]; nothing of the response
    is shown. *)
Theorem X10_reply_that_is_not_an_object :
  forall other (call : client) t m model v u,
    call (Request model system_prompt (user_payload t m))
    = Ok (Reply (Ok v) u) ->
    (forall o, v <> JObj o) ->
    exists e,
      exn_class e = str "AttributeError"
      /\ ai_section other (Some call) t m model
         = ([Markdown (str "**Summary**")], Raise e).
Proof.
  intros other call t m model v u C N.
  rewrite (@ai_section_reply other call t m model v u C).
  exists (AttributeError (str "object has no attribute 'get'")).
  split; [reflexivity|].
  destruct v; try reflexivity. now destruct (N o).
Qed.

Lemma X10_reply_that_is_not_an_object_witness :
  exists e,
    exn_class e = str "AttributeError"
    /\ ai_section DataFrame_raises
         (Some (answers (JArr [JStr (str "no issues")])))
         scenario_text sample_metrics (str "gpt-5")
       = ([Markdown (str "**Summary**")], Raise e).
Proof.
  apply (@X10_reply_that_is_not_an_object DataFrame_raises
           (answers (JArr [JStr (str "no issues")]))
           scenario_text sample_metrics (str "gpt-5")
           (JArr [JStr (str "no issues")]) None eq_refl).
  discriminate.
Defined.

(** ** Tokens and cost on the page *)

Lemma estimated_cost_returns (model : text) (i o : Z) :
  (Z.abs i < 2 ^ 64)%Z -> (Z.abs o < 2 ^ 64)%Z ->
  exists c, estimated_cost model i o = Ok c.
Proof.
  intros I O. unfold estimated_cost.
  rewrite (@truediv_returns i 1000000 I eq_refl).
  rewrite (@truediv_returns o 1000000 O eq_refl). cbn [bind].
  destruct (text_eqb model (str "gpt-5")); [eauto|].
  destruct (text_eqb model (str "gpt-5-mini")); eauto.
Qed.

(** X11.  For a usage that is not empty and token counts below 2^64,
    whatever the model, the page draws the token caption (input, output
    and their sum, a missing count being 0) and the cost caption with
    the value of [estimated_cost], and raises nothing; with no usage or
    an empty one it draws nothing. *)
Theorem X11_usage_captions :
  forall model,
    usage_section model None = ([], Ok tt)
    /\ usage_section model (Some []) = ([], Ok tt)
    /\ forall u,
        u <> [] ->
        (Z.abs (usage_get u (str "prompt_tokens")) < 2 ^ 64)%Z ->
        (Z.abs (usage_get u (str "completion_tokens")) < 2 ^ 64)%Z ->
        exists cost,
          estimated_cost model (usage_get u (str "prompt_tokens"))
            (usage_get u (str "completion_tokens")) = Ok cost
          /\ usage_section model (Some u)
             = ([TokensCaption (usage_get u (str "prompt_tokens"))
                   (usage_get u (str "completion_tokens"))
                   (usage_get u (str "prompt_tokens")
                    + usage_get u (str "completion_tokens"));
                 CostCaption cost], Ok tt).
Proof.
  intros model. split; [reflexivity|]. split; [reflexivity|].
  intros u N I O. destruct (@estimated_cost_returns model _ _ I O) as [c E].
  exists c. split; [exact E|].
  unfold usage_section. destruct u as [|kv u]; [congruence|].
  unfold draw, lift. rewrite andthen_Ok, E, andthen_Ok. reflexivity.
Qed.

Lemma X11_usage_captions_witness :
  exists cost,
    usage_section (str "gpt-5-mini") (Some [(str "prompt_tokens", 1200%Z)])
    = ([TokensCaption 1200 0 1200; CostCaption cost], Ok tt).
Proof.
  destruct (X11_usage_captions (str "gpt-5-mini")) as (_ & _ & U).
  destruct (U [(str "prompt_tokens", 1200%Z)]) as (cost & _ & W);
    [discriminate | reflexivity | reflexivity |].
  exists cost. exact W.
Defined.

(** ** The text of the pages *)

Lemma join_trailing (parts : list text) :
  parts <> [] ->
  join nl parts ++ nl = concat (map (fun p => p ++ nl) parts).
Proof.
  induction parts as [|p parts IH]; [congruence|]. intros _.
  destruct parts as [|q parts].
  - cbn. now rewrite app_nil_r.
  - change (join nl (p :: q :: parts)) with (p ++ nl ++ join nl (q :: parts)).
    change (map (fun p0 => p0 ++ nl) (p :: q :: parts))
      with ((p ++ nl) :: map (fun p0 => p0 ++ nl) (q :: parts)).
    cbn [concat]. rewrite <- IH by discriminate.
    now rewrite <- !app_assoc.
Qed.

Lemma extract_text0_from_full (pages : list (option text)) :
  ~ In None pages ->
  forall acc,
    extract_text0_from acc pages
    = Ok (acc ++ concat (map (fun p => page_text p ++ nl) pages)).
Proof.
  induction pages as [|[t|] pages IH]; intros N acc; cbn.
  - now rewrite app_nil_r.
  - rewrite IH by (intros I; apply N; now right).
    now rewrite <- !app_assoc.
  - destruct N. now left.
Qed.

Lemma extract_text0_from_None (pages : list (option text)) :
  In None pages ->
  forall acc,
    extract_text0_from acc pages
    = Raise (TypeError (str "unsupported operand type(s) for +: 'NoneType' and 'str'")).
Proof.
  induction pages as [|[t|] pages IH]; intros I acc; cbn.
  - destruct I.
  - apply IH. destruct I as [I|I]; [discriminate | exact I].
  - reflexivity.
Qed.

(** X12.  The two ways of reading the pages.  The script of [app.py]
    joins the page texts with newlines and takes a page without text as
    empty, so it always gives a text.  The loop of [app0.py] raises a
    [TypeError] as soon as one page has no text; when every page has
    text it gives the same text with one more newline at the end. *)
Theorem X12_text_of_the_pages :
  forall pages,
    (In None pages ->
     exists e, extract_text0 pages = Raise e
               /\ exn_class e = str "TypeError")
    /\ (~ In None pages -> pages <> [] ->
        extract_text0 pages = Ok (extract_text pages ++ nl))
    /\ extract_text pages
       = extract_text (map (fun p => Some (page_text p)) pages).
Proof.
  intros pages. split; [|split].
  - intros I. eexists. split; [now apply extract_text0_from_None|].
    reflexivity.
  - intros N E. unfold extract_text0, extract_text.
    rewrite (@extract_text0_from_full pages N []). cbn [app]. f_equal.
    rewrite join_trailing by (destruct pages; [congruence | discriminate]).
    now rewrite map_map.
  - unfold extract_text. now rewrite map_map.
Qed.

Lemma X12_text_of_the_pages_witness :
  (exists e, extract_text0 [Some (str "Total 5"); None] = Raise e
             /\ exn_class e = str "TypeError")
  /\ extract_text0 [Some (str "Total 5"); Some (str "Cash: 5")]
     = Ok (extract_text [Some (str "Total 5"); Some (str "Cash: 5")] ++ nl)
  /\ extract_text [Some (str "Total 5"); None]
     = str "Total 5" ++ nl.
Proof.
  split; [|split].
  - apply (proj1 (X12_text_of_the_pages [Some (str "Total 5"); None])).
    simpl; tauto.
  - apply (proj1 (proj2 (X12_text_of_the_pages
                           [Some (str "Total 5"); Some (str "Cash: 5")]))).
    + simpl. intros [E|[E|[]]]; discriminate E.
    + discriminate.
  - reflexivity.
Defined.

(** ** The grand total and the word "Total" *)

Lemma pat_grand_match_here (prev : option ascii) (s : text) :
  match_here pat_grand prev s
  = if at_boundary prev s then match_here (labelled "Total") prev s
    else None.
Proof. reflexivity. Qed.

Lemma search_from_found (r : regex) (prev : option ascii) (s : text)
    (n : nat) (g : groups) :
  match_here r prev s = Some (n, g) -> search_from r prev s = Some g.
Proof. intros M. destruct s; cbn [search_from]; now rewrite M. Qed.

Lemma search_from_next (r : regex) (prev : option ascii) (c : ascii)
    (s : text) :
  match_here r prev (c :: s) = None ->
  search_from r prev (c :: s) = search_from r (Some c) s.
Proof. intros M. cbn [search_from]. now rewrite M. Qed.

(** X13.  When the first "Total" of the text is the one of its first
    "Tax Total", and white space and a numeric token follow it, the
    grand total that [parse_basic_metrics] reads is that token, the
    same as the tax total: the word boundary before "Total" holds after
    the blank of "Tax Total". *)
Theorem X13_grand_total_reads_the_tax_total :
  forall pre ws tok post,
    find_sub (str "Tax Total")
      (pre ++ str "Tax Total" ++ ws ++ tok ++ post) = Some (length pre) ->
    find_sub (str "Total")
      ((pre ++ str "Tax ") ++ str "Total" ++ ws ++ tok ++ post)
    = Some (length (pre ++ str "Tax ")) ->
    ws <> [] -> forallb Chars.is_space ws = true ->
    tok <> [] -> forallb Chars.is_num tok = true ->
    token_ends post = true ->
    grab (pre ++ str "Tax Total" ++ ws ++ tok ++ post) pat_tax_total
    = float_of_str tok
    /\ grab (pre ++ str "Tax Total" ++ ws ++ tok ++ post) pat_grand
       = float_of_str tok.
Proof.
  intros pre ws tok post F1 F2 Hws Fws Htok Ftok E. split.
  - apply grab_first_label; auto. now apply find_sub_starts_nowhere.
  - apply grab_match. unfold search.
    replace (pre ++ str "Tax Total" ++ ws ++ tok ++ post)
      with ((pre ++ str "Tax ") ++ str "Total" ++ ws ++ tok ++ post)
      by (now rewrite <- app_assoc).
    apply find_sub_starts_nowhere in F2.
    rewrite (@search_from_skip _ _ pat_grand_guarded _ None _ F2).
    rewrite last_of_app.
    apply search_from_found
      with (n := length tok + (length ws + (length (str "Total") + 0))).
    rewrite pat_grand_match_here.
    change (at_boundary (last_of (str "Tax ") (last_of pre None))
              (str "Total" ++ ws ++ tok ++ post)) with true.
    cbv iota. now apply labelled_match_here.
Qed.

Lemma X13_grand_total_reads_the_tax_total_witness :
  grab (str "Tax A 1.50" ++ nl ++ str "Tax Total 1.50" ++ nl
          ++ str "Total 21.50") pat_grand
  = float_of_str (str "1.50").
Proof.
  apply (proj2 (@X13_grand_total_reads_the_tax_total
                  (str "Tax A 1.50" ++ nl) (str " ") (str "1.50")
                  (nl ++ str "Total 21.50")
                  eq_refl eq_refl ltac:(discriminate) eq_refl
                  ltac:(discriminate) eq_refl eq_refl)).
Defined.

(** X14.  A "Total" glued to a word.  When the only "Total" of the text
    follows a word character (as in "SubTotal 5.00"), the pattern of
    [app.py] does not match, because of its [\b], and the grand total
    is the default 0.0; the pattern of [app0.py] has no [\b] and reads
    the token after it. *)
Theorem X14_total_after_a_word_character :
  forall pre ws tok post,
    word_starts pre = false ->
    find_sub (str "Total") (pre ++ str "Total" ++ ws ++ tok ++ post)
    = Some (length pre) ->
    occurs (str "Total") (ws ++ tok ++ post) = false ->
    ws <> [] -> forallb Chars.is_space ws = true ->
    tok <> [] -> forallb Chars.is_num tok = true ->
    token_ends post = true ->
    grab (pre ++ str "Total" ++ ws ++ tok ++ post) pat_grand = Ok zero
    /\ grand_total0 (pre ++ str "Total" ++ ws ++ tok ++ post)
       = float_of_str tok.
Proof.
  intros pre ws tok post W F O Hws Fws Htok Ftok E. split.
  - apply grab_default. unfold search.
    apply find_sub_starts_nowhere in F.
    rewrite (@search_from_skip _ _ pat_grand_guarded _ None _ F).
    change (str "Total" ++ ws ++ tok ++ post)
      with ("T"%char :: str "otal" ++ ws ++ tok ++ post).
    rewrite search_from_next.
    + apply (search_from_nowhere pat_grand_guarded); [reflexivity|].
      apply occurs_starts_nowhere in O.
      assert (T : forall c s, Ascii.eqb "T" c = false ->
                starts_with_any [str "Total"] (c :: s) = false).
      { intros c s H. rewrite starts_with_any_one. unfold starts_with.
        change (str "Total") with ("T"%char :: str "otal").
        cbn [strip_prefix]. now rewrite H. }
      change (str "otal" ++ ws ++ tok ++ post)
        with ("o"%char :: "t"%char :: "a"%char :: "l"%char
                :: ws ++ tok ++ post).
      cbn [starts_nowhere app]. rewrite !T by reflexivity. exact O.
    + rewrite pat_grand_match_here. unfold at_boundary.
      unfold word_starts in W. apply negb_false_iff in W. rewrite W.
      reflexivity.
  - unfold grand_total0, pat_grand0. apply grab_first_label; auto.
    now apply find_sub_starts_nowhere.
Qed.

Lemma X14_total_after_a_word_character_witness :
  grab (str "SubTotal 5.00") pat_grand = Ok zero
  /\ grand_total0 (str "SubTotal 5.00") = float_of_str (str "5.00").
Proof.
  apply (@X14_total_after_a_word_character (str "Sub") (str " ")
           (str "5.00") []); try reflexivity; discriminate.
Defined.

(** ** The rows of the department table *)

Lemma firstn_consumed (m rest : text) (n : nat) :
  firstn (length m + n - n) (m ++ rest) = m.
Proof.
  replace (length m + n - n) with (length m) by lia.
  rewrite firstn_app, Nat.sub_diag, firstn_all. cbn [firstn].
  apply app_nil_r.
Qed.

Lemma nonempty_length (l : text) : 1 <= length l -> l <> [].
Proof. destruct l; cbn [length]; [lia | discriminate]. Qed.

Lemma run_Seq (A : Type) (r1 r2 : regex) (prev : option ascii) (s : text)
    (n : nat) (g : groups) (k : cont A) :
  run (Seq r1 r2) prev s n g k
  = run r1 prev s n g (fun p s' n' g' => run r2 p s' n' g' k).
Proof. reflexivity. Qed.

(** A repetition hands the groups over unchanged. *)
Lemma run_Rep_inv (A : Type) (greedy : bool) (min : nat)
    (cls : ascii -> bool) (prev : option ascii) (s : text) (n : nat)
    (g : groups) (k : cont A) (a : A) :
  run (Rep greedy min cls) prev s n g k = Some a ->
  exists tok rest,
    s = tok ++ rest /\ forallb cls tok = true /\ min <= length tok
    /\ k (last_of tok prev) rest (length tok + n) g = Some a.
Proof.
  cbn [run]. intros H.
  destruct greedy; [apply rep_greedy_inv in H | apply rep_lazy_inv in H];
    destruct H as (tok & rest & E & F & L & K); exists tok, rest; auto.
Qed.

(** A group around a repetition records what the repetition took. *)
Lemma run_Grp_Rep_inv (A : Type) (i : nat) (greedy : bool) (min : nat)
    (cls : ascii -> bool) (prev : option ascii) (s : text) (n : nat)
    (g : groups) (k : cont A) (a : A) :
  run (Grp i (Rep greedy min cls)) prev s n g k = Some a ->
  exists tok rest,
    s = tok ++ rest /\ forallb cls tok = true /\ min <= length tok
    /\ k (last_of tok prev) rest (length tok + n) ((i, tok) :: g) = Some a.
Proof.
  cbn [run]. intros H.
  destruct greedy; [apply rep_greedy_inv in H | apply rep_lazy_inv in H];
    destruct H as (tok & rest & E & F & L & K); exists tok, rest;
    subst s; cbv beta in K; rewrite firstn_consumed in K; auto.
Qed.

Lemma run_Opt_inv (A : Type) (r : regex) (prev : option ascii) (s : text)
    (n : nat) (g : groups) (k : cont A) (a : A) :
  run (Opt r) prev s n g k = Some a ->
  run r prev s n g k = Some a \/ k prev s n g = Some a.
Proof.
  cbn [run]. destruct (run r prev s n g k); [left | right]; assumption.
Qed.

(** Where the department pattern matches, the text reads: a name, white
    space, a quantity, white space, the sales, white space and the start
    of a further number; and the three groups are the name, the
    quantity and the sales. *)
Lemma pat_dept_match (prev : option ascii) (s : text) (len : nat)
    (g : groups) :
  match_here pat_dept prev s = Some (len, g) ->
  exists name w1 q w2 sales w3 rest,
    s = name ++ w1 ++ q ++ w2 ++ sales ++ w3 ++ rest
    /\ g = [(3, sales); (2, q); (1, name)]
    /\ (name <> [] /\ forallb Chars.is_dept name = true)
    /\ (w1 <> [] /\ forallb Chars.is_space w1 = true)
    /\ (q <> [] /\ forallb Chars.is_digit q = true)
    /\ (w2 <> [] /\ forallb Chars.is_space w2 = true)
    /\ (sales <> [] /\ forallb Chars.is_num sales = true)
    /\ (w3 <> [] /\ forallb Chars.is_space w3 = true)
    /\ (exists c rest', rest = c :: rest' /\ Chars.is_num c = true).
Proof.
  unfold match_here, pat_dept. intros H.
  rewrite run_Seq in H.
  apply run_Grp_Rep_inv in H as (name & r1 & -> & F1 & L1 & H).
  cbv beta in H. rewrite run_Seq in H.
  apply run_Rep_inv in H as (w1 & r2 & -> & F2 & L2 & H).
  cbv beta in H. rewrite run_Seq in H.
  apply run_Grp_Rep_inv in H as (q & r3 & -> & F3 & L3 & H).
  cbv beta in H. rewrite run_Seq in H.
  apply run_Rep_inv in H as (w2 & r4 & -> & F4 & L4 & H).
  cbv beta in H. rewrite run_Seq in H.
  apply run_Grp_Rep_inv in H as (sales & r5 & -> & F5 & L5 & H).
  cbv beta in H. rewrite run_Seq in H.
  apply run_Rep_inv in H as (w3 & r6 & -> & F6 & L6 & H).
  cbv beta in H. rewrite run_Seq in H.
  assert (G : g = [(3, sales); (2, q); (1, name)]
              /\ exists c rest', r6 = c :: rest' /\ Chars.is_num c = true).
  { assert (Hd : forall x y : text,
              r6 = x ++ y -> forallb Chars.is_num x = true ->
              1 <= length x ->
              exists c rest', r6 = c :: rest' /\ Chars.is_num c = true).
    { intros [|c x] y E F L; [cbn in L; lia|]. exists c, (x ++ y).
      split; [exact E|]. cbn [forallb] in F.
      now apply andb_prop in F as [F _]. }
    apply run_Opt_inv in H as [H|H].
    - rewrite run_Seq in H.
      apply run_Rep_inv in H as (x1 & y1 & E1 & Fx & Lx & H). cbv beta in H.
      apply run_Rep_inv in H as (x2 & y2 & _ & _ & _ & H). cbv beta in H.
      apply run_Rep_inv in H as (x3 & y3 & _ & _ & _ & H).
      split; [now inversion H | exact (Hd _ _ E1 Fx Lx)].
    - apply run_Rep_inv in H as (x3 & y3 & E3 & Fx & Lx & H).
      split; [now inversion H | exact (Hd _ _ E3 Fx Lx)]. }
  destruct G as [G Hd].
  exists name, w1, q, w2, sales, w3, r6.
  split; [reflexivity|]. split; [exact G|].
  repeat split; auto using nonempty_length.
Qed.

(** Every tuple of [findall] is a match at some position of the text. *)
Lemma findall_from_In (r : regex) :
  forall s prev skip g,
    In g (findall_from r prev s skip) ->
    exists pre prev' s' n,
      s = pre ++ s' /\ match_here r prev' s' = Some (n, g).
Proof.
  induction s as [|c s IH]; intros prev skip g I; cbn [findall_from] in I;
    [destruct I|].
  assert (Later : forall p k,
            In g (findall_from r p s k) ->
            exists pre prev' s' n,
              c :: s = pre ++ s' /\ match_here r prev' s' = Some (n, g)).
  { intros p k J. destruct (IH _ _ _ J) as (pre & prev' & s' & n & -> & M).
    exists (c :: pre), prev', s', n. split; [reflexivity | exact M]. }
  destruct skip; [|exact (Later _ _ I)].
  destruct (match_here r prev (c :: s)) as [[n g0]|] eqn:E;
    [|exact (Later _ _ I)].
  destruct I as [<-|I]; [|exact (Later _ _ I)].
  exists [], prev, (c :: s), n. split; [reflexivity | exact E].
Qed.

Lemma mapM_combine (A B : Type) (f : A -> result B) :
  forall l bs a b,
    mapM f l = Ok bs -> In (a, b) (combine l bs) -> f a = Ok b.
Proof.
  induction l as [|x l IH]; intros bs a b M I; cbn [mapM] in M.
  - inversion M; subst. destruct I.
  - destruct (f x) as [y|] eqn:F; [|discriminate]. cbn [bind] in M.
    destruct (mapM f l) as [bs'|] eqn:E; [|discriminate]. cbn [bind] in M.
    inversion M; subst. cbn [combine] in I. destruct I as [I|I].
    + inversion I; subst. exact F.
    + eapply IH; eauto.
Qed.

Lemma in_combine3 (A B C : Type) :
  forall (l : list A) (bs : list B) (cs : list C) a b c,
    In (a, (b, c)) (combine l (combine bs cs)) ->
    In (a, b) (combine l bs) /\ In (a, c) (combine l cs).
Proof.
  induction l as [|x l IH]; intros bs cs a b c I; [destruct I|].
  destruct bs as [|y bs]; [destruct I|].
  destruct cs as [|z cs]; [destruct I|].
  cbn [combine] in *. destruct I as [I|I].
  - inversion I; subst. split; now left.
  - apply IH in I as [I1 I2]. split; now right.
Qed.

(** X15.  Every row of the department table stands in the text: the
    text reads, somewhere, the row's name, white space, a run of digits
    whose value is the row's quantity, white space, a token of digits
    and points that [float] converts to the row's sales, white space
    and then a further digit or point (a line that ends after the sales
    gives no row).  The name is not empty and made of capitals, digits,
    blanks and the characters - & ' and the point. *)
Theorem X15_department_rows_stand_in_the_text :
  forall t m,
    parse_basic_metrics t = Ok m ->
    forall r, In r (dept_df m) ->
      exists pre w1 q w2 s w3 rest,
        t = pre ++ Department r ++ w1 ++ q ++ w2 ++ s ++ w3 ++ rest
        /\ (Department r <> []
            /\ forallb Chars.is_dept (Department r) = true)
        /\ (w1 <> [] /\ forallb Chars.is_space w1 = true)
        /\ (q <> [] /\ forallb Chars.is_digit q = true
            /\ int64_of_digits q = Ok (Qty r))
        /\ (w2 <> [] /\ forallb Chars.is_space w2 = true)
        /\ (s <> [] /\ forallb Chars.is_num s = true
            /\ float_of_str s = Ok (Sales r))
        /\ (w3 <> [] /\ forallb Chars.is_space w3 = true)
        /\ (exists c rest', rest = c :: rest' /\ Chars.is_num c = true).
Proof.
  intros t m H r I. apply parse_basic_metrics_fields in H.
  destruct H as (_ & _ & _ & _ & _ & _ & _ & D). unfold parse_dept in D.
  destruct (mapM _ (findall pat_dept t)) as [qtys|] eqn:Q; [|discriminate].
  cbn [bind] in D.
  destruct (mapM (fun g => float_of_str (group_or_empty 3 g))
              (findall pat_dept t)) as [sales|] eqn:S; [|discriminate].
  cbn [bind] in D. inversion D as [D']. clear D. rewrite <- D' in I.
  apply in_map_iff in I as ([g [qty sale]] & <- & I).
  cbn [Department Qty Sales].
  apply in_combine3 in I as [Iq Is].
  pose proof (@mapM_combine _ _ _ _ _ _ _ Q Iq) as Eq.
  pose proof (@mapM_combine _ _ _ _ _ _ _ S Is) as Es.
  apply in_combine_l in Iq. unfold findall in Iq.
  apply findall_from_In in Iq as (pre & prev' & s' & n & T & M).
  apply pat_dept_match in M
    as (name & w1 & q & w2 & tok & w3 & rest & -> & -> & N & W1 & NQ & W2
        & NS & W3 & Hd).
  cbn in Eq, Es. exists pre, w1, q, w2, tok, w3, rest.
  change (group_or_empty 1 [(3, tok); (2, q); (1, name)]) with name.
  split; [exact T|]. repeat split; try tauto; assumption.
Qed.

Lemma X15_department_rows_stand_in_the_text_witness :
  exists m r pre w1 q w2 s w3 rest,
    parse_basic_metrics (str "DELI 5 50.00 7 GROCERY 10 150.00 9") = Ok m
    /\ In r (dept_df m)
    /\ str "DELI 5 50.00 7 GROCERY 10 150.00 9"
       = pre ++ Department r ++ w1 ++ q ++ w2 ++ s ++ w3 ++ rest
    /\ int64_of_digits q = Ok (Qty r)
    /\ float_of_str s = Ok (Sales r).
Proof.
  assert (P : { m : metrics & { r |
              parse_basic_metrics
                (str "DELI 5 50.00 7 GROCERY 10 150.00 9") = Ok m
              /\ In r (dept_df m) } }).
  { eexists. eexists. split; [vm_compute; reflexivity|]. left. reflexivity. }
  destruct P as (m & r & P & I).
  destruct (@X15_department_rows_stand_in_the_text _ m P r I)
    as (pre & w1 & q & w2 & s & w3 & rest & T & _ & _ & (_ & _ & Q) & _
        & (_ & _ & S) & _).
  exists m, r, pre, w1, q, w2, s, w3, rest. repeat split; assumption.
Defined.

(** ** When the collaborator is consulted *)



(** ** The department chart *)

Lemma parse_dept_numeric (t : text) (rows : list dept_row) :
  parse_dept t = Ok rows -> Forall numeric rows.
Proof.
  intros H. apply Forall_forall. intros r I. unfold numeric.
  apply nonneg_numeric. now apply (@parse_dept_rows t rows H r I).
Qed.

(** X17.  The chart and the table of the departments show every
    extracted row, once, in descending order of sales (the whole table,
    not only twenty rows), between the KPI row and the header of the AI
    section; without rows neither is drawn. *)
Theorem X17_department_chart_shows_every_row :
  forall other c t m model button run_auto,
    parse_basic_metrics t = Ok m ->
    exists total shown after r,
      page other c (Some t) model button run_auto
      = (kpi_widgets m total ++ shown ++ ai_header :: after, r)
      /\ match dept_df m with
         | [] => shown = []
         | _ :: _ =>
             exists table,
               shown = [Subheader (str "📂 Sales by Department");
                        BarChart table; DeptTable table]
               /\ Permutation table (dept_df m)
               /\ StronglySorted desc table
         end.
Proof.
  intros other c t m model button run_auto P.
  assert (A : forall v, In v (values (payments m)) -> is_amt v = true).
  { pose proof P as P'. apply parse_basic_metrics_fields in P'.
    eapply parse_payments_amounts, P'. }
  destruct (sum_pays_amounts _ A) as [total S].
  rewrite (@page_run other c t m model button run_auto total P S).
  cbv zeta. generalize (RawText (firstn 20000 t)); intros raw.
  set (ai := if button || run_auto then _ else _).
  exists total, (dept_widgets m),
    (log ai ++ match outcome ai with Ok _ => [raw] | Raise _ => [] end),
    (outcome ai).
  split; [reflexivity|].
  assert (N : Forall numeric (dept_df m)).
  { apply parse_basic_metrics_fields in P.
    eapply parse_dept_numeric, P. }
  unfold dept_widgets. destruct (dept_df m) as [|r0 df] eqn:E; [reflexivity|].
  exists (sort_values_desc (r0 :: df)). split; [reflexivity|].
  split; [apply sort_values_desc_perm|].
  rewrite (sort_values_desc_numeric N). now apply sort_desc_sorted.
Qed.

Lemma X17_department_chart_shows_every_row_witness :
  exists m total table after r,
    parse_basic_metrics (str "DELI 5 50.00 7 GROCERY 10 150.00 9") = Ok m
    /\ page DataFrame_raises None
         (Some (str "DELI 5 50.00 7 GROCERY 10 150.00 9"))
         (str "gpt-5-mini") false false
       = (kpi_widgets m total
            ++ [Subheader (str "📂 Sales by Department");
                BarChart table; DeptTable table]
            ++ ai_header :: after, r)
    /\ Permutation table (dept_df m)
    /\ StronglySorted desc table.
Proof.
  assert (P : { m | parse_basic_metrics
                      (str "DELI 5 50.00 7 GROCERY 10 150.00 9") = Ok m
                    /\ length (dept_df m) = 2 })
    by (eexists; split; vm_compute; reflexivity).
  destruct P as (m & P & L).
  destruct (@X17_department_chart_shows_every_row DataFrame_raises None
              _ m (str "gpt-5-mini") false false P)
    as (total & shown & after & r & W & D).
  destruct (dept_df m) as [|r0 df] eqn:E; [discriminate L|].
  destruct D as (table & -> & Pm & St).
  exists m, total, table, after, r. rewrite E. repeat split; assumption.
Defined.

(** ** The payments sum *)

Lemma add_nonneg (x y : float) :
  nonneg x = true -> nonneg y = true -> nonneg (add x y) = true.
Proof.
  destruct x as [[]|[]| |[] mx ex]; try discriminate;
    destruct y as [[]|[]| |[] my ey]; try discriminate; intros _ _;
    try reflexivity.
  unfold add, SFadd. cbn [cond_Zopp].
  set (ez := Z.min ex ey).
  destruct (shl_align mx ex ez) as [mx' ex'].
  destruct (shl_align my ey ez) as [my' ey']. cbn [fst].
  change (Z.pos mx' + Z.pos my')%Z with (Z.pos (mx' + my')).
  unfold binary_normalize, binary_round.
  destruct (shl_align (mx' + my') ez _) as [mz ez'].
  apply binary_round_aux_nonneg. lia.
Qed.

Lemma sum_pays_nonneg (vs : list pay_val) :
  forall acc total,
    nonneg acc = true ->
    (forall v, In v vs -> amount v = true) ->
    fold_left
      (fun acc v =>
         a <- acc ;;
         match v with
         | Amt f => Ok (add a f)
         | Tok _ =>
             Raise (TypeError (str "unsupported operand type(s) for +: 'float' and 'str'"))
         end)
      vs (Ok acc) = Ok total ->
    nonneg total = true.
Proof.
  induction vs as [|v vs IH]; intros acc total N A H; cbn [fold_left] in H.
  - now inversion H; subst.
  - cbn [bind] in H. destruct v as [tok|f].
    + specialize (A (Tok tok) (or_introl eq_refl)). discriminate A.
    + apply (IH (add acc f) total); [|intros v I; apply A; now right|exact H].
      apply add_nonneg; [exact N|]. apply (A (Amt f)). now left.
Qed.

(** X18.  The sum of the payments in the KPI row: after an extraction
    that succeeds, [sum] over the payments raises nothing and its value
    is a non-negative number, never NaN (it may be plus infinity); it is
    the third metric the page draws. *)
Theorem X18_payments_sum_is_a_non_negative_number :
  forall other c t m model button run_auto,
    parse_basic_metrics t = Ok m ->
    exists total after r,
      sum_pays (values (payments m)) = Ok total
      /\ nonneg total = true
      /\ page other c (Some t) model button run_auto
         = (Metric (str "🛒 Merchandise Sales") (subtotal m)
              :: Metric (str "🧾 Tax Total") (tax_total m)
              :: Metric (str "💵 Payments (sum)") total
              :: after, r).
Proof.
  intros other c t m model button run_auto P.
  pose proof P as P'. apply parse_basic_metrics_fields in P'.
  destruct P' as (_ & _ & _ & _ & _ & _ & Pay & _).
  assert (A : forall v, In v (values (payments m)) -> is_amt v = true)
    by (eapply parse_payments_amounts, Pay).
  destruct (sum_pays_amounts _ A) as [total S].
  rewrite (@page_run other c t m model button run_auto total P S).
  cbv zeta. generalize (RawText (firstn 20000 t)); intros raw.
  set (ai := if button || run_auto then _ else _).
  eexists total, _, (outcome ai). split; [exact S|]. split.
  - unfold sum_pays in S.
    apply (@sum_pays_nonneg (values (payments m)) (of_int 0) total);
      [reflexivity| |exact S].
    intros v I. unfold values in I. apply in_map_iff in I as ([k v'] & <- & I).
    apply (@parse_payments_nonneg t (payments m) Pay k v' I).
  - unfold kpi_widgets. cbn [app]. reflexivity.
Qed.

Lemma X18_payments_sum_is_a_non_negative_number_witness :
  exists total,
    sum_pays [Amt (dec 7525 2); Amt (dec 1000 2); Amt zero; Amt zero;
              Amt zero; Amt zero] = Ok total
    /\ nonneg total = true.
Proof.
  assert (P : { m | parse_basic_metrics (str "Cash: 75.25 Visa: 10.00") = Ok m
                    /\ values (payments m)
                       = [Amt (dec 7525 2); Amt (dec 1000 2); Amt zero;
                          Amt zero; Amt zero; Amt zero] })
    by (eexists; split; vm_compute; reflexivity).
  destruct P as (m & P & V).
  destruct (@X18_payments_sum_is_a_non_negative_number DataFrame_raises None
              _ m (str "gpt-5-mini") false false P)
    as (total & _ & _ & S & N & _).
  exists total. rewrite <- V. split; assumption.
Defined.
